(** * Session store of bmcweb ([include/sessions.hpp])

    A shallow embedding of [persistent_data::UserSession] and
    [persistent_data::SessionStore], and the properties of session
    creation, lookup, idle expiry, bulk revocation and reconstruction
    from the persisted document.

    Session records are shared objects ([std::shared_ptr<UserSession>]):
    the store's map and every handle given to a caller point to the same
    object, and [loginSessionByToken] writes through the pointer.  The
    model keeps the objects in a heap and the pointers as locations. *)

From Stdlib Require Import ZArith String Ascii List.
From stdpp Require Import base option gmap strings list fin_maps pretty sorting.

Local Open Scope Z_scope.
Local Open Scope string_scope.

(** ** Time

    [std::chrono::steady_clock] time points and durations are counts of
    clock ticks, one tick a nanosecond; [std::chrono::seconds] values are
    converted to ticks before they are compared with a difference of time
    points.  The counts are 64-bit.  The readings of the clock and their
    differences stay far from the bounds of that type and are integers
    here.  The timeout is set by the caller without a check of its range,
    and its conversion to ticks is a multiplication in 64 bits:
    [nanoseconds] below. *)

Definition time := Z.

Definition ticksPerSecond : Z := 1000000000.

Definition seconds (n : Z) : Z := n * ticksPerSecond.

(** A signed 64-bit count: the value the machine leaves of an integer. *)
Definition wrap64 (z : Z) : Z := (z + 2 ^ 63) mod 2 ^ 64 - 2 ^ 63.

(** The conversion of a [std::chrono::seconds] value to the ticks of
    [steady_clock::duration], as the comparison of a difference of time
    points with the timeout makes it: the count is multiplied by
    [1000000000] in 64 bits, and a product out of the range of the type
    comes out wrapped around. *)
Definition nanoseconds (n : Z) : Z := wrap64 (n * ticksPerSecond).

Arguments nanoseconds : simpl never.

(** The timeouts whose count of ticks fits in 64 bits, a little over 292
    years either way; for these the conversion is exact. *)
Definition representable (n : Z) : Prop :=
  -9223372036 <= n <= 9223372036.

(** ** Session records *)

(** [constexpr std::size_t sessionTokenSize = 20]. *)
Definition sessionTokenSize : nat := 20.

Inductive PersistenceType :=
| TIMEOUT
| SINGLE_REQUEST.

#[global] Instance PersistenceType_eq_dec : EqDecision PersistenceType.
Proof. solve_decision. Defined.

Record UserSession := mkUserSession {
  uniqueId : string;
  sessionToken : string;
  username : string;
  csrfToken : string;
  clientId : option string;
  clientIp : string;
  lastUpdated : time;
  persistence : PersistenceType;
  cookieAuth : bool;
  isConfigureSelfOnly : bool;
  userRole : string;
  userGroups : list string
}.

(** A value-initialised record, [std::make_shared<UserSession>()]: empty
    strings, the clock's epoch, and the member initialisers of the
    struct. *)
Definition emptySession : UserSession :=
  mkUserSession "" "" "" "" None "" 0 TIMEOUT false false "" [].

Definition set_lastUpdated (t : time) (s : UserSession) : UserSession :=
  mkUserSession (uniqueId s) (sessionToken s) (username s) (csrfToken s)
    (clientId s) (clientIp s) t (persistence s) (cookieAuth s)
    (isConfigureSelfOnly s) (userRole s) (userGroups s).

(** ** Pointers and the heap of session objects *)

Definition loc := nat.

(** A [std::shared_ptr<UserSession>]: [None] is [nullptr]. *)
Definition ptr := option loc.

Definition nullptr : ptr := None.

Abbreviation heap := (gmap loc UserSession).

(** [p->...]: the object a pointer refers to.  Dereferencing [nullptr] is
    undefined in the source: an operation that does so has no result
    here, and the operations that dereference return an [option]. *)
Definition deref (h : heap) (p : ptr) : option UserSession :=
  match p with
  | Some l => h !! l
  | None => None
  end.

(** ** The store *)

(** [AuthConfigMethods]; its member [sessionToken] is [authSessionToken]
    here, the name being taken by the member of [UserSession]. *)
Record AuthConfigMethods := mkAuthConfigMethods {
  basic : bool;
  authSessionToken : bool;
  xtoken : bool;
  cookie : bool;
  tls : bool
}.

Record SessionStore := mkSessionStore {
  authTokens : gmap string ptr;
  lastTimeoutUpdate : time;
  needWrite : bool;
  timeoutInSeconds : Z;
  authMethodsConfig : AuthConfigMethods
}.

(** The store together with the session objects its pointers and the
    callers' handles refer to. *)
Record World := mkWorld {
  objects : heap;
  store : SessionStore
}.

Definition set_authTokens (m : gmap string ptr) (st : SessionStore) :=
  mkSessionStore m (lastTimeoutUpdate st) (needWrite st)
    (timeoutInSeconds st) (authMethodsConfig st).

Definition set_lastTimeoutUpdate (t : time) (st : SessionStore) :=
  mkSessionStore (authTokens st) t (needWrite st)
    (timeoutInSeconds st) (authMethodsConfig st).

Definition set_needWrite (b : bool) (st : SessionStore) :=
  mkSessionStore (authTokens st) (lastTimeoutUpdate st) b
    (timeoutInSeconds st) (authMethodsConfig st).

Definition set_timeoutInSeconds (n : Z) (st : SessionStore) :=
  mkSessionStore (authTokens st) (lastTimeoutUpdate st) (needWrite st)
    n (authMethodsConfig st).

(** ** The entropy source

    [bmcweb::OpenSSLGenerator] is declared in [ossl_random.hpp]; the
    store uses it through [dist(gen)], a draw in the range
    [0 .. alphanum.size() - 1], and [gen.error()], a flag that is raised
    when the underlying source fails and is never lowered.  The outcomes
    of the successive draws are a parameter of the model. *)

Record draw := mkDraw {
  value : nat;
  fault : bool
}.

Record OpenSSLGenerator := mkGen {
  outcomes : nat -> draw;
  position : nat;
  err : bool
}.

(** [bmcweb::OpenSSLGenerator gen;] *)
Definition newGenerator (src : nat -> draw) : OpenSSLGenerator :=
  mkGen src 0 false.

(** [dist(gen)] *)
Definition dist (g : OpenSSLGenerator) : nat * OpenSSLGenerator :=
  let d := outcomes g (position g) in
  (value d, mkGen (outcomes g) (S (position g)) (err g || fault d)).

Definition error (g : OpenSSLGenerator) : bool := err g.

Definition alphanum : list ascii :=
  list_ascii_of_string
    "0123456789ABCDEFGHIJKLMNOPQRSTUVWXYZabcdefghijklmnopqrstuvwxyz".

(** [alphanum[i]]; the distribution only yields indices of the array. *)
Definition alphanumAt (i : nat) : ascii := nth i alphanum "0"%char.

(** The three loops of [generateUserSession] that fill a string of [n]
    characters: each character is drawn, and the function returns as soon
    as the generator reports an error. *)
Fixpoint randomString (n : nat) (g : OpenSSLGenerator)
  : option (string * OpenSSLGenerator) :=
  match n with
  | O => Some (EmptyString, g)
  | S n' =>
      let '(i, g1) := dist g in
      if error g1 then None
      else
        match randomString n' g1 with
        | Some (s, g2) => Some (String (alphanumAt i) s, g2)
        | None => None
        end
  end.

(** [std::make_shared] followed by [authTokens.emplace(key, session)]:
    when the key is free the new object is entered under it; when the
    key is taken nothing is inserted, the new object dies with its last
    pointer, and the iterator returned designates the entry already in
    the map.  The pointer in the result is [it.first->second]. *)
Definition emplace (key : string) (session : UserSession) (w : World)
  : ptr * World :=
  match authTokens (store w) !! key with
  | Some existing => (existing, w)
  | None =>
      let l := fresh (dom (objects w)) in
      (Some l,
       mkWorld (<[l := session]> (objects w))
         (set_authTokens (<[key := Some l]> (authTokens (store w)))
            (store w)))
  end.

(** ** [SessionStore::generateUserSession]

    [clientIp] is the address as [redfish::ip_util::toString] renders
    it.  The result is the returned pointer and the world after the
    call. *)
Definition generateUserSession (src : nat -> draw) (now : time)
    (username : string) (clientIp : string) (clientId : option string)
    (persistence : PersistenceType) (isConfigureSelfOnly : bool)
    (w : World) : ptr * World :=
  match randomString sessionTokenSize (newGenerator src) with
  | None => (nullptr, w)
  | Some (sessionToken, g1) =>
    match randomString sessionTokenSize g1 with
    | None => (nullptr, w)
    | Some (csrfToken, g2) =>
      match randomString 10 g2 with
      | None => (nullptr, w)
      | Some (uniqueId, _) =>
        let session :=
          mkUserSession uniqueId sessionToken username csrfToken clientId
            clientIp now persistence false isConfigureSelfOnly "" [] in
        let '(it, w1) := emplace sessionToken session w in
        (it,
         mkWorld (objects w1)
           (set_needWrite (bool_decide (persistence = TIMEOUT)) (store w1)))
      end
    end
  end.

(** ** [SessionStore::applySessionTimeouts]

    The [while] loop visits every entry of the map once; erasing the
    current entry does not disturb the others.  It dereferences the
    pointer of each entry it visits. *)
Fixpoint sweepEntries (timeNow : time) (h : heap)
    (entries : list (string * ptr)) (st : SessionStore)
  : option SessionStore :=
  match entries with
  | [] => Some st
  | (key, p) :: rest =>
      match deref h p with
      | None => None
      | Some s =>
          if bool_decide
               (nanoseconds (timeoutInSeconds st)
                <= timeNow - lastUpdated s)
          then
            sweepEntries timeNow h rest
              (set_needWrite true
                 (set_authTokens (delete key (authTokens st)) st))
          else sweepEntries timeNow h rest st
      end
  end.

Definition applySessionTimeouts (timeNow : time) (w : World)
  : option World :=
  let st := store w in
  if bool_decide (seconds 1 < timeNow - lastTimeoutUpdate st) then
    match
      sweepEntries timeNow (objects w) (map_to_list (authTokens st))
        (set_lastTimeoutUpdate timeNow st)
    with
    | Some st' => Some (mkWorld (objects w) st')
    | None => None
    end
  else Some w.

(** ** [SessionStore::loginSessionByToken]

    [timeNow] is the clock reading taken by the sweep, [now] the later
    one stored in the record.  The key equality of the map,
    [crow::utility::ConstantTimeCompare], decides equality of strings. *)
Definition loginSessionByToken (timeNow now : time) (token : string)
    (w : World) : option (ptr * World) :=
  match applySessionTimeouts timeNow w with
  | None => None
  | Some w1 =>
      if bool_decide (String.length token ≠ sessionTokenSize) then
        Some (nullptr, w1)
      else
        match authTokens (store w1) !! token with
        | None => Some (nullptr, w1)
        | Some userSession =>
            (* userSession->lastUpdated = ... *)
            match userSession with
            | None => None
            | Some l =>
                match objects w1 !! l with
                | None => None
                | Some s =>
                    Some (userSession,
                          mkWorld (<[l := set_lastUpdated now s]> (objects w1))
                            (store w1))
                end
            end
        end
  end.

(** ** [SessionStore::getSessionByUid] *)
Fixpoint findByUid (h : heap) (uid : string) (entries : list (string * ptr))
  : option ptr :=
  match entries with
  | [] => Some nullptr
  | (_, p) :: rest =>
      match deref h p with
      | None => None
      | Some s =>
          if bool_decide (uniqueId s = uid) then Some p
          else findByUid h uid rest
      end
  end.

Definition getSessionByUid (timeNow : time) (uid : string) (w : World)
  : option (ptr * World) :=
  match applySessionTimeouts timeNow w with
  | None => None
  | Some w1 =>
      match
        findByUid (objects w1) uid (map_to_list (authTokens (store w1)))
      with
      | None => None
      | Some p => Some (p, w1)
      end
  end.

(** ** [SessionStore::removeSession]

    The release of the management-console lock is compiled in only with
    [BMCWEB_ENABLE_IBM_MANAGEMENT_CONSOLE] and is not part of the store. *)
Definition removeSession (session : ptr) (w : World) : option World :=
  match deref (objects w) session with
  | None => None
  | Some s =>
      Some (mkWorld (objects w)
              (set_needWrite true
                 (set_authTokens
                    (delete (sessionToken s) (authTokens (store w)))
                    (store w))))
  end.

(** ** [SessionStore::getUniqueIds]

    The vector holds pointers to the [uniqueId] member of session
    objects; an element of the result is the location of the object. *)
Fixpoint collectUniqueIds (h : heap) (getAll : bool) (type : PersistenceType)
    (entries : list (string * ptr)) : option (list loc) :=
  match entries with
  | [] => Some []
  | (_, p) :: rest =>
      match p, deref h p with
      | Some l, Some s =>
          match collectUniqueIds h getAll type rest with
          | None => None
          | Some ret =>
              if getAll || bool_decide (type = persistence s)
              then Some (l :: ret)
              else Some ret
          end
      | _, _ => None
      end
  end.

Definition getUniqueIds (timeNow : time) (getAll : bool)
    (type : PersistenceType) (w : World) : option (list loc * World) :=
  match applySessionTimeouts timeNow w with
  | None => None
  | Some w1 =>
      match
        collectUniqueIds (objects w1) getAll type
          (map_to_list (authTokens (store w1)))
      with
      | None => None
      | Some ret => Some (ret, w1)
      end
  end.

(** ** [std::erase_if] on the map

    Every entry is visited once and erased when the predicate holds. *)
Fixpoint eraseEntries (pred : string * ptr -> option bool)
    (entries : list (string * ptr)) (m : gmap string ptr)
  : option (gmap string ptr) :=
  match entries with
  | [] => Some m
  | e :: rest =>
      match pred e with
      | None => None
      | Some true => eraseEntries pred rest (delete (fst e) m)
      | Some false => eraseEntries pred rest m
      end
  end.

Definition erase_if (m : gmap string ptr)
    (pred : string * ptr -> option bool) : option (gmap string ptr) :=
  eraseEntries pred (map_to_list m) m.

(** ** [SessionStore::removeSessionsByUsername] *)
Definition byUsername (h : heap) (name : string) (value : string * ptr)
  : option bool :=
  match snd value with
  | None => Some false
  | Some l =>
      match h !! l with
      | None => None
      | Some s => Some (bool_decide (username s = name))
      end
  end.

Definition removeSessionsByUsername (name : string) (w : World)
  : option World :=
  match erase_if (authTokens (store w)) (byUsername (objects w) name) with
  | None => None
  | Some m => Some (mkWorld (objects w) (set_authTokens m (store w)))
  end.

(** ** [SessionStore::removeSessionsByUsernameExceptSession]

    [session->uniqueId] is evaluated only for an entry of the user
    ([&&] does not evaluate its right operand otherwise). *)
Definition byUsernameExcept (h : heap) (name : string) (session : ptr)
    (value : string * ptr) : option bool :=
  match snd value with
  | None => Some false
  | Some l =>
      match h !! l with
      | None => None
      | Some s =>
          if bool_decide (username s = name) then
            match deref h session with
            | None => None
            | Some kept => Some (bool_decide (uniqueId s ≠ uniqueId kept))
            end
          else Some false
      end
  end.

Definition removeSessionsByUsernameExceptSession (name : string)
    (session : ptr) (w : World) : option World :=
  match
    erase_if (authTokens (store w))
      (byUsernameExcept (objects w) name session)
  with
  | None => None
  | Some m => Some (mkWorld (objects w) (set_authTokens m (store w)))
  end.

(** ** [SessionStore::updateSessionTimeout] *)
Definition updateSessionTimeout (newTimeoutInSeconds : Z) (w : World)
  : World :=
  mkWorld (objects w)
    (set_needWrite true (set_timeoutInSeconds newTimeoutInSeconds (store w))).

(** ** The persisted document

    A [nlohmann::json] value.  Objects are maps with one value per key;
    the payload of a number or of a binary value plays no part here. *)
#[warnings="-register-all"]
Inductive json :=
| JNull
| JObject (members : gmap string json)
| JArray (elements : list json)
| JString (s : string)
| JBool (b : bool)
| JInt (z : Z)
| JUnsigned (n : N)
| JFloat (bits : Z)
| JBinary (bytes : list Z)
| JDiscarded.

(** [j.items()]: the members of an object with their keys, the elements
    of an array with their index printed in decimal as key, nothing for
    [null], and any other value itself with the empty key.  An object
    holds one value per key; the loop of [fromJson] assigns each member
    of the record from a key of its own, so the order in which the
    members of an object are visited plays no part (lemma
    [foldl_present]). *)
Definition items (j : json) : list (string * json) :=
  match j with
  | JNull => []
  | JObject members => map_to_list members
  | JArray elements => imap (fun i v => (pretty i, v)) elements
  | _ => [("", j)]
  end.

(** [element.value().get_ptr<const std::string*>()] *)
Definition get_string (v : json) : option string :=
  match v with
  | JString s => Some s
  | _ => None
  end.

(** The body of the loop of [UserSession::fromJson]. *)
Definition fromJsonElement (u : UserSession) (element : string * json)
  : UserSession :=
  match get_string (snd element) with
  | None => u
  | Some thisValue =>
      let key := fst element in
      if String.eqb key "unique_id" then
        mkUserSession thisValue (sessionToken u) (username u) (csrfToken u)
          (clientId u) (clientIp u) (lastUpdated u) (persistence u)
          (cookieAuth u) (isConfigureSelfOnly u) (userRole u) (userGroups u)
      else if String.eqb key "session_token" then
        mkUserSession (uniqueId u) thisValue (username u) (csrfToken u)
          (clientId u) (clientIp u) (lastUpdated u) (persistence u)
          (cookieAuth u) (isConfigureSelfOnly u) (userRole u) (userGroups u)
      else if String.eqb key "csrf_token" then
        mkUserSession (uniqueId u) (sessionToken u) (username u) thisValue
          (clientId u) (clientIp u) (lastUpdated u) (persistence u)
          (cookieAuth u) (isConfigureSelfOnly u) (userRole u) (userGroups u)
      else if String.eqb key "username" then
        mkUserSession (uniqueId u) (sessionToken u) thisValue (csrfToken u)
          (clientId u) (clientIp u) (lastUpdated u) (persistence u)
          (cookieAuth u) (isConfigureSelfOnly u) (userRole u) (userGroups u)
      else if String.eqb key "client_id" then
        mkUserSession (uniqueId u) (sessionToken u) (username u) (csrfToken u)
          (Some thisValue) (clientIp u) (lastUpdated u) (persistence u)
          (cookieAuth u) (isConfigureSelfOnly u) (userRole u) (userGroups u)
      else if String.eqb key "client_ip" then
        mkUserSession (uniqueId u) (sessionToken u) (username u) (csrfToken u)
          (clientId u) thisValue (lastUpdated u) (persistence u)
          (cookieAuth u) (isConfigureSelfOnly u) (userRole u) (userGroups u)
      else u
  end.

Definition isEmpty (s : string) : bool :=
  match s with
  | EmptyString => true
  | String _ _ => false
  end.

(** ** [UserSession::fromJson]

    [now] is the reading of the steady clock.  The function hands the
    only pointer to the new object to its caller; the result is the
    object, [None] for [nullptr]. *)
Definition fromJson (now : time) (j : json) : option UserSession :=
  let userSession := foldl fromJsonElement emptySession (items j) in
  if isEmpty (uniqueId userSession) || isEmpty (username userSession)
     || isEmpty (sessionToken userSession) || isEmpty (csrfToken userSession)
  then None
  else
    Some (mkUserSession (uniqueId userSession) (sessionToken userSession)
            (username userSession) (csrfToken userSession)
            (clientId userSession) (clientIp userSession) now TIMEOUT
            (cookieAuth userSession) (isConfigureSelfOnly userSession)
            (userRole userSession) (userGroups userSession)).

(** * Token generation, as a specification *)

(** No draw among the [n] draws from position [a] on reports a fault. *)
Definition noFault (src : nat -> draw) (a n : nat) : bool :=
  forallb (fun i => negb (fault (src i))) (seq a n).

(** The characters selected by the [n] draws from position [a] on. *)
Fixpoint drawn (src : nat -> draw) (a n : nat) : string :=
  match n with
  | O => EmptyString
  | S n' => String (alphanumAt (value (src a))) (drawn src (S a) n')
  end.

(** The record [generateUserSession] builds from fault-free draws. *)
Definition newSession (src : nat -> draw) (now : time) (name ip : string)
    (cid : option string) (pers : PersistenceType) (selfOnly : bool)
  : UserSession :=
  mkUserSession (drawn src 40 10) (drawn src 0 20) name (drawn src 20 20)
    cid ip now pers false selfOnly "" [].

(** * Invariants of the store *)

(** Every entry of the map holds a pointer to a session object whose
    [sessionToken] is the key of the entry.  All operations of the store
    keep it. *)
Definition store_wf (w : World) : Prop :=
  map_Forall
    (fun key p => sessionToken <$> deref (objects w) p = Some key)
    (authTokens (store w)).

(** Every entry of the map holds a pointer to a session object. *)
Definition allocated (w : World) : Prop :=
  map_Forall (fun _ p => is_Some (deref (objects w) p))
    (authTokens (store w)).

(** A pointer in the map that is not null refers to an object, as a
    [shared_ptr] does. *)
Definition no_dangling (w : World) : Prop :=
  map_Forall
    (fun _ (p : ptr) =>
       match p with
       | Some l => is_Some (objects w !! l)
       | None => True
       end)
    (authTokens (store w)).

#[global] Instance store_wf_dec w : Decision (store_wf w).
Proof. unfold store_wf. apply _. Defined.

#[global] Instance allocated_dec w : Decision (allocated w).
Proof. unfold allocated. apply _. Defined.

#[global] Instance no_dangling_dec w : Decision (no_dangling w).
Proof.
  unfold no_dangling. apply map_Forall_dec. intros k [l|]; apply _.
Defined.

(** * The sweep and the lookups, as a specification *)

(** The test of the sweep on one entry: [Some true] for an entry whose
    session has been idle for the timeout or longer. *)
Definition sweepPred (timeNow : time) (timeout : Z) (h : heap)
    (e : string * ptr) : option bool :=
  match deref h (snd e) with
  | Some s =>
      Some (bool_decide (nanoseconds timeout <= timeNow - lastUpdated s))
  | None => None
  end.

Definition expiredEntry (timeNow : time) (timeout : Z) (h : heap)
    (e : string * ptr) : bool :=
  match sweepPred timeNow timeout h e with
  | Some b => b
  | None => false
  end.

(** The world a run of the sweep at [timeNow] leaves. *)
Definition sweptWorld (timeNow : time) (w : World) : World :=
  let st := store w in
  mkWorld (objects w)
    (mkSessionStore
       (filter
          (fun e =>
             sweepPred timeNow (timeoutInSeconds st) (objects w) e
             <> Some true)
          (authTokens st))
       timeNow
       (needWrite st
        || existsb (expiredEntry timeNow (timeoutInSeconds st) (objects w))
             (map_to_list (authTokens st)))
       (timeoutInSeconds st)
       (authMethodsConfig st)).

(** The world [applySessionTimeouts] leaves: swept when more than one
    second has passed since the last run, untouched otherwise. *)
Definition afterSweep (timeNow : time) (w : World) : World :=
  if bool_decide (seconds 1 < timeNow - lastTimeoutUpdate (store w))
  then sweptWorld timeNow w else w.

(** The lookup operations of the store, each of which starts with
    [applySessionTimeouts()]. *)
Inductive LookupCall :=
| LoginSessionByToken (now : time) (token : string)
| GetSessionByUid (uid : string)
| GetUniqueIds (getAll : bool) (type : PersistenceType).

(** The world after a lookup whose sweep reads the clock at [timeNow]. *)
Definition lookupWorld (c : LookupCall) (timeNow : time) (w : World)
  : option World :=
  match c with
  | LoginSessionByToken now token =>
      snd <$> loginSessionByToken timeNow now token w
  | GetSessionByUid uid => snd <$> getSessionByUid timeNow uid w
  | GetUniqueIds getAll type => snd <$> getUniqueIds timeNow getAll type w
  end.

(** * The persisted document, as the specification reads it *)

(** The string a document holds under [key]: the document is an object,
    it has the key, and the value is a string. *)
Definition field (j : json) (key : string) : option string :=
  match j with
  | JObject members =>
      match members !! key with
      | Some (JString s) => Some s
      | _ => None
      end
  | _ => None
  end.

Definition mandatoryKeys : list string :=
  ["unique_id"; "username"; "session_token"; "csrf_token"].

Definition recognizedKeys : list string :=
  mandatoryKeys ++ ["client_id"; "client_ip"].

(** The four mandatory fields are present as strings and not empty. *)
Definition mandatoryPresent (j : json) : Prop :=
  forall key, key ∈ mandatoryKeys ->
    exists s, field j key = Some s /\ s <> "".

(** The record the fields of a document describe, before the clock and
    the persistence are set. *)
Definition parsed (j : json) : UserSession :=
  mkUserSession
    (default "" (field j "unique_id"))
    (default "" (field j "session_token"))
    (default "" (field j "username"))
    (default "" (field j "csrf_token"))
    (field j "client_id")
    (default "" (field j "client_ip"))
    0 TIMEOUT false false "" [].

(** A key that starts with a character after the digits; no index of an
    array prints as such a key. *)
Definition lettered (key : string) : Prop :=
  match key with
  | String c _ => (58 <= nat_of_ascii c)%nat
  | EmptyString => False
  end.

(** The members the loop never writes. *)
Definition untouched (u : UserSession) :=
  (lastUpdated u, persistence u, cookieAuth u, isConfigureSelfOnly u,
   userRole u, userGroups u).

(** * Example worlds and entropy sources *)

Definition exampleConfig : AuthConfigMethods :=
  mkAuthConfigMethods true true true true false.

(** A store as its constructor leaves it, with the clock's epoch as
    [lastTimeoutUpdate]. *)
Definition emptyWorld : World :=
  mkWorld ∅ (mkSessionStore ∅ 0 false 1800 exampleConfig).

(** Draw number [i] selects [alphanum[i]]. *)
Definition countingSource : nat -> draw := fun i => mkDraw i false.

(** A source whose token differs from that of [countingSource] and whose
    last ten draws, those of the [uniqueId], are the same. *)
Definition shiftedSource : nat -> draw :=
  fun i => mkDraw (if (i <? 20)%nat then S i else i) false.

(** A source that fails at draw 25, in the middle of the CSRF token, and
    works again afterwards. *)
Definition failingSource : nat -> draw :=
  fun i => mkDraw i (i =? 25)%nat.

Definition aliceWorld : World :=
  snd (generateUserSession countingSource 5 "alice" "10.0.0.1" None
         TIMEOUT false emptyWorld).

(** Alice logs in ten seconds after the epoch; a lookup 99.5 seconds
    later runs the sweep and keeps her session; then the idle timeout is
    lowered to 99 seconds. *)
Definition idleWorld : World :=
  let w1 :=
    snd (generateUserSession countingSource (seconds 10) "alice" "10.0.0.1"
           None TIMEOUT false emptyWorld) in
  let w2 :=
    default w1
      (lookupWorld (GetUniqueIds true SINGLE_REQUEST)
         (seconds 109 + seconds 1 / 2) w1) in
  updateSessionTimeout 99 w2.

(** Alice has logged out: [removeSession] on her handle. *)
Definition loggedOutWorld : World :=
  default emptyWorld (removeSession (Some 0%nat) aliceWorld).

(** Draw number [i] selects [alphanum[(i + d) mod 62]]. *)
Definition offsetSource (d : nat) : nat -> draw :=
  fun i => mkDraw ((i + d) mod 62) false.

(** Alice holds two sessions and bob one that is not written to disk;
    the creation of the last left the dirty flag clear. *)
Definition threeSessionWorld : World :=
  let w2 :=
    snd (generateUserSession (offsetSource 1) 6 "alice" "10.0.0.9" None
           TIMEOUT false aliceWorld) in
  snd (generateUserSession (offsetSource 2) 7 "bob" "10.0.0.3" None
         SINGLE_REQUEST false w2).

(** Persisted documents: a complete one with a key the store does not
    know and a value that is not a string, and one without the CSRF
    token. *)
Definition completeDocument : json :=
  JObject
    (list_to_map
       [("unique_id", JString "efghijklmn");
        ("username", JString "alice");
        ("session_token", JString "0123456789ABCDEFGHIJ");
        ("csrf_token", JString "KLMNOPQRSTUVWXYZabcd");
        ("client_ip", JString "10.0.0.1");
        ("client_id", JInt 7);
        ("color", JString "blue")]).

Definition noCsrfDocument : json :=
  JObject
    (list_to_map
       [("unique_id", JString "efghijklmn");
        ("username", JString "alice");
        ("session_token", JString "0123456789ABCDEFGHIJ")]).

(** * The authentication methods *)

(** [element.value().get_ptr<const bool*>()] *)
Definition get_bool (v : json) : option bool :=
  match v with
  | JBool b => Some b
  | _ => None
  end.

(** The body of the loop of [AuthConfigMethods::fromJson]. *)
Definition authFromJsonElement (c : AuthConfigMethods)
    (element : string * json) : AuthConfigMethods :=
  match get_bool (snd element) with
  | None => c
  | Some value =>
      let key := fst element in
      if String.eqb key "XToken" then
        mkAuthConfigMethods (basic c) (authSessionToken c) value (cookie c)
          (tls c)
      else if String.eqb key "Cookie" then
        mkAuthConfigMethods (basic c) (authSessionToken c) (xtoken c) value
          (tls c)
      else if String.eqb key "SessionToken" then
        mkAuthConfigMethods (basic c) value (xtoken c) (cookie c) (tls c)
      else if String.eqb key "BasicAuth" then
        mkAuthConfigMethods value (authSessionToken c) (xtoken c) (cookie c)
          (tls c)
      else if String.eqb key "TLS" then
        mkAuthConfigMethods (basic c) (authSessionToken c) (xtoken c)
          (cookie c) value
      else c
  end.

(** [AuthConfigMethods::fromJson]: the configuration after the call on
    the configuration [c]. *)
Definition AuthConfigMethods_fromJson (c : AuthConfigMethods) (j : json)
  : AuthConfigMethods :=
  foldl authFromJsonElement c (items j).

(** [SessionStore::updateAuthMethodsConfig]; the boolean tells whether
    [std::raise(SIGHUP)] was executed. *)
Definition updateAuthMethodsConfig (config : AuthConfigMethods) (w : World)
  : bool * World :=
  let st := store w in
  let isTLSchanged := negb (Bool.eqb (tls (authMethodsConfig st)) (tls config)) in
  (isTLSchanged,
   mkWorld (objects w)
     (mkSessionStore (authTokens st) (lastTimeoutUpdate st) true
        (timeoutInSeconds st) config)).

(** The boolean a document holds under [key]. *)
Definition boolField (j : json) (key : string) : option bool :=
  match j with
  | JObject members =>
      match members !! key with
      | Some (JBool b) => Some b
      | _ => None
      end
  | _ => None
  end.

(** * Sequences of calls *)

(** A call of one of the operations of the store that change it or may
    do so, with its arguments and the clock readings it takes. *)
Inductive StoreCall :=
| CallGenerateUserSession (src : nat -> draw) (now : time)
    (name ip : string) (cid : option string) (pers : PersistenceType)
    (selfOnly : bool)
| CallLookup (c : LookupCall) (timeNow : time)
| CallRemoveSession (session : ptr)
| CallRemoveSessionsByUsername (name : string)
| CallRemoveSessionsByUsernameExceptSession (name : string) (session : ptr)
| CallUpdateSessionTimeout (newTimeoutInSeconds : Z)
| CallUpdateAuthMethodsConfig (config : AuthConfigMethods).

(** The world after a call; [None] when the call dereferences a null
    pointer. *)
Definition runCall (c : StoreCall) (w : World) : option World :=
  match c with
  | CallGenerateUserSession src now name ip cid pers selfOnly =>
      Some (snd (generateUserSession src now name ip cid pers selfOnly w))
  | CallLookup c timeNow => lookupWorld c timeNow w
  | CallRemoveSession session => removeSession session w
  | CallRemoveSessionsByUsername name => removeSessionsByUsername name w
  | CallRemoveSessionsByUsernameExceptSession name session =>
      removeSessionsByUsernameExceptSession name session w
  | CallUpdateSessionTimeout n => Some (updateSessionTimeout n w)
  | CallUpdateAuthMethodsConfig config =>
      Some (snd (updateAuthMethodsConfig config w))
  end.

Fixpoint runCalls (cs : list StoreCall) (w : World) : option World :=
  match cs with
  | [] => Some w
  | c :: rest =>
      match runCall c w with
      | Some w1 => runCalls rest w1
      | None => None
      end
  end.

(** The store as [SessionStore()] constructs it: no session, the dirty
    flag clear, a timeout of 1800 seconds, the time of the last sweep at
    the epoch of the clock; the configuration comes from build
    options. *)
Definition initialWorld (config : AuthConfigMethods) : World :=
  mkWorld ∅ (mkSessionStore ∅ 0 false 1800 config).

(** The handle a call takes, if it takes one, points to a session. *)
Definition handleValid (c : StoreCall) (w : World) : Prop :=
  match c with
  | CallRemoveSession session
  | CallRemoveSessionsByUsernameExceptSession _ session =>
      is_Some (deref (objects w) session)
  | _ => True
  end.

Definition exampleCalls : list StoreCall :=
  [CallGenerateUserSession countingSource 5 "alice" "10.0.0.1" None
     TIMEOUT false;
   CallGenerateUserSession (offsetSource 1) 6 "bob" "10.0.0.3" None
     SINGLE_REQUEST false;
   CallLookup (GetUniqueIds true TIMEOUT) (seconds 20);
   CallRemoveSessionsByUsername "alice"].

(** * The assembly resource of a chassis ([redfish-core/lib/assembly.hpp])

    The handlers answer a request with a chain of D-Bus method calls,
    each with a callback that inspects the reply and either reports an
    error, stops, or issues the next call.  The replies are inputs of
    the model; a handler is the function from the replies to what it has
    done to the response when the chain ends. *)

(** Functions of the libraries the handlers use on paths:
    [sdbusplus::message::object_path(p).filename()], the path
    [object_path(p) /= "assembly"], and the URI
    [boost::urls::format("/redfish/v1/Chassis/{}/Assembly#/Assemblies/{}",
    chassis, index)]. *)
Record PathOps := mkPathOps {
  filename : string -> string;
  assemblyPathOf : string -> string;
  assemblyItemUri : string -> string -> string
}.

(** The replies of the object mapper and of the services: for each call
    the value of the [error_code] and the data.  A [std::variant] reply
    is [None] when it does not hold the expected alternative. *)
Record Bus := mkBus {
  getSubTreePaths : Z * list string;
  getObject : string -> Z * list (string * list string);
  getAssociations :
    string -> string -> Z * option (list (string * string * string));
  getEndpoints : string -> Z * option (list string);
  getSubTree : Z * list (string * list (string * list string))
}.

(** [if (ec)] *)
Definition failed (ec : Z) : bool := negb (ec =? 0)%Z.

(** A call of one of the functions of [error_messages.hpp] on the
    response. *)
Inductive Message :=
| InternalError
| ResourceNotFound (resourceType id : string)
| PropertyMissing (name : string)
| PropertyUnknown (name : string)
| PropertyValueFormatError (value name : string)
| Success.

(** The response: the members of [res.jsonValue], which is null or an
    object, and the messages reported, the latest last. *)
Record Response := mkResponse {
  jsonValue : gmap string json;
  messages : list Message
}.

Definition report (m : Message) (res : Response) : Response :=
  mkResponse (jsonValue res) (messages res ++ [m]).

(** [res.jsonValue[key] = value] *)
Definition setMember (key : string) (value : json) (res : Response)
  : Response :=
  mkResponse (<[key := value]> (jsonValue res)) (messages res).

(** What a chain of callbacks ends with: nothing more, or the call of
    [getAssemblyProperties]. *)
Inductive Next :=
| Done
| GetAssemblyProperties (chassisPath : string) (assemblies : list string).

(** [operator<=] on [std::string], by which [std::sort] orders paths. *)
Definition stringLe (a b : string) : Prop := String.leb a b = true.

#[global] Instance stringLe_dec a b : Decision (stringLe a b).
Proof. unfold stringLe. apply _. Defined.

(** [std::sort] on a vector of strings. *)
Definition sortStrings (l : list string) : list string :=
  merge_sort stringLe l.

(** [std::find(v.begin(), v.end(), x) != v.end()] *)
Definition contains (v : list string) (x : string) : bool :=
  bool_decide (x ∈ v).

(** The callback of [checkAssemblyInterface].  The call of
    [setAssemblyLocationIndicators] in the branch of a PATCH is commented
    out in the source. *)
Definition checkAssemblyInterface (bus : Bus) (res : Response)
    (chassisPath : string) (assemblies : list string)
    (setLocationIndicatorActiveFlag : bool) : Response * Next :=
  let '(ec, subtree) := getSubTree bus in
  if failed ec then (report InternalError res, Done)
  else
    match subtree with
    | [] => (res, Done)
    | _ =>
        let updatedAssemblyList :=
          List.filter (contains assemblies) (subtree.*1) in
        match updatedAssemblyList with
        | [] => (res, Done)
        | _ =>
            if setLocationIndicatorActiveFlag then (res, Done)
            else
              (res,
               GetAssemblyProperties chassisPath
                 (sortStrings updatedAssemblyList))
        end
    end.

(** [getAssemblyEndpoints] with its callback. *)
Definition getAssemblyEndpoints (ops : PathOps) (bus : Bus) (res : Response)
    (chassisPath : string) (setLocationIndicatorActiveFlag : bool)
  : Response * Next :=
  let '(ec, endpoints) := getEndpoints bus (assemblyPathOf ops chassisPath) in
  if failed ec then (report InternalError res, Done)
  else
    match endpoints with
    | None => (res, Done)
    | Some assemblyList =>
        checkAssemblyInterface bus res chassisPath (sortStrings assemblyList)
          setLocationIndicatorActiveFlag
    end.

(** [checkForAssemblyAssociations] with its callback. *)
Definition checkForAssemblyAssociations (ops : PathOps) (bus : Bus)
    (res : Response) (chassisPath service : string)
    (setLocationIndicatorActiveFlag : bool) : Response * Next :=
  let '(ec, associations) := getAssociations bus service chassisPath in
  if failed ec then (report InternalError res, Done)
  else
    match associations with
    | None => (report InternalError res, Done)
    | Some value =>
        let isAssmeblyAssociation :=
          existsb (fun a => String.eqb (fst (fst a)) "assembly") value in
        if isAssmeblyAssociation then
          getAssemblyEndpoints ops bus res chassisPath
            setLocationIndicatorActiveFlag
        else (res, Done)
    end.

(** The loops of the callback of [checkAssociation]: the first service
    with the interface of association definitions. *)
Fixpoint firstAssociationService (object : list (string * list string))
  : option string :=
  match object with
  | [] => None
  | (serviceName, interfaceList) :: rest =>
      if existsb
           (fun interface =>
              String.eqb interface
                "xyz.openbmc_project.Association.Definitions")
           interfaceList
      then Some serviceName
      else firstAssociationService rest
  end.

(** [checkAssociation] with its callback. *)
Definition checkAssociation (ops : PathOps) (bus : Bus) (res : Response)
    (chassisPath : string) (setLocationIndicatorActiveFlag : bool)
  : Response * Next :=
  if isEmpty (filename ops chassisPath) then (report InternalError res, Done)
  else
    let res1 :=
      if setLocationIndicatorActiveFlag then res
      else
        setMember "Assemblies@odata.count" (JInt 0)
          (setMember "Assemblies" (JArray []) res) in
    let '(ec, object) := getObject bus chassisPath in
    if failed ec then (report InternalError res1, Done)
    else
      match firstAssociationService object with
      | Some serviceName =>
          checkForAssemblyAssociations ops bus res1 chassisPath serviceName
            setLocationIndicatorActiveFlag
      | None => (res1, Done)
      end.

(** The loop of the callback of [assembly::getChassis] over the chassis
    paths. *)
Fixpoint getChassisLoop (ops : PathOps) (bus : Bus) (res : Response)
    (chassisID : string) (setLocationIndicatorActiveFlag : bool)
    (chassisPaths : list string) : Response * Next :=
  match chassisPaths with
  | [] => (report (ResourceNotFound "Chassis" chassisID) res, Done)
  | path :: rest =>
      if negb (String.eqb (filename ops path) chassisID) then
        getChassisLoop ops bus res chassisID setLocationIndicatorActiveFlag
          rest
      else
        let res1 :=
          if setLocationIndicatorActiveFlag then res
          else
            setMember "Id" (JString "Assembly")
              (setMember "Name" (JString "Assembly Collection")
                 (setMember "@odata.id"
                    (JString
                       ("/redfish/v1/Chassis/" ++ chassisID ++ "/Assembly"))
                    (setMember "@odata.type"
                       (JString "#Assembly.v1_3_0.Assembly") res))) in
        checkAssociation ops bus res1 path setLocationIndicatorActiveFlag
  end.

(** [assembly::getChassis] with its callback: what the two routes of
    [requestRoutesAssembly] run, GET with the flag off and PATCH with
    the flag on. *)
Definition getChassis (ops : PathOps) (bus : Bus) (res : Response)
    (chassisID : string) (setLocationIndicatorActiveFlag : bool)
  : Response * Next :=
  let '(ec, chassisPaths) := getSubTreePaths bus in
  if failed ec then (report InternalError res, Done)
  else
    getChassisLoop ops bus res chassisID setLocationIndicatorActiveFlag
      chassisPaths.

(** The element [getAssemblyProperties] appends for the assembly with
    the given index. *)
Definition assemblyItem (ops : PathOps) (chassis : string)
    (assemblyIndex : nat) : gmap string json :=
  <["MemberId" := JString (pretty assemblyIndex)]>
    (<["@odata.id" :=
         JString (assemblyItemUri ops chassis (pretty assemblyIndex))]>
       (<["@odata.type" := JString "#Assembly.v1_3_0.AssemblyData"]> ∅)).

(** [j[key] = value] on an element of an array: a null element becomes
    an object, an object gets the member, any other value makes the
    library throw. *)
Definition setElementMember (key : string) (value : json) (element : json)
  : option json :=
  match element with
  | JNull => Some (JObject {[key := value]})
  | JObject members => Some (JObject (<[key := value]> members))
  | _ => None
  end.

(** One round of the loop of [getAssemblyProperties], as far as the
    function itself changes the response: the element is appended to
    [res.jsonValue["Assemblies"]] (a null or missing member becomes an
    array, any value but an array makes the library throw), the element
    at the index gets its name, and the count is set.  The D-Bus calls
    the round issues are answered later, by other callbacks.  [None]
    stands for an exception of the JSON library. *)
Definition getAssemblyPropertiesRound (ops : PathOps) (chassis : string)
    (assemblyIndex : nat) (assembly : string) (res : Response)
  : option Response :=
  match
    match jsonValue res !! "Assemblies" with
    | None | Some JNull => Some []
    | Some (JArray elements) => Some elements
    | Some _ => None
    end
  with
  | None => None
  | Some elements =>
      let tempArray :=
        (elements ++ [JObject (assemblyItem ops chassis assemblyIndex)])%list
      in
      match tempArray !! assemblyIndex with
      | None => None
      | Some element =>
          match
            setElementMember "Name" (JString (filename ops assembly)) element
          with
          | None => None
          | Some named =>
              let assemblyArray := <[assemblyIndex := named]> tempArray in
              Some
                (setMember "Assemblies@odata.count"
                   (JUnsigned (N.of_nat (length assemblyArray)))
                   (setMember "Assemblies" (JArray assemblyArray) res))
          end
      end
  end.

Fixpoint getAssemblyPropertiesLoop (ops : PathOps) (chassis : string)
    (assemblyIndex : nat) (assemblies : list string) (res : Response)
  : option Response :=
  match assemblies with
  | [] => Some res
  | assembly :: rest =>
      match
        getAssemblyPropertiesRound ops chassis assemblyIndex assembly res
      with
      | Some res1 =>
          getAssemblyPropertiesLoop ops chassis (S assemblyIndex) rest res1
      | None => None
      end
  end.

(** [getAssemblyProperties]: the response when the function returns. *)
Definition getAssemblyProperties (ops : PathOps) (chassisPath : string)
    (assemblies : list string) (res : Response) : option Response :=
  getAssemblyPropertiesLoop ops (filename ops chassisPath) 0 assemblies res.

(** The handler of GET on [/redfish/v1/Chassis/<str>/Assembly/]: the
    response when the chain of callbacks has ended and
    [getAssemblyProperties], if it was reached, has returned. *)
Definition handleAssemblyGet (ops : PathOps) (bus : Bus) (chassisId : string)
    (res : Response) : option Response :=
  match getChassis ops bus res chassisId false with
  | (res1, Done) => Some res1
  | (res1, GetAssemblyProperties chassisPath assemblies) =>
      getAssemblyProperties ops chassisPath assemblies res1
  end.

(** The handler of PATCH on the same route. *)
Definition handleAssemblyPatch (ops : PathOps) (bus : Bus)
    (chassisID : string) (res : Response) : Response * Next :=
  getChassis ops bus res chassisID true.

(** What a chain leaves of a response it has not written to: the same
    members, and at most one message, of an internal error or of a
    chassis that was not found. *)
Definition inert (chassisID : string) (res : Response)
    (r : Response * Next) : Prop :=
  snd r = Done /\
  jsonValue (fst r) = jsonValue res /\
  (messages (fst r) = messages res \/
   messages (fst r) = (messages res ++ [InternalError])%list \/
   messages (fst r)
     = (messages res ++ [ResourceNotFound "Chassis" chassisID])%list).

(** The element of the array for the assembly at an index, with its
    name. *)
Definition namedItem (ops : PathOps) (chassis : string) (i : nat)
    (assembly : string) : json :=
  JObject
    (<["Name" := JString (filename ops assembly)]>
       (assemblyItem ops chassis i)).

#[global] Instance stringLe_total : Total stringLe.
Proof. intros a b. apply String.leb_total. Defined.

(** [std::string::rfind(needle)]: the last position at which the needle
    occurs in the string, [None] for [npos].  The empty needle occurs at
    the end. *)
Fixpoint rfind (needle hay : string) : option nat :=
  match hay with
  | EmptyString => if String.prefix needle hay then Some O else None
  | String _ rest =>
      match rfind needle rest with
      | Some pos => Some (S pos)
      | None => if String.prefix needle hay then Some O else None
      end
  end.

(** The string without its first [n] characters. *)
Fixpoint dropChars (n : nat) (s : string) : string :=
  match n, s with
  | O, _ => s
  | S _, EmptyString => EmptyString
  | S n', String _ rest => dropChars n' rest
  end.

(** [s.replace(pos, len, str)]: [None] when [pos] is past the end, where
    the library throws. *)
Fixpoint replace (pos len : nat) (str s : string) : option string :=
  match pos with
  | O => Some (str ++ dropChars len s)
  | S pos' =>
      match s with
      | EmptyString => None
      | String c rest => String c <$> replace pos' len str rest
      end
  end.

(** [std::distance(v.begin(), std::find(v.begin(), v.end(), x))], [None]
    when [std::find] reaches the end. *)
Fixpoint indexOf (x : string) (v : list string) : option nat :=
  match v with
  | [] => None
  | y :: rest =>
      if String.eqb y x then Some O else S <$> indexOf x rest
  end.

(** The targets of the associations named [assembly]. *)
Definition assemblyTargets (value : list (string * string * string))
  : list string :=
  snd <$> List.filter (fun a => String.eqb (fst (fst a)) "assembly") value.

(** [assembly::fillWithAssemblyId] with its two callbacks.
    [assemblyPropPath] is [assemblyUriPropPath.to_string()]; the
    response member it names is indexed with the string as key.  [None]
    stands for the exception of [replace]. *)
Definition fillWithAssemblyId (ops : PathOps) (bus : Bus) (res : Response)
    (assemblyParentServ assemblyParentObjPath assemblyParentIface
       assemblyPropPath assembledObjPath assembledUriVal : string)
  : option Response :=
  if negb (String.eqb assemblyParentIface
             "xyz.openbmc_project.Inventory.Item.Chassis")
  then Some (report InternalError res)
  else
    let '(ec, associations) :=
      getAssociations bus assemblyParentServ assemblyParentObjPath in
    if failed ec then Some (report InternalError res)
    else
      match associations with
      | None => Some (report InternalError res)
      | Some value =>
          match assemblyTargets value with
          | [] => Some (report InternalError res)
          | assemblyAssoc =>
              let '(ec1, objects) := getSubTree bus in
              if failed ec1 then Some (report InternalError res)
              else
                match objects with
                | [] => Some (report InternalError res)
                | _ =>
                    match
                      List.filter (contains assemblyAssoc) (objects.*1)
                    with
                    | [] => Some (report InternalError res)
                    | implAssemblyAssocs =>
                        match
                          indexOf assembledObjPath
                            (sortStrings implAssemblyAssocs)
                        with
                        | None => Some (report InternalError res)
                        | Some assembledObjectId =>
                            let name := filename ops assembledObjPath in
                            match rfind name assembledUriVal with
                            | None => Some (report InternalError res)
                            | Some assembledObjectNamePos =>
                                match
                                  replace assembledObjectNamePos
                                    (String.length name)
                                    (pretty assembledObjectId)
                                    assembledUriVal
                                with
                                | None => None
                                | Some uriValwithId =>
                                    Some
                                      (setMember assemblyPropPath
                                         (JString uriValwithId) res)
                                end
                            end
                        end
                    end
                end
          end
      end.

(** The assemblies [checkAssemblyInterface] hands on: the object paths
    of the subtree that are among the endpoints of the association, in
    ascending order. *)
Definition implementedAssemblies (endpoints : list string)
    (subtree : list (string * list (string * list string))) : list string :=
  sortStrings (List.filter (contains (sortStrings endpoints)) (subtree.*1)).

(** Stand-ins for the path functions in the examples: the part of a path
    after its last slash, the path with [/assembly] appended, and the URI
    with the two parts inserted as they are. *)
Fixpoint lastComponent (acc : string) (p : string) : string :=
  match p with
  | EmptyString => acc
  | String c rest =>
      if Ascii.eqb c "/"%char then lastComponent EmptyString rest
      else lastComponent (acc ++ String c EmptyString) rest
  end.

Definition examplePathOps : PathOps :=
  mkPathOps (lastComponent EmptyString)
    (fun p => p ++ "/assembly")
    (fun chassis index =>
       "/redfish/v1/Chassis/" ++ chassis ++ "/Assembly#/Assemblies/" ++ index).

(** A system with one chassis that has a battery and a panel among its
    assemblies; a fan is among the endpoints of the association but not
    in the subtree of the mapper. *)
Definition exampleBus : Bus :=
  mkBus
    (0, ["/xyz/openbmc_project/inventory/system/board";
         "/xyz/openbmc_project/inventory/system/chassis"])
    (fun _ =>
       (0, [("xyz.openbmc_project.Inventory.Manager",
             ["xyz.openbmc_project.Inventory.Item.Chassis";
              "xyz.openbmc_project.Association.Definitions"])]))
    (fun _ _ =>
       (0, Some [("assembly", "chassis",
                  "/xyz/openbmc_project/inventory/system/chassis/panel")]))
    (fun _ =>
       (0, Some ["/xyz/openbmc_project/inventory/system/chassis/tod_battery";
                 "/xyz/openbmc_project/inventory/system/chassis/fan0";
                 "/xyz/openbmc_project/inventory/system/chassis/panel"]))
    (0, [("/xyz/openbmc_project/inventory/system/chassis/tod_battery", []);
         ("/xyz/openbmc_project/inventory/system/chassis/panel", []);
         ("/xyz/openbmc_project/inventory/system/chassis/cpu0", [])]).

Definition emptyResponse : Response := mkResponse ∅ [].

(** The same system, with the associations of the chassis as the mapper
    derives the endpoints from them. *)
Definition consistentBus : Bus :=
  mkBus
    (getSubTreePaths exampleBus)
    (getObject exampleBus)
    (fun _ _ =>
       (0, Some [("assembly", "chassis",
                  "/xyz/openbmc_project/inventory/system/chassis/tod_battery");
                 ("contained_by", "contains",
                  "/xyz/openbmc_project/inventory/system");
                 ("assembly", "chassis",
                  "/xyz/openbmc_project/inventory/system/chassis/fan0");
                 ("assembly", "chassis",
                  "/xyz/openbmc_project/inventory/system/chassis/panel")]))
    (getEndpoints exampleBus)
    (getSubTree exampleBus).

(** ** The chassis assembly handler *)

(** [EBADR], the error of the mapper for a path that has no such
    association. *)
Definition EBADR : Z := 53.

(** What the handler gets from outside: the path
    [chassis_utils::getValidChassisPath] hands to its callback for a
    chassis id ([None] for [std::nullopt]), the reply of the mapper to
    [dbus::utility::getAssociatedSubTreePaths] for an association path,
    and [boost::urls::format("/redfish/v1/Chassis/{}/Assembly", id)]. *)
Record ChassisEnv := mkChassisEnv {
  getValidChassisPath : string -> option string;
  getAssociatedSubTreePaths : string -> Z * list string;
  assemblyUri : string -> string
}.

(** [doGetAssociatedChassisAssembly] with the callback of its call. *)
Definition doGetAssociatedChassisAssembly (ops : PathOps) (env : ChassisEnv)
    (res : Response) (chassisPath : string)
    (callback : list string -> Response -> option Response)
  : option Response :=
  let endpointPath := assemblyPathOf ops chassisPath in
  let '(ec, subtreePaths) := getAssociatedSubTreePaths env endpointPath in
  if failed ec then
    if negb (ec =? EBADR)%Z then Some (report InternalError res)
    else callback [] res
  else
    let sortedAssemblyList := sortStrings subtreePaths in
    callback sortedAssemblyList res.

(** [getChassisAssembly] *)
Definition getChassisAssembly (ops : PathOps) (env : ChassisEnv)
    (res : Response) (chassisID : string)
    (callback : option string -> list string -> Response -> option Response)
  : option Response :=
  match getValidChassisPath env chassisID with
  | None => callback None [] res
  | Some chassisPath =>
      doGetAssociatedChassisAssembly ops env res chassisPath
        (fun sortedAssemblyList => callback (Some chassisPath)
                                     sortedAssemblyList)
  end.

(** [handleChassisAssemblyGet]: the response when the chain has ended
    and [getAssemblyProperties], if it was reached, has returned.  The
    chassis it asks for is the one named [chassis]. *)
Definition handleChassisAssemblyGet (ops : PathOps) (env : ChassisEnv)
    (chassisID : string) (res : Response) : option Response :=
  getChassisAssembly ops env res "chassis"
    (fun validChassisPath assemblyList res =>
       match validChassisPath, assemblyList with
       | None, _ | _, [] =>
           Some (report (ResourceNotFound "Chassis" chassisID) res)
       | Some chassisPath, _ =>
           getAssemblyProperties ops chassisPath assemblyList
             (setMember "Assemblies@odata.count" (JInt 0)
                (setMember "Assemblies" (JArray [])
                   (setMember "Id" (JString "Assembly")
                      (setMember "Name" (JString "Assembly Collection")
                         (setMember "@odata.id"
                            (JString (assemblyUri env chassisID))
                            (setMember "@odata.type"
                               (JString "#Assembly.v1_3_0.Assembly")
                               res))))))
       end).

(** ** The battery of the time of day *)

(** The calls [doBatteryCM] makes to change the system, in the order it
    makes them: a method of the manager of systemd on
    [xyz.openbmc_project.adcsensor.service] with the mode [replace], and
    the property [Functional] of [OperationalStatus] set on a path at a
    service. *)
Inductive Action :=
| UnitCall (method : string)
| SetFunctional (serviceName path : string) (value : bool).

(** The replies: the error code of the call of a method of the manager,
    the reply of the mapper to [getDbusObject] for a path, and the error
    code of [setProperty] at a service for a path. *)
Record BatteryBus := mkBatteryBus {
  unitReply : string -> Z;
  getDbusObject : string -> Z * list (string * list string);
  setFunctionalReply : string -> string -> Z
}.

(** [startOrStopADCSensor] with its callback. *)
Definition startOrStopADCSensor (bb : BatteryBus) (start : bool)
    (st : Response * list Action) : Response * list Action :=
  let method := if negb start then "StopUnit" else "StartUnit" in
  let ec := unitReply bb method in
  let acts := (snd st ++ [UnitCall method])%list in
  if failed ec then (report InternalError (fst st), acts)
  else (report Success (fst st), acts).

(** The loop of [afterGetDbusObjectDoBatteryCM] over the services of the
    object, with the callback of [setProperty]. *)
Fixpoint setFunctionalAtFirst (bb : BatteryBus) (st : Response * list Action)
    (assembly : string) (object : list (string * list string))
  : Response * list Action :=
  match object with
  | [] => (report InternalError (fst st), snd st)
  | (serviceName, interfaceList) :: rest =>
      if negb
           (contains interfaceList
              "xyz.openbmc_project.State.Decorator.OperationalStatus")
      then setFunctionalAtFirst bb st assembly rest
      else
        let ec2 := setFunctionalReply bb serviceName assembly in
        let acts := (snd st ++ [SetFunctional serviceName assembly true])%list
        in
        if failed ec2 then (report InternalError (fst st), acts)
        else startOrStopADCSensor bb true (fst st, acts)
  end.

Definition afterGetDbusObjectDoBatteryCM (bb : BatteryBus)
    (st : Response * list Action) (assembly : string) (ec : Z)
    (object : list (string * list string)) : Response * list Action :=
  if failed ec then (report InternalError (fst st), snd st)
  else setFunctionalAtFirst bb st assembly object.

(** [doBatteryCM] *)
Definition doBatteryCM (bb : BatteryBus) (st : Response * list Action)
    (assembly : string) (readyToRemove : bool) : Response * list Action :=
  if readyToRemove then startOrStopADCSensor bb false st
  else
    let '(ec, object) := getDbusObject bb assembly in
    afterGetDbusObjectDoBatteryCM bb st assembly ec object.

(** ** The properties of an assembly

    The callbacks that fill the element of an assembly when a service
    answers.  Each is the function from the reply to what it does to the
    response; [None] stands for an exception of the JSON library. *)

(** [j[k1][k2]...] as the place of an update: [operator[]] with a key
    turns a null value into an object and reads a missing member as
    null; on any other value it throws. *)
Fixpoint updatePath (keys : list string) (f : json -> option json) (j : json)
  : option json :=
  match keys with
  | [] => f j
  | key :: rest =>
      match j with
      | JNull =>
          match updatePath rest f JNull with
          | Some v => Some (JObject {[key := v]})
          | None => None
          end
      | JObject members =>
          match updatePath rest f (default JNull (members !! key)) with
          | Some v => Some (JObject (<[key := v]> members))
          | None => None
          end
      | _ => None
      end
  end.

(** [j[k1][k2]... = value] *)
Definition setPath (keys : list string) (value : json) (j : json)
  : option json :=
  updatePath keys (fun _ => Some value) j.

(** [res.jsonValue["Assemblies"]] taken as a reference: a missing member
    is entered as null. *)
Definition touchAssemblies (res : Response) : Response :=
  match jsonValue res !! "Assemblies" with
  | Some _ => res
  | None => setMember "Assemblies" JNull res
  end.

(** An update of [res.jsonValue["Assemblies"].at(assemblyIndex)]: a
    missing member is read as null, and [at] throws on a value that is
    not an array and on an index past the end. *)
Definition updateAssembly (assemblyIndex : nat) (f : json -> option json)
    (res : Response) : option Response :=
  match jsonValue res !! "Assemblies" with
  | Some (JArray elements) =>
      match elements !! assemblyIndex with
      | Some assemblyData =>
          match f assemblyData with
          | Some data =>
              Some
                (setMember "Assemblies"
                   (JArray (<[assemblyIndex := data]> elements)) res)
          | None => None
          end
      | None => None
      end
  | _ => None
  end.

(** [if (p != nullptr) assemblyData[key] = *p] *)
Definition setIfPresent (key : string) (p : option string) (j : json)
  : option json :=
  match p with
  | Some value => setPath [key] (JString value) j
  | None => Some j
  end.

(** The callback of [getAssemblyAsset]: [success] is the result of
    [unpackPropertiesNoThrow], the four pointers what it has found. *)
Definition getAssemblyAsset (assemblyIndex : nat) (ec1 : Z) (success : bool)
    (partNumber serialNumber sparePartNumber model : option string)
    (res : Response) : option Response :=
  if failed ec1 then Some (report InternalError res)
  else if negb success then Some (report InternalError res)
  else
    updateAssembly assemblyIndex
      (fun assemblyData =>
         match setIfPresent "PartNumber" partNumber assemblyData with
         | Some d1 =>
             match setIfPresent "SerialNumber" serialNumber d1 with
             | Some d2 =>
                 match setIfPresent "SparePartNumber" sparePartNumber d2 with
                 | Some d3 => setIfPresent "Model" model d3
                 | None => None
                 end
             | None => None
             end
         | None => None
         end)
      res.

(** The callback of [getAssemblyLocationCode]. *)
Definition getAssemblyLocationCode (assemblyIndex : nat) (ec1 : Z)
    (value : string) (res : Response) : option Response :=
  if failed ec1 then Some (report InternalError res)
  else
    updateAssembly assemblyIndex
      (setPath ["Location"; "PartLocation"; "ServiceLabel"] (JString value))
      res.

(** [boost::system::errc::io_error] *)
Definition io_error : Z := 5.

(** The two members [afterGetReadyToRemoveOfTodBattery] writes. *)
Definition setReadyToRemove (ready : bool) (assemblyData : json)
  : option json :=
  updatePath ["Oem"; "OpenBMC"]
    (fun oemOpenBMC =>
       match
         setPath ["@odata.type"] (JString "#OemAssembly.v1_0_0.OpenBMC")
           oemOpenBMC
       with
       | Some o => setPath ["ReadyToRemove"] (JBool ready) o
       | None => None
       end)
    assemblyData.

(** [afterGetReadyToRemoveOfTodBattery] *)
Definition afterGetReadyToRemoveOfTodBattery (assemblyIndex : nat) (ec : Z)
    (res : Response) : option Response :=
  let res1 := touchAssemblies res in
  if failed ec then
    if (ec =? io_error)%Z then
      updateAssembly assemblyIndex (setReadyToRemove true) res1
    else Some (report InternalError res1)
  else updateAssembly assemblyIndex (setReadyToRemove false) res1.

(** [getAssemblyPresence], up to the call it issues. *)
Definition getAssemblyPresence (assemblyIndex : nat) (res : Response)
  : option Response :=
  updateAssembly assemblyIndex
    (setPath ["Status"; "State"] (JString "Enabled")) res.

(** The callback of [getAssemblyPresence]. *)
Definition getAssemblyPresenceReply (assemblyIndex : nat) (ec : Z)
    (value : bool) (res : Response) : option Response :=
  if failed ec then Some (report InternalError res)
  else if negb value then
    updateAssembly assemblyIndex
      (setPath ["Status"; "State"] (JString "Absent")) res
  else Some res.

(** The callback of [getAssemblyHeath]. *)
Definition getAssemblyHeath (assemblyIndex : nat) (ec : Z) (functional : bool)
    (res : Response) : option Response :=
  if failed ec then Some (report InternalError res)
  else
    updateAssembly assemblyIndex
      (fun assemblyData =>
         if negb functional then
           setPath ["Status"; "Health"] (JString "Critical") assemblyData
         else setPath ["Status"; "Health"] (JString "OK") assemblyData)
      res.

(** The callback of [getLocationIndicatorActive] in
    [getAssemblyProperties]. *)
Definition setLocationIndicatorActiveMember (assemblyIndex : nat)
    (asserted : bool) (res : Response) : option Response :=
  updateAssembly assemblyIndex
    (setPath ["LocationIndicatorActive"] (JBool asserted)) res.

(** The loops of the callback of [getDbusObject] in
    [getAssemblyProperties], as far as they change the response
    themselves: of the four functions called for the interfaces only
    [getAssemblyPresence] writes before it issues its call. *)
Fixpoint dispatchInterfaces (assemblyIndex : nat) (interfaceList : list string)
    (res : Response) : option Response :=
  match interfaceList with
  | [] => Some res
  | interface :: rest =>
      match
        if String.eqb interface "xyz.openbmc_project.Inventory.Decorator.Asset"
        then Some res
        else if String.eqb interface
                  "xyz.openbmc_project.Inventory.Decorator.LocationCode"
        then Some res
        else if String.eqb interface
                  "xyz.openbmc_project.State.Decorator.OperationalStatus"
        then Some res
        else if String.eqb interface "xyz.openbmc_project.Inventory.Item"
        then getAssemblyPresence assemblyIndex res
        else Some res
      with
      | Some res1 => dispatchInterfaces assemblyIndex rest res1
      | None => None
      end
  end.

Fixpoint dispatchServices (assemblyIndex : nat)
    (object : list (string * list string)) (res : Response)
  : option Response :=
  match object with
  | [] => Some res
  | (_, interfaceList) :: rest =>
      match dispatchInterfaces assemblyIndex interfaceList res with
      | Some res1 => dispatchServices assemblyIndex rest res1
      | None => None
      end
  end.

Definition afterGetDbusObject (assemblyIndex : nat) (ec : Z)
    (object : list (string * list string)) (res : Response)
  : option Response :=
  if failed ec then Some (report InternalError res)
  else dispatchServices assemblyIndex object res.

(** The replies that reach the callbacks of an assembly. *)
Inductive AssemblyReply :=
| ObjectReply (ec : Z) (object : list (string * list string))
| AssetReply (ec1 : Z) (success : bool)
    (partNumber serialNumber sparePartNumber model : option string)
| LocationCodeReply (ec1 : Z) (value : string)
| ReadyToRemoveReply (ec : Z)
| PresenceReply (ec : Z) (value : bool)
| HealthReply (ec : Z) (functional : bool)
| LocationIndicatorReply (asserted : bool).

Definition runReply (r : nat * AssemblyReply) (res : Response)
  : option Response :=
  let assemblyIndex := fst r in
  match snd r with
  | ObjectReply ec object => afterGetDbusObject assemblyIndex ec object res
  | AssetReply ec1 success partNumber serialNumber sparePartNumber model =>
      getAssemblyAsset assemblyIndex ec1 success partNumber serialNumber
        sparePartNumber model res
  | LocationCodeReply ec1 value =>
      getAssemblyLocationCode assemblyIndex ec1 value res
  | ReadyToRemoveReply ec =>
      afterGetReadyToRemoveOfTodBattery assemblyIndex ec res
  | PresenceReply ec value =>
      getAssemblyPresenceReply assemblyIndex ec value res
  | HealthReply ec functional =>
      getAssemblyHeath assemblyIndex ec functional res
  | LocationIndicatorReply asserted =>
      setLocationIndicatorActiveMember assemblyIndex asserted res
  end.

(** The replies arrive one after the other, in any order. *)
Fixpoint runReplies (rs : list (nat * AssemblyReply)) (res : Response)
  : option Response :=
  match rs with
  | [] => Some res
  | r :: rest =>
      match runReply r res with
      | Some res1 => runReplies rest res1
      | None => None
      end
  end.

(** The members of an object; a null value has none. *)
Definition membersOf (j : json) : gmap string json :=
  match j with
  | JObject members => members
  | _ => ∅
  end.

Definition objectOrNull (j : json) : bool :=
  match j with
  | JNull | JObject _ => true
  | _ => false
  end.

Definition nestedOrNull (key : string) (j : json) : bool :=
  match j with
  | JNull => true
  | JObject members => objectOrNull (default JNull (members !! key))
  | _ => false
  end.

(** An element the callbacks can write to: an object in which the
    members the callbacks go through are absent, null or objects. *)
Definition fillable (assemblyData : json) : bool :=
  match assemblyData with
  | JObject members =>
      objectOrNull (default JNull (members !! "Status"))
      && nestedOrNull "OpenBMC" (default JNull (members !! "Oem"))
      && nestedOrNull "PartLocation" (default JNull (members !! "Location"))
  | _ => false
  end.

(** The members of [Status] in an element. *)
Definition statusOf (members : gmap string json) : gmap string json :=
  membersOf (default JNull (members !! "Status")).

(** The response lists fillable elements. *)
Definition listed (res : Response) (l : list json) : Prop :=
  jsonValue res !! "Assemblies" = Some (JArray l) /\
  Forall (fun d => fillable d = true) l.

(** What a callback leaves of a response that lists fillable elements:
    as many elements, fillable, the others as they were, the other
    members of the response as they were, and at most one message more,
    an internal error. *)
Definition kept (i : nat) (res res' : Response) (l : list json) : Prop :=
  exists l',
    listed res' l' /\
    length l' = length l /\
    (forall j, j <> i -> l' !! j = l !! j) /\
    (forall k, k <> "Assemblies" -> jsonValue res' !! k = jsonValue res !! k)
    /\
    (messages res' = messages res \/
     messages res' = (messages res ++ [InternalError])%list).

(** The replies for the panel: its object with the interfaces, then the
    properties, the health before the presence. *)
Definition panelReplies : list (nat * AssemblyReply) :=
  [(0%nat,
    ObjectReply 0
      [("xyz.openbmc_project.Inventory.Manager",
        ["xyz.openbmc_project.Inventory.Item";
         "xyz.openbmc_project.Inventory.Decorator.Asset";
         "xyz.openbmc_project.State.Decorator.OperationalStatus"])]);
   (0%nat, HealthReply 0 true);
   (0%nat, LocationIndicatorReply false);
   (0%nat, AssetReply 0 true (Some "02WG677") (Some "YL10JH") None None);
   (0%nat, ReadyToRemoveReply io_error);
   (0%nat, LocationCodeReply 0 "U78DA.ND0.WZS0042-D0");
   (0%nat, PresenceReply 0 false)].

(** A response with the panel listed as its only assembly. *)
Definition panelResponse : Response :=
  setMember "Assemblies"
    (JArray
       [namedItem examplePathOps "chassis" 0
          "/xyz/openbmc_project/inventory/system/chassis/panel"])
    emptyResponse.

(** The mapper knows two assemblies of the chassis. *)
Definition exampleChassisEnv : ChassisEnv :=
  mkChassisEnv
    (fun id =>
       if String.eqb id "chassis"
       then Some "/xyz/openbmc_project/inventory/system/chassis"
       else None)
    (fun _ =>
       (0, ["/xyz/openbmc_project/inventory/system/chassis/tod_battery";
            "/xyz/openbmc_project/inventory/system/chassis/panel"]))
    (fun id => "/redfish/v1/Chassis/" ++ id ++ "/Assembly").

(** The mapper has no association of assemblies for the chassis. *)
Definition bareChassisEnv : ChassisEnv :=
  mkChassisEnv (getValidChassisPath exampleChassisEnv)
    (fun _ => (EBADR, []))
    (assemblyUri exampleChassisEnv).

(** The battery is served by the inventory manager, after a service that
    does not have the status; all calls succeed. *)
Definition exampleBatteryBus : BatteryBus :=
  mkBatteryBus
    (fun _ => 0)
    (fun _ =>
       (0, [("xyz.openbmc_project.ObjectMapper",
             ["org.freedesktop.DBus.Properties"]);
            ("xyz.openbmc_project.Inventory.Manager",
             ["xyz.openbmc_project.Inventory.Item.Battery";
              "xyz.openbmc_project.State.Decorator.OperationalStatus"]);
            ("xyz.openbmc_project.Spare",
             ["xyz.openbmc_project.State.Decorator.OperationalStatus"])]))
    (fun _ _ => 0).

(** * Properties *)

(** ** Token generation *)

Lemma drawn_length src a n : String.length (drawn src a n) = n.
Proof. revert a; induction n as [|n IH]; intros a; simpl; auto. Qed.

Lemma randomString_spec n : forall g,
  err g = false ->
  randomString n g =
    if noFault (outcomes g) (position g) n
    then Some (drawn (outcomes g) (position g) n,
               mkGen (outcomes g) (position g + n) false)
    else None.
Proof.
  induction n as [|n IH]; intros g Hg.
  - simpl. rewrite Nat.add_0_r. destruct g; simpl in *; subst; reflexivity.
  - cbn [randomString dist error noFault seq forallb].
    rewrite Hg. cbn [orb err].
    destruct (fault (outcomes g (position g))) eqn:Hf; cbn [negb andb].
    + reflexivity.
    + rewrite IH by reflexivity. cbn [outcomes position].
      fold (noFault (outcomes g) (S (position g)) n).
      destruct (noFault (outcomes g) (S (position g)) n); [|reflexivity].
      cbn [drawn]. do 3 f_equal. lia.
Qed.

Lemma noFault_app src a n m :
  noFault src a (n + m) = noFault src a n && noFault src (a + n) m.
Proof. unfold noFault. rewrite seq_app, forallb_app. reflexivity. Qed.

Lemma noFault_false src a n :
  noFault src a n = false <->
  exists i, (a <= i < a + n)%nat /\ fault (src i) = true.
Proof.
  unfold noFault. split.
  - intros H. apply not_true_iff_false in H.
    destruct (List.existsb (fun i => fault (src i)) (seq a n)) eqn:He.
    + apply existsb_exists in He as (i & Hi & Hfi).
      apply in_seq in Hi. eauto.
    + exfalso. apply H. apply forallb_forall. intros i Hi.
      destruct (fault (src i)) eqn:Hfi; [|reflexivity].
      assert (List.existsb (fun i => fault (src i)) (seq a n) = true)
        by (apply existsb_exists; eauto).
      congruence.
  - intros (i & Hi & Hfi). apply not_true_iff_false. intros H.
    rewrite forallb_forall in H. specialize (H i).
    rewrite Hfi in H. discriminate H. apply in_seq. lia.
Qed.

Lemma generateUserSession_spec src now name ip cid pers selfOnly w :
  generateUserSession src now name ip cid pers selfOnly w =
    if noFault src 0 50 then
      let '(it, w1) :=
        emplace (drawn src 0 20)
          (newSession src now name ip cid pers selfOnly) w in
      (it, mkWorld (objects w1)
             (set_needWrite (bool_decide (pers = TIMEOUT)) (store w1)))
    else (nullptr, w).
Proof.
  unfold generateUserSession, sessionTokenSize, newSession.
  change 50%nat with (20 + (20 + 10))%nat.
  rewrite !noFault_app.
  rewrite randomString_spec by reflexivity. cbn [newGenerator outcomes position].
  destruct (noFault src 0 20); [|reflexivity].
  rewrite randomString_spec by reflexivity. cbn [outcomes position].
  destruct (noFault src (0 + 20) 20); [|reflexivity].
  rewrite randomString_spec by reflexivity. cbn [outcomes position].
  destruct (noFault src (0 + 20 + 20) 10); reflexivity.
Qed.

Arguments drawn : simpl never.

(** ** Invariants *)

Lemma store_wf_allocated w : store_wf w -> allocated w.
Proof.
  unfold store_wf, allocated. intros Hwf.
  eapply map_Forall_impl; [exact Hwf|].
  intros k p H. cbn in H.
  destruct (deref (objects w) p) eqn:Hd; [|discriminate H].
  exists u. reflexivity.
Qed.

Lemma allocated_no_dangling w : allocated w -> no_dangling w.
Proof.
  unfold allocated, no_dangling. intros Hal.
  eapply map_Forall_impl; [exact Hal|].
  intros k [l|] H; [exact H | exact I].
Qed.

Lemma fresh_unallocated (h : heap) : h !! fresh (dom h) = None.
Proof. apply not_elem_of_dom. apply is_fresh. Qed.

Lemma emplace_wf key session w p w' :
  store_wf w ->
  sessionToken session = key ->
  emplace key session w = (p, w') ->
  store_wf w'.
Proof.
  unfold emplace. intros Hwf Hkey.
  destruct (authTokens (store w) !! key) as [q|] eqn:Hq; intros [= <- <-].
  - exact Hwf.
  - unfold store_wf. cbn. apply map_Forall_insert_2.
    + cbn. rewrite lookup_insert_eq. cbn. congruence.
    + intros k q Hk. specialize (Hwf k q Hk). cbn in Hwf.
      destruct q as [l0|]; [|discriminate]. cbn in *.
      destruct (decide (fresh (dom (objects w)) = l0)) as [<-|Hne].
      * rewrite fresh_unallocated in Hwf. discriminate.
      * rewrite lookup_insert_ne by exact Hne. exact Hwf.
Qed.

Lemma set_needWrite_wf b w :
  store_wf w -> store_wf (mkWorld (objects w) (set_needWrite b (store w))).
Proof. intros H. exact H. Qed.

Lemma generateUserSession_wf src now name ip cid pers selfOnly w p w' :
  store_wf w ->
  generateUserSession src now name ip cid pers selfOnly w = (p, w') ->
  store_wf w'.
Proof.
  intros Hwf. rewrite generateUserSession_spec.
  destruct (noFault src 0 50).
  - destruct (emplace _ _ w) as [it w1] eqn:He. intros [= <- <-].
    apply set_needWrite_wf. eapply emplace_wf; [exact Hwf| |exact He].
    reflexivity.
  - intros [= <- <-]. exact Hwf.
Qed.

Lemma store_wf_key w k q s :
  store_wf w ->
  authTokens (store w) !! k = Some q ->
  deref (objects w) q = Some s ->
  sessionToken s = k.
Proof.
  intros Hwf Hk Hd. specialize (Hwf k q Hk). cbn in Hwf.
  rewrite Hd in Hwf. cbn in Hwf. congruence.
Qed.

(** ** Session creation *)

(** C1, as the code has it: on a store whose entries are keyed by the
    token of their record, a call of generateUserSession that returns a
    record returns one that is live under its own sessionToken, and no
    other live entry carries that token.  No entry and no object that
    was there before is overwritten or removed.  When the generated
    token is free the record is the new one, entered under the token;
    when the token is already the key of a live session the collection
    is left as it was and the record returned is the one already there.
    The uniqueId is not compared with those of the live sessions. *)
Theorem generateUserSession_token_unique
    src now name ip cid pers selfOnly w p w' :
  store_wf w ->
  generateUserSession src now name ip cid pers selfOnly w = (p, w') ->
  p <> nullptr ->
  exists s,
    deref (objects w') p = Some s /\
    sessionToken s = drawn src 0 20 /\
    authTokens (store w') !! sessionToken s = Some p /\
    (forall k q s',
        authTokens (store w') !! k = Some q ->
        deref (objects w') q = Some s' ->
        sessionToken s' = sessionToken s -> q = p) /\
    (forall k q,
        authTokens (store w) !! k = Some q ->
        authTokens (store w') !! k = Some q) /\
    (forall l s0, objects w !! l = Some s0 -> objects w' !! l = Some s0) /\
    ((authTokens (store w) !! sessionToken s = None /\
      deref (objects w) p = None /\
      s = newSession src now name ip cid pers selfOnly /\
      authTokens (store w') = <[sessionToken s := p]> (authTokens (store w)))
     \/
     (authTokens (store w) !! sessionToken s = Some p /\
      authTokens (store w') = authTokens (store w) /\
      objects w' = objects w)) /\
    store_wf w'.
Proof.
  intros Hwf Hgen Hp.
  pose proof (generateUserSession_wf _ _ _ _ _ _ _ _ _ _ Hwf Hgen) as Hwf'.
  rewrite generateUserSession_spec in Hgen.
  destruct (noFault src 0 50); [|injection Hgen as <- <-; contradiction].
  unfold emplace in Hgen.
  destruct (authTokens (store w) !! drawn src 0 20) as [q|] eqn:Hq;
    injection Hgen as <- <-; cbn [objects store] in *.
  - (* the token is the key of a live session *)
    pose proof (Hwf _ _ Hq) as Hs. cbn in Hs.
    destruct (deref (objects w) q) as [s|] eqn:Hd; [|discriminate Hs].
    cbn in Hs. injection Hs as Hs.
    exists s. rewrite Hs. cbn.
    split; [reflexivity|]. split; [reflexivity|]. split; [exact Hq|].
    split.
    { intros k q' s' Hk Hd' Htok.
      assert (k = drawn src 0 20) as ->.
      { rewrite <- (store_wf_key _ _ _ _ Hwf Hk Hd'). congruence. }
      congruence. }
    split; [auto|]. split; [auto|]. split; [|exact Hwf'].
    right. auto.
  - (* the token is free *)
    set (l := fresh (dom (objects w))) in *.
    exists (newSession src now name ip cid pers selfOnly). cbn.
    rewrite !lookup_insert_eq.
    split; [reflexivity|]. split; [reflexivity|]. split; [reflexivity|].
    split.
    { intros k q' s' Hk Hd' Htok.
      pose proof (store_wf_key _ _ _ _ Hwf' Hk Hd') as Hkey. cbn in Hkey.
      assert (k = drawn src 0 20) as -> by congruence.
      rewrite lookup_insert_eq in Hk. congruence. }
    split.
    { intros k q Hk. rewrite lookup_insert_ne; [exact Hk|congruence]. }
    split.
    { intros l0 s0 Hl0. rewrite lookup_insert_ne; [exact Hl0|].
      intros Heq. subst l0. unfold l in Hl0.
      rewrite fresh_unallocated in Hl0. discriminate. }
    split; [|exact Hwf'].
    left. split; [exact Hq|].
    split; [exact (fresh_unallocated (objects w))|]. auto.
Qed.

Lemma aliceWorld_wf : store_wf aliceWorld.
Proof. apply (bool_decide_unpack (store_wf aliceWorld)). vm_compute. exact I. Defined.

(** C1 at work: bob logs in after alice with a token of his own; his
    record is the second object and is live under its token. *)
Lemma generateUserSession_token_unique_witness :
  store_wf aliceWorld /\
  exists s,
    deref
      (objects
         (snd (generateUserSession shiftedSource 7 "bob" "10.0.0.3" None
                 SINGLE_REQUEST false aliceWorld)))
      (Some 1%nat) = Some s /\
    sessionToken s = drawn shiftedSource 0 20 /\
    authTokens
      (store
         (snd (generateUserSession shiftedSource 7 "bob" "10.0.0.3" None
                 SINGLE_REQUEST false aliceWorld)))
      !! sessionToken s = Some (Some 1%nat) /\
    store_wf
      (snd (generateUserSession shiftedSource 7 "bob" "10.0.0.3" None
              SINGLE_REQUEST false aliceWorld)).
Proof.
  split; [exact aliceWorld_wf|].
  destruct
    (generateUserSession_token_unique shiftedSource 7 "bob" "10.0.0.3" None
       SINGLE_REQUEST false aliceWorld (Some 1%nat)
       (snd (generateUserSession shiftedSource 7 "bob" "10.0.0.3" None
               SINGLE_REQUEST false aliceWorld)))
    as (s & Hs & Htok & Hlive & _ & _ & _ & _ & Hwf).
  - exact aliceWorld_wf.
  - vm_compute. reflexivity.
  - discriminate.
  - exists s. auto.
Defined.

(** C1, as stated, fails: with the same draws a second call does not
    abort, it returns the record of the first user; and a call with a new
    token and the same last ten draws adds a second live session with the
    uniqueId of the first. *)
Lemma generateUserSession_collision_returns_existing :
  let '(p1, w1) :=
    generateUserSession countingSource 5 "alice" "10.0.0.1" None
      TIMEOUT false emptyWorld in
  let '(p2, w2) :=
    generateUserSession countingSource 6 "mallory" "10.0.0.2" None
      TIMEOUT false w1 in
  let '(p3, w3) :=
    generateUserSession shiftedSource 7 "bob" "10.0.0.3" None
      TIMEOUT false w2 in
  p1 = Some 0%nat /\ p2 = p1 /\
  username <$> deref (objects w2) p2 = Some "alice" /\
  p3 = Some 1%nat /\
  authTokens (store w3) !! "0123456789ABCDEFGHIJ" = Some p1 /\
  authTokens (store w3) !! "123456789ABCDEFGHIJK" = Some p3 /\
  uniqueId <$> deref (objects w3) p1 = Some "efghijklmn" /\
  uniqueId <$> deref (objects w3) p3 = Some "efghijklmn".
Proof. vm_compute. repeat split. Qed.

(** C3: when any of the fifty draws that make up the session token, the
    CSRF token and the uniqueId reports an error, generateUserSession
    returns no record and leaves the session objects and the store as
    they were, whatever the source would deliver afterwards. *)
Theorem generateUserSession_entropy_error
    src now name ip cid pers selfOnly w i :
  (i < 50)%nat ->
  fault (src i) = true ->
  generateUserSession src now name ip cid pers selfOnly w = (nullptr, w).
Proof.
  intros Hi Hf. rewrite generateUserSession_spec.
  assert (noFault src 0 50 = false) as ->; [|reflexivity].
  apply noFault_false. exists i. split; [lia|exact Hf].
Qed.

(** C3 at work: the source fails at draw 25 and nothing changes. *)
Lemma generateUserSession_entropy_error_witness :
  generateUserSession failingSource 9 "alice" "10.0.0.1" None TIMEOUT false
    aliceWorld = (nullptr, aliceWorld).
Proof.
  apply (generateUserSession_entropy_error failingSource 9 "alice"
           "10.0.0.1" None TIMEOUT false aliceWorld 25).
  - lia.
  - reflexivity.
Defined.

(** C6: a call of generateUserSession raises the dirty flag only for a
    session with persistence TIMEOUT: a flag that was clear and is set
    after the call implies TIMEOUT, and whenever the call returns a
    record the flag is set exactly when the persistence is TIMEOUT, so
    creating a SINGLE_REQUEST session leaves it clear. *)
Theorem generateUserSession_needWrite
    src now name ip cid pers selfOnly w p w' :
  generateUserSession src now name ip cid pers selfOnly w = (p, w') ->
  (needWrite (store w) = false -> needWrite (store w') = true ->
   pers = TIMEOUT) /\
  (p <> nullptr ->
   needWrite (store w') = bool_decide (pers = TIMEOUT)) /\
  (p <> nullptr -> pers = SINGLE_REQUEST -> needWrite (store w') = false).
Proof.
  rewrite generateUserSession_spec.
  destruct (noFault src 0 50).
  - destruct (emplace _ _ w) as [it w1]. intros [= <- <-]. cbn.
    split; [|split].
    + intros _ H. apply bool_decide_eq_true in H. exact H.
    + reflexivity.
    + intros _ ->. reflexivity.
  - intros [= <- <-]. split; [|split].
    + congruence.
    + intros H. contradiction.
    + intros H. contradiction.
Qed.

(** C6 at work: a SINGLE_REQUEST session on a clean store leaves the
    dirty flag clear. *)
Lemma generateUserSession_needWrite_witness :
  needWrite
    (store
       (snd (generateUserSession shiftedSource 7 "bob" "10.0.0.3" None
               SINGLE_REQUEST false emptyWorld))) = false.
Proof.
  destruct
    (generateUserSession_needWrite shiftedSource 7 "bob" "10.0.0.3" None
       SINGLE_REQUEST false emptyWorld (Some 0%nat)
       (snd (generateUserSession shiftedSource 7 "bob" "10.0.0.3" None
               SINGLE_REQUEST false emptyWorld)))
    as (_ & _ & H).
  - vm_compute. reflexivity.
  - apply H; [discriminate|reflexivity].
Defined.

(** C7: generateUserSession assigns the dirty flag without looking at
    its old value: when the draws succeed and the persistence is
    SINGLE_REQUEST the flag is clear after the call even though it was
    set before, so a change that was waiting to be written is marked
    clean. *)
Theorem generateUserSession_clears_needWrite
    src now name ip cid selfOnly w :
  needWrite (store w) = true ->
  noFault src 0 50 = true ->
  needWrite
    (store
       (snd (generateUserSession src now name ip cid SINGLE_REQUEST
               selfOnly w))) = false.
Proof.
  intros _ Hok. rewrite generateUserSession_spec, Hok.
  destruct (emplace _ _ w) as [it w1]. reflexivity.
Qed.

(** C7 at work: the logout of alice sets the dirty flag, and the
    SINGLE_REQUEST session of bob that follows clears it. *)
Lemma generateUserSession_clears_needWrite_witness :
  removeSession (Some 0%nat) aliceWorld = Some loggedOutWorld /\
  needWrite (store loggedOutWorld) = true /\
  needWrite
    (store
       (snd (generateUserSession (offsetSource 2) 7 "bob" "10.0.0.3" None
               SINGLE_REQUEST false loggedOutWorld))) = false.
Proof.
  split; [vm_compute; reflexivity|].
  split; [vm_compute; reflexivity|].
  apply (generateUserSession_clears_needWrite (offsetSource 2) 7 "bob"
           "10.0.0.3" None false loggedOutWorld).
  - vm_compute. reflexivity.
  - vm_compute. reflexivity.
Defined.

(** ** Erasing entries *)

Lemma eraseEntries_lookup pred entries : forall m m' k,
  eraseEntries pred entries m = Some m' ->
  m' !! k =
    if existsb
         (fun e => bool_decide (fst e = k) && bool_decide (pred e = Some true))
         entries
    then None else m !! k.
Proof.
  induction entries as [|e rest IH]; intros m m' k; cbn [eraseEntries existsb].
  - intros [= ->]. reflexivity.
  - destruct (pred e) as [[|]|] eqn:He; [| |discriminate].
    + intros H. rewrite (IH _ _ k H).
      rewrite (bool_decide_eq_true_2 (Some true = Some true)) by reflexivity.
      rewrite andb_true_r.
      destruct (decide (fst e = k)) as [Hk|Hk].
      * rewrite (bool_decide_eq_true_2 _ Hk). cbn [orb].
        rewrite Hk, lookup_delete_eq. destruct (existsb _ rest); reflexivity.
      * rewrite (bool_decide_eq_false_2 _ Hk). cbn [orb].
        rewrite lookup_delete_ne by exact Hk. reflexivity.
    + intros H. rewrite (IH _ _ k H).
      rewrite (bool_decide_eq_false_2 (Some false = Some true)) by discriminate.
      rewrite andb_false_r. reflexivity.
Qed.

Lemma eraseEntries_defined pred entries : forall m,
  Forall (fun e => is_Some (pred e)) entries ->
  is_Some (eraseEntries pred entries m).
Proof.
  induction entries as [|e rest IH]; intros m Hall; cbn [eraseEntries].
  - eauto.
  - inversion Hall as [|? ? [b Hb] Hrest]; subst. rewrite Hb.
    destruct b; apply IH; exact Hrest.
Qed.

Lemma erase_if_filter (m : gmap string ptr) pred :
  (forall k p, m !! k = Some p -> is_Some (pred (k, p))) ->
  erase_if m pred = Some (filter (fun e => pred e <> Some true) m).
Proof.
  intros Hdef. unfold erase_if.
  destruct (eraseEntries_defined pred (map_to_list m) m) as [m' Hm'].
  { apply Forall_forall. intros [k p] Hin.
    apply elem_of_map_to_list in Hin. apply Hdef. exact Hin. }
  rewrite Hm'. f_equal. apply map_eq. intros k.
  rewrite (eraseEntries_lookup _ _ _ _ k Hm'), map_lookup_filter.
  destruct (existsb _ (map_to_list m)) eqn:Hex.
  - apply existsb_exists in Hex as ([k' p] & Hin & Hkp).
    apply list_elem_of_In, elem_of_map_to_list in Hin.
    apply andb_true_iff in Hkp as [Hk Hp].
    apply bool_decide_eq_true in Hk. apply bool_decide_eq_true in Hp.
    cbn in Hk. subst k'. rewrite Hin. cbn.
    rewrite option_guard_False; [reflexivity|]. intros Hne. exact (Hne Hp).
  - destruct (m !! k) as [p|] eqn:Hk; [|reflexivity]. cbn.
    rewrite option_guard_True; [reflexivity|]. intros Hp.
    apply not_true_iff_false in Hex. apply Hex.
    apply existsb_exists. exists (k, p). split.
    + apply list_elem_of_In, elem_of_map_to_list. exact Hk.
    + cbn. rewrite (bool_decide_eq_true_2 _ eq_refl).
      rewrite (bool_decide_eq_true_2 _ Hp). reflexivity.
Qed.

(** ** The sweep *)

Lemma sweepEntries_eraseEntries timeNow h entries : forall st,
  sweepEntries timeNow h entries st =
    match
      eraseEntries (sweepPred timeNow (timeoutInSeconds st) h) entries
        (authTokens st)
    with
    | Some m =>
        Some (mkSessionStore m (lastTimeoutUpdate st)
                (needWrite st
                 || existsb (expiredEntry timeNow (timeoutInSeconds st) h)
                      entries)
                (timeoutInSeconds st) (authMethodsConfig st))
    | None => None
    end.
Proof.
  induction entries as [|[key p] rest IH]; intros st;
    cbn [sweepEntries eraseEntries existsb].
  - rewrite orb_false_r. destruct st; reflexivity.
  - assert (sweepPred timeNow (timeoutInSeconds st) h (key, p) =
            match deref h p with
            | Some s =>
                Some (bool_decide
                        (nanoseconds (timeoutInSeconds st)
                         <= timeNow - lastUpdated s))
            | None => None
            end) as Hsp by reflexivity.
    unfold expiredEntry at 1. rewrite Hsp.
    destruct (deref h p) as [s|]; [|reflexivity].
    destruct (bool_decide _) eqn:Hb.
    + rewrite IH. cbn. destruct (eraseEntries _ rest _); [|reflexivity].
      rewrite orb_true_r. reflexivity.
    + rewrite IH. cbn. reflexivity.
Qed.

Lemma applySessionTimeouts_spec timeNow w :
  allocated w ->
  applySessionTimeouts timeNow w = Some (afterSweep timeNow w).
Proof.
  intros Hal. unfold applySessionTimeouts, afterSweep.
  destruct (bool_decide _); [|reflexivity].
  rewrite sweepEntries_eraseEntries. cbn.
  fold (erase_if (authTokens (store w))
          (sweepPred timeNow (timeoutInSeconds (store w)) (objects w))).
  rewrite erase_if_filter; [reflexivity|].
  intros k p Hk. specialize (Hal k p Hk). cbn in Hal.
  destruct Hal as [s Hs]. unfold sweepPred. cbn. rewrite Hs. eauto.
Qed.

Lemma nanoseconds_exact n : representable n -> nanoseconds n = seconds n.
Proof.
  unfold representable, nanoseconds, wrap64, seconds, ticksPerSecond.
  intros Hn. rewrite Z.mod_small; lia.
Qed.

(** Out of that range the product wraps, and the sweep goes by the
    wrapped count: with a timeout of 9223372037 seconds the count comes
    out negative and the session of alice, idle for two seconds, is
    removed; with that timeout negated the count comes out positive and
    she stays. *)
Example sweep_with_wrapped_timeout :
  nanoseconds 9223372037 = -9223372036709551616 /\
  fst <$> loginSessionByToken (seconds 2) (seconds 2) "0123456789ABCDEFGHIJ"
            (updateSessionTimeout 9223372037 aliceWorld)
    = Some nullptr /\
  nanoseconds (-9223372037) = 9223372036709551616 /\
  fst <$> loginSessionByToken (seconds 2) (seconds 2) "0123456789ABCDEFGHIJ"
            (updateSessionTimeout (-9223372037) aliceWorld)
    = Some (Some 0%nat).
Proof. repeat split; vm_compute; reflexivity. Qed.

Lemma sweptWorld_lookup timeNow w k p :
  allocated w ->
  representable (timeoutInSeconds (store w)) ->
  authTokens (store (sweptWorld timeNow w)) !! k = Some p <->
  authTokens (store w) !! k = Some p /\
  exists s, deref (objects w) p = Some s /\
    timeNow - lastUpdated s < seconds (timeoutInSeconds (store w)).
Proof.
  intros Hal Hrange. cbn. rewrite map_lookup_filter_Some.
  unfold sweepPred. cbn. rewrite (nanoseconds_exact _ Hrange).
  split.
  - intros [Hk Hne]. split; [exact Hk|].
    destruct (Hal k p Hk) as [s Hs]. cbn in Hs. exists s. split; [exact Hs|].
    rewrite Hs in Hne.
    destruct (decide (seconds (timeoutInSeconds (store w))
                      <= timeNow - lastUpdated s)) as [Hle|Hgt]; [|lia].
    exfalso. apply Hne. f_equal. apply bool_decide_eq_true_2. exact Hle.
  - intros [Hk (s & Hs & Hlt)]. split; [exact Hk|].
    rewrite Hs. intros [= Hb]. apply bool_decide_eq_true in Hb. lia.
Qed.

Lemma sweptWorld_needWrite timeNow w :
  allocated w ->
  representable (timeoutInSeconds (store w)) ->
  needWrite (store (sweptWorld timeNow w)) = true <->
  needWrite (store w) = true \/
  exists k p s,
    authTokens (store w) !! k = Some p /\ deref (objects w) p = Some s /\
    seconds (timeoutInSeconds (store w)) <= timeNow - lastUpdated s.
Proof.
  intros Hal Hrange. cbn. rewrite orb_true_iff, existsb_exists.
  split; (intros [H|H]; [left; exact H|right]).
  - destruct H as ([k p] & Hin & Hex).
    apply list_elem_of_In, elem_of_map_to_list in Hin.
    destruct (Hal k p Hin) as [s Hs]. cbn in Hs.
    exists k, p, s. split; [exact Hin|]. split; [exact Hs|].
    unfold expiredEntry, sweepPred in Hex. cbn in Hex. rewrite Hs in Hex.
    apply bool_decide_eq_true in Hex.
    rewrite (nanoseconds_exact _ Hrange) in Hex. exact Hex.
  - destruct H as (k & p & s & Hk & Hs & Hle). exists (k, p). split.
    + apply list_elem_of_In, elem_of_map_to_list. exact Hk.
    + unfold expiredEntry, sweepPred. cbn. rewrite Hs.
      apply bool_decide_eq_true_2. rewrite (nanoseconds_exact _ Hrange).
      exact Hle.
Qed.

Lemma afterSweep_objects timeNow w : objects (afterSweep timeNow w) = objects w.
Proof. unfold afterSweep. destruct (bool_decide _); reflexivity. Qed.

Lemma afterSweep_timeout timeNow w :
  timeoutInSeconds (store (afterSweep timeNow w)) = timeoutInSeconds (store w).
Proof. unfold afterSweep. destruct (bool_decide _); reflexivity. Qed.

Lemma afterSweep_sub timeNow w k p :
  authTokens (store (afterSweep timeNow w)) !! k = Some p ->
  authTokens (store w) !! k = Some p.
Proof.
  unfold afterSweep. destruct (bool_decide _); [|auto].
  cbn. apply map_lookup_filter_Some_1_1.
Qed.

Lemma afterSweep_wf timeNow w : store_wf w -> store_wf (afterSweep timeNow w).
Proof.
  intros Hwf k p Hk. cbn. rewrite afterSweep_objects.
  apply (Hwf k p). eapply afterSweep_sub. exact Hk.
Qed.

Lemma afterSweep_allocated timeNow w :
  allocated w -> allocated (afterSweep timeNow w).
Proof.
  intros Hal k p Hk. cbn. rewrite afterSweep_objects.
  apply (Hal k p). eapply afterSweep_sub. exact Hk.
Qed.

(** ** The lookups *)

Lemma loginSessionByToken_spec timeNow now token w :
  allocated w ->
  loginSessionByToken timeNow now token w =
    let w1 := afterSweep timeNow w in
    if bool_decide (String.length token <> sessionTokenSize)
    then Some (nullptr, w1)
    else
      match authTokens (store w1) !! token with
      | None => Some (nullptr, w1)
      | Some None => None
      | Some (Some l) =>
          match objects w !! l with
          | Some s =>
              Some (Some l,
                    mkWorld (<[l := set_lastUpdated now s]> (objects w))
                      (store w1))
          | None => None
          end
      end.
Proof.
  intros Hal. unfold loginSessionByToken.
  rewrite applySessionTimeouts_spec by exact Hal. cbn zeta.
  destruct (bool_decide _); [reflexivity|].
  destruct (authTokens (store (afterSweep timeNow w)) !! token) as [[l|]|];
    try reflexivity.
  rewrite afterSweep_objects. reflexivity.
Qed.

Lemma findByUid_defined h uid entries :
  Forall (fun e => is_Some (deref h (snd e))) entries ->
  is_Some (findByUid h uid entries).
Proof.
  induction entries as [|[k p] rest IH]; intros Hall; cbn [findByUid].
  - eauto.
  - inversion Hall as [|? ? [s Hs] Hrest]; subst. cbn in Hs. rewrite Hs.
    destruct (bool_decide _); [eauto|]. apply IH. exact Hrest.
Qed.

Lemma collectUniqueIds_defined h getAll type entries :
  Forall (fun e => is_Some (deref h (snd e))) entries ->
  is_Some (collectUniqueIds h getAll type entries).
Proof.
  induction entries as [|[k p] rest IH]; intros Hall; cbn [collectUniqueIds].
  - eauto.
  - inversion Hall as [|? ? [s Hs] Hrest]; subst. cbn in Hs.
    destruct p as [l|]; [|discriminate Hs]. rewrite Hs.
    destruct (IH Hrest) as [ret ->].
    destruct (getAll || bool_decide (type = persistence s)); eauto.
Qed.

Lemma allocated_entries w :
  allocated w ->
  Forall (fun e => is_Some (deref (objects w) (snd e)))
    (map_to_list (authTokens (store w))).
Proof.
  intros Hal. apply Forall_forall. intros [k p] Hin.
  apply elem_of_map_to_list in Hin. exact (Hal k p Hin).
Qed.

Lemma lookupWorld_store c timeNow w :
  allocated w ->
  exists w',
    lookupWorld c timeNow w = Some w' /\
    store w' = store (afterSweep timeNow w).
Proof.
  intros Hal. pose proof (afterSweep_allocated timeNow w Hal) as Hal1.
  destruct c as [now token|uid|getAll type]; cbn [lookupWorld].
  - rewrite loginSessionByToken_spec by exact Hal. cbn zeta.
    destruct (bool_decide _); [cbn; eauto|].
    destruct (authTokens (store (afterSweep timeNow w)) !! token)
      as [p|] eqn:Hp; [|cbn; eauto].
    destruct (Hal1 _ _ Hp) as [s Hs]. rewrite afterSweep_objects in Hs.
    destruct p as [l|]; [|discriminate Hs]. cbn in Hs. rewrite Hs.
    cbn. eauto.
  - unfold getSessionByUid. rewrite applySessionTimeouts_spec by exact Hal.
    destruct (findByUid_defined (objects (afterSweep timeNow w)) uid _
                (allocated_entries _ Hal1)) as [p ->].
    cbn. eauto.
  - unfold getUniqueIds. rewrite applySessionTimeouts_spec by exact Hal.
    destruct (collectUniqueIds_defined (objects (afterSweep timeNow w))
                getAll type _ (allocated_entries _ Hal1)) as [ret ->].
    cbn. eauto.
Qed.

Lemma loginSessionByToken_wf timeNow now token w p w' :
  store_wf w ->
  loginSessionByToken timeNow now token w = Some (p, w') ->
  store_wf w'.
Proof.
  intros Hwf. pose proof (afterSweep_wf timeNow w Hwf) as Hwf1.
  rewrite loginSessionByToken_spec by (apply store_wf_allocated; exact Hwf).
  cbn zeta. destruct (bool_decide _); [intros [= <- <-]; exact Hwf1|].
  destruct (authTokens (store (afterSweep timeNow w)) !! token)
    as [[l|]|] eqn:Hl; [| discriminate | intros [= <- <-]; exact Hwf1].
  destruct (objects w !! l) as [s|] eqn:Hs; [|discriminate].
  intros [= <- <-]. intros k q Hk. cbn in Hk |- *.
  specialize (Hwf1 k q Hk). cbn in Hwf1. rewrite afterSweep_objects in Hwf1.
  destruct q as [l0|]; [|exact Hwf1]. cbn in *.
  destruct (decide (l = l0)) as [<-|Hne].
  - rewrite lookup_insert_eq. rewrite Hs in Hwf1. exact Hwf1.
  - rewrite lookup_insert_ne by exact Hne. exact Hwf1.
Qed.

Lemma lookupWorld_wf c timeNow w w' :
  store_wf w -> lookupWorld c timeNow w = Some w' -> store_wf w'.
Proof.
  intros Hwf. pose proof (store_wf_allocated w Hwf) as Hal.
  destruct c as [now token|uid|getAll type]; cbn [lookupWorld].
  - destruct (loginSessionByToken timeNow now token w) as [[p w1]|] eqn:H;
      [|discriminate].
    intros [= <-]. eapply loginSessionByToken_wf; eauto.
  - unfold getSessionByUid. rewrite applySessionTimeouts_spec by exact Hal.
    destruct (findByUid _ _ _); [|discriminate]. intros [= <-].
    apply afterSweep_wf. exact Hwf.
  - unfold getUniqueIds. rewrite applySessionTimeouts_spec by exact Hal.
    destruct (collectUniqueIds _ _ _ _); [|discriminate]. intros [= <-].
    apply afterSweep_wf. exact Hwf.
Qed.

Lemma afterSweep_run timeNow w :
  seconds 1 < timeNow - lastTimeoutUpdate (store w) ->
  afterSweep timeNow w = sweptWorld timeNow w.
Proof.
  intros H. unfold afterSweep. rewrite bool_decide_eq_true_2 by exact H.
  reflexivity.
Qed.

Lemma afterSweep_skip timeNow w :
  timeNow - lastTimeoutUpdate (store w) <= seconds 1 ->
  afterSweep timeNow w = w.
Proof.
  intros H. unfold afterSweep. rewrite bool_decide_eq_false_2 by lia.
  reflexivity.
Qed.

(** C2, as the code has it, for a timeout whose count of nanoseconds
    fits in 64 bits: every lookup (loginSessionByToken, getSessionByUid,
    getUniqueIds) on a well-formed store returns, and
    - when more than one second has passed since the last run of the
      sweep, the sweep runs: the sessions that stay are exactly those
      with now - lastUpdated < timeout, so a session idle for the
      timeout plus one second is removed; the dirty flag is set when a
      session is removed and keeps its value otherwise; the time of the
      run is recorded, and no lookup within the following second changes
      the collection;
    - when no more than one second has passed the sweep does not run and
      the store is left as it was;
    - a session idle for the timeout less one second stays in either
      case. *)
Theorem lookup_sweeps_idle_sessions c timeNow w :
  store_wf w ->
  representable (timeoutInSeconds (store w)) ->
  exists w',
    lookupWorld c timeNow w = Some w' /\
    (seconds 1 < timeNow - lastTimeoutUpdate (store w) ->
       (forall k p,
           authTokens (store w') !! k = Some p <->
           authTokens (store w) !! k = Some p /\
           exists s, deref (objects w) p = Some s /\
             timeNow - lastUpdated s < seconds (timeoutInSeconds (store w))) /\
       (forall k p s,
           authTokens (store w) !! k = Some p ->
           deref (objects w) p = Some s ->
           lastUpdated s =
             timeNow - (seconds (timeoutInSeconds (store w)) + seconds 1) ->
           authTokens (store w') !! k = None) /\
       (needWrite (store w') = true <->
        needWrite (store w) = true \/
        exists k p s,
          authTokens (store w) !! k = Some p /\
          deref (objects w) p = Some s /\
          seconds (timeoutInSeconds (store w)) <= timeNow - lastUpdated s) /\
       lastTimeoutUpdate (store w') = timeNow /\
       (forall c2 t2,
           t2 - timeNow <= seconds 1 ->
           exists w'',
             lookupWorld c2 t2 w' = Some w'' /\ store w'' = store w')) /\
    (timeNow - lastTimeoutUpdate (store w) <= seconds 1 ->
       store w' = store w) /\
    (forall k p s,
        authTokens (store w) !! k = Some p ->
        deref (objects w) p = Some s ->
        lastUpdated s =
          timeNow - (seconds (timeoutInSeconds (store w)) - seconds 1) ->
        authTokens (store w') !! k = Some p).
Proof.
  intros Hwf Hrange. pose proof (store_wf_allocated w Hwf) as Hal.
  destruct (lookupWorld_store c timeNow w Hal) as (w' & Hw' & Hst).
  exists w'. split; [exact Hw'|].
  assert (1 * ticksPerSecond = seconds 1) as Hone by reflexivity.
  assert (0 < seconds 1) as Hpos by reflexivity.
  split; [|split].
  - intros Hrun. rewrite Hst, (afterSweep_run _ _ Hrun).
    split; [|split; [|split; [|split]]].
    + intros k p. apply sweptWorld_lookup; assumption.
    + intros k p s Hk Hs Hidle.
      destruct (authTokens (store (sweptWorld timeNow w)) !! k)
        as [q|] eqn:Hq; [|reflexivity].
      apply (sweptWorld_lookup _ _ _ _ Hal Hrange) in Hq
        as [Hk' (s' & Hs' & Hlt)].
      assert (q = p) as -> by congruence.
      assert (s' = s) as -> by congruence. lia.
    + apply sweptWorld_needWrite; assumption.
    + reflexivity.
    + intros c2 t2 Ht2.
      pose proof (lookupWorld_wf _ _ _ _ Hwf Hw') as Hwf'.
      destruct (lookupWorld_store c2 t2 w' (store_wf_allocated _ Hwf'))
        as (w'' & Hw'' & Hst'').
      exists w''. split; [exact Hw''|]. rewrite Hst''.
      rewrite afterSweep_skip.
      * rewrite Hst, (afterSweep_run _ _ Hrun). reflexivity.
      * rewrite Hst, (afterSweep_run _ _ Hrun). cbn. exact Ht2.
  - intros Hskip. rewrite Hst, (afterSweep_skip _ _ Hskip). reflexivity.
  - intros k p s Hk Hs Hidle. rewrite Hst. unfold afterSweep.
    destruct (bool_decide _); [|exact Hk].
    apply (sweptWorld_lookup _ _ _ _ Hal Hrange). split; [exact Hk|].
    exists s. split; [exact Hs|]. lia.
Qed.

Lemma aliceWorld_representable :
  representable (timeoutInSeconds (store aliceWorld)).
Proof. split; vm_compute; discriminate. Defined.

(** C2 at work: 2000 seconds after the epoch the session of alice, idle
    for longer than the 1800 seconds of the timeout, is gone after the
    lookup. *)
Lemma lookup_sweeps_idle_sessions_witness :
  store_wf aliceWorld /\
  representable (timeoutInSeconds (store aliceWorld)) /\
  exists w',
    lookupWorld (LoginSessionByToken (seconds 2000) "0123456789ABCDEFGHIJ")
      (seconds 2000) aliceWorld = Some w' /\
    authTokens (store w') !! "0123456789ABCDEFGHIJ" = None.
Proof.
  split; [exact aliceWorld_wf|].
  split; [exact aliceWorld_representable|].
  destruct
    (lookup_sweeps_idle_sessions
       (LoginSessionByToken (seconds 2000) "0123456789ABCDEFGHIJ")
       (seconds 2000) aliceWorld aliceWorld_wf aliceWorld_representable)
    as (w' & Hw' & Hrun & _ & _).
  exists w'. split; [exact Hw'|].
  destruct Hrun as (Hiff & _); [vm_compute; reflexivity|].
  destruct (authTokens (store w') !! "0123456789ABCDEFGHIJ") as [p|] eqn:Hp;
    [|reflexivity].
  apply Hiff in Hp as [Hk (s & Hs & Hlt)]. exfalso.
  vm_compute in Hk. injection Hk as <-.
  vm_compute in Hs. injection Hs as <-.
  vm_compute in Hlt. discriminate Hlt.
Defined.

(** C2, as stated, fails: in [idleWorld] the session of alice has been
    idle for the timeout plus one second at second 110, the sweep ran
    half a second before, and each of the three lookups leaves the
    session in the store; loginSessionByToken even returns it.  And a
    run of the sweep that removes nothing leaves the dirty flag clear. *)
Lemma idle_session_outlives_lookup :
  store_wf idleWorld /\
  authTokens (store idleWorld) !! "0123456789ABCDEFGHIJ" = Some (Some 0%nat) /\
  lastUpdated <$> objects idleWorld !! 0%nat =
    Some (seconds 110
          - (seconds (timeoutInSeconds (store idleWorld)) + seconds 1)) /\
  fst <$> loginSessionByToken (seconds 110) (seconds 110)
            "0123456789ABCDEFGHIJ" idleWorld = Some (Some 0%nat) /\
  (forall c,
      c = LoginSessionByToken (seconds 110) "0123456789ABCDEFGHIJ" \/
      c = GetSessionByUid "efghijklmn" \/
      c = GetUniqueIds true SINGLE_REQUEST ->
      exists w',
        lookupWorld c (seconds 110) idleWorld = Some w' /\
        authTokens (store w') !! "0123456789ABCDEFGHIJ"
          = Some (Some 0%nat)) /\
  (exists w',
      lookupWorld (GetUniqueIds true SINGLE_REQUEST) (seconds 2) emptyWorld
        = Some w' /\
      lastTimeoutUpdate (store w') = seconds 2 /\
      needWrite (store w') = false).
Proof.
  split; [apply (bool_decide_unpack (store_wf idleWorld)); vm_compute; exact I|].
  split; [vm_compute; reflexivity|].
  split; [vm_compute; reflexivity|].
  split; [vm_compute; reflexivity|].
  split.
  - intros c [-> | [-> | ->]]; eexists; (split; [vm_compute; reflexivity|]);
      vm_compute; reflexivity.
  - eexists. split; [vm_compute; reflexivity|]. split; vm_compute; reflexivity.
Qed.

(** ** Authentication by token *)

(** C9: on a well-formed store whose timeout has a count of nanoseconds
    that fits in 64 bits, when loginSessionByToken returns a session for a
    token, a second call that follows before the idle timeout has passed
    returns the same session object, with the same
    uniqueId; each of the two calls stores the clock reading it took in
    lastUpdated, so with a clock that does not go back lastUpdated never
    decreases.  A token that is not the key of a live session, or whose
    length is not that of a session token, gives nullptr and the store
    as the sweep left it: a result, not a failure. *)
Theorem loginSessionByToken_idempotent w :
  store_wf w ->
  representable (timeoutInSeconds (store w)) ->
  (forall t1 n1 t2 n2 token l w1 s0,
      loginSessionByToken t1 n1 token w = Some (Some l, w1) ->
      objects w !! l = Some s0 ->
      lastUpdated s0 <= n1 -> n1 <= t2 -> t2 <= n2 ->
      t2 - n1 < seconds (timeoutInSeconds (store w)) ->
      exists w2 s1 s2,
        loginSessionByToken t2 n2 token w1 = Some (Some l, w2) /\
        objects w1 !! l = Some s1 /\ objects w2 !! l = Some s2 /\
        uniqueId s1 = uniqueId s0 /\ uniqueId s2 = uniqueId s0 /\
        lastUpdated s1 = n1 /\ lastUpdated s2 = n2 /\
        lastUpdated s0 <= lastUpdated s1 /\
        lastUpdated s1 <= lastUpdated s2) /\
  (forall t n token,
      authTokens (store w) !! token = None \/
      String.length token <> sessionTokenSize ->
      loginSessionByToken t n token w = Some (nullptr, afterSweep t w)).
Proof.
  intros Hwf Hrange. pose proof (store_wf_allocated w Hwf) as Hal. split.
  - intros t1 n1 t2 n2 token l w1 s0 Hlogin Hs0 Hmono1 Hmono2 Hmono3 Hsoon.
    pose proof (loginSessionByToken_wf _ _ _ _ _ _ Hwf Hlogin) as Hwf1.
    pose proof (store_wf_allocated _ Hwf1) as Hal1.
    rewrite loginSessionByToken_spec in Hlogin by exact Hal.
    cbn zeta in Hlogin.
    destruct (decide (String.length token <> sessionTokenSize)) as [Hlen|Hlen].
    { rewrite bool_decide_eq_true_2 in Hlogin by exact Hlen. discriminate. }
    rewrite bool_decide_eq_false_2 in Hlogin by exact Hlen.
    destruct (authTokens (store (afterSweep t1 w)) !! token)
      as [[l'|]|] eqn:Hl; [|discriminate|discriminate].
    destruct (objects w !! l') as [s|] eqn:Hs; [|discriminate].
    injection Hlogin as -> <-. assert (s = s0) as -> by congruence.
    set (w1 := mkWorld (<[l:=set_lastUpdated n1 s0]> (objects w))
                 (store (afterSweep t1 w))) in *.
    assert (authTokens (store (afterSweep t2 w1)) !! token = Some (Some l))
      as Hl2.
    { destruct (decide (seconds 1 < t2 - lastTimeoutUpdate (store w1)))
        as [Hrun|Hskip].
      - rewrite afterSweep_run by exact Hrun.
        apply (sweptWorld_lookup _ _ _ _ Hal1);
          [cbn; rewrite afterSweep_timeout; exact Hrange|].
        split; [exact Hl|].
        exists (set_lastUpdated n1 s0). cbn. rewrite lookup_insert_eq.
        split; [reflexivity|]. rewrite afterSweep_timeout. lia.
      - rewrite afterSweep_skip by lia. exact Hl. }
    rewrite loginSessionByToken_spec by exact Hal1. cbn zeta.
    rewrite bool_decide_eq_false_2 by exact Hlen. rewrite Hl2.
    cbn [objects w1]. rewrite lookup_insert_eq.
    eexists _, (set_lastUpdated n1 s0),
      (set_lastUpdated n2 (set_lastUpdated n1 s0)).
    split; [reflexivity|]. cbn [objects]. rewrite !lookup_insert_eq. cbn.
    repeat split; try reflexivity; lia.
  - intros t n token Hmiss.
    rewrite loginSessionByToken_spec by exact Hal. cbn zeta.
    destruct Hmiss as [Hnone|Hlen].
    + destruct (bool_decide _); [reflexivity|].
      destruct (authTokens (store (afterSweep t w)) !! token) as [p|] eqn:Hp;
        [|reflexivity].
      apply afterSweep_sub in Hp. congruence.
    + rewrite bool_decide_eq_true_2 by exact Hlen. reflexivity.
Qed.

(** C9 at work: two logins of alice with her token return the same
    object, refreshed at ticks 21 and 31. *)
Lemma loginSessionByToken_idempotent_witness :
  store_wf aliceWorld /\
  representable (timeoutInSeconds (store aliceWorld)) /\
  exists w1 w2 s1 s2,
    loginSessionByToken 20 21 "0123456789ABCDEFGHIJ" aliceWorld
      = Some (Some 0%nat, w1) /\
    loginSessionByToken 30 31 "0123456789ABCDEFGHIJ" w1
      = Some (Some 0%nat, w2) /\
    objects w1 !! 0%nat = Some s1 /\ objects w2 !! 0%nat = Some s2 /\
    lastUpdated s1 = 21 /\ lastUpdated s2 = 31.
Proof.
  split; [exact aliceWorld_wf|].
  split; [exact aliceWorld_representable|].
  destruct
    (loginSessionByToken_idempotent aliceWorld aliceWorld_wf
       aliceWorld_representable)
    as [Hhit _].
  destruct
    (Hhit 20 21 30 31 "0123456789ABCDEFGHIJ" 0%nat
       (default aliceWorld
          (lookupWorld (LoginSessionByToken 21 "0123456789ABCDEFGHIJ") 20
             aliceWorld))
       (newSession countingSource 5 "alice" "10.0.0.1" None TIMEOUT false))
    as (w2 & s1 & s2 & H2 & Hs1 & Hs2 & _ & _ & Ht1 & Ht2 & _).
  - vm_compute. reflexivity.
  - vm_compute. reflexivity.
  - vm_compute. discriminate.
  - vm_compute. discriminate.
  - vm_compute. discriminate.
  - vm_compute. reflexivity.
  - eexists _, w2, s1, s2.
    split; [vm_compute; reflexivity|]. auto.
Defined.

(** ** Bulk revocation *)

Lemma removeSessionsByUsername_spec name w :
  no_dangling w ->
  removeSessionsByUsername name w =
    Some (mkWorld (objects w)
            (set_authTokens
               (filter (fun e => byUsername (objects w) name e <> Some true)
                  (authTokens (store w)))
               (store w))).
Proof.
  intros Hnd. unfold removeSessionsByUsername.
  rewrite erase_if_filter; [reflexivity|].
  intros k p Hk. specialize (Hnd k p Hk). cbn in Hnd.
  unfold byUsername. cbn. destruct p as [l|]; [|eauto].
  destruct Hnd as [s ->]. eauto.
Qed.

Lemma removeSessionsByUsernameExceptSession_spec name session kept w :
  no_dangling w ->
  deref (objects w) session = Some kept ->
  removeSessionsByUsernameExceptSession name session w =
    Some (mkWorld (objects w)
            (set_authTokens
               (filter
                  (fun e =>
                     byUsernameExcept (objects w) name session e <> Some true)
                  (authTokens (store w)))
               (store w))).
Proof.
  intros Hnd Hkept. unfold removeSessionsByUsernameExceptSession.
  rewrite erase_if_filter; [reflexivity|].
  intros k p Hk. specialize (Hnd k p Hk). cbn in Hnd.
  unfold byUsernameExcept. cbn. destruct p as [l|]; [|eauto].
  destruct Hnd as [s ->]. rewrite Hkept. destruct (bool_decide _); eauto.
Qed.

Lemma byUsernameExcept_true h name session kept p k :
  deref h session = Some kept ->
  byUsernameExcept h name session (k, p) = Some true <->
  exists s, deref h p = Some s /\ username s = name /\
            uniqueId s <> uniqueId kept.
Proof.
  intros Hkept. unfold byUsernameExcept. cbn.
  destruct p as [l|]; cbn.
  - destruct (h !! l) as [s|]; [|split; [discriminate|intros (? & [=] & _)]].
    rewrite Hkept.
    destruct (decide (username s = name)) as [Hn|Hn].
    + rewrite (bool_decide_eq_true_2 _ Hn). split.
      * intros [= Hb]. apply bool_decide_eq_true in Hb. eauto.
      * intros (s' & [= <-] & _ & Hu). f_equal.
        apply bool_decide_eq_true_2. exact Hu.
    + rewrite (bool_decide_eq_false_2 _ Hn). split; [discriminate|].
      intros (s' & [= <-] & Hn' & _). contradiction.
  - split; [discriminate|intros (? & [=] & _)].
Qed.

Lemma byUsername_true h name p k :
  byUsername h name (k, p) = Some true <->
  exists s, deref h p = Some s /\ username s = name.
Proof.
  unfold byUsername. cbn. destruct p as [l|]; cbn.
  - destruct (h !! l) as [s|]; [|split; [discriminate|intros (? & [=] & _)]].
    split.
    + intros [= Hb]. apply bool_decide_eq_true in Hb. eauto.
    + intros (s' & [= <-] & Hn). f_equal. apply bool_decide_eq_true_2.
      exact Hn.
  - split; [discriminate|intros (? & [=] & _)].
Qed.

(** C8: for a keep handle that points to a session,
    removeSessionsByUsernameExceptSession removes exactly the entries
    whose session has the given username and a uniqueId other than that
    of the kept session.  An entry whose session has the uniqueId of the
    kept one stays, sessions of other users stay, the session objects
    are not touched, and any other handle to a session with the same
    uniqueId gives the same result. *)
Theorem removeSessionsByUsernameExceptSession_exact name session kept w :
  no_dangling w ->
  deref (objects w) session = Some kept ->
  exists w',
    removeSessionsByUsernameExceptSession name session w = Some w' /\
    objects w' = objects w /\
    (forall k p,
        authTokens (store w') !! k = Some p <->
        authTokens (store w) !! k = Some p /\
        ~ (exists s, deref (objects w) p = Some s /\ username s = name /\
                     uniqueId s <> uniqueId kept)) /\
    (forall k p s,
        authTokens (store w) !! k = Some p ->
        deref (objects w) p = Some s ->
        username s = name -> uniqueId s <> uniqueId kept ->
        authTokens (store w') !! k = None) /\
    (forall k p s,
        authTokens (store w) !! k = Some p ->
        deref (objects w) p = Some s ->
        uniqueId s = uniqueId kept ->
        authTokens (store w') !! k = Some p) /\
    (forall k p s,
        authTokens (store w) !! k = Some p ->
        deref (objects w) p = Some s ->
        username s <> name ->
        authTokens (store w') !! k = Some p) /\
    (forall session' kept',
        deref (objects w) session' = Some kept' ->
        uniqueId kept' = uniqueId kept ->
        removeSessionsByUsernameExceptSession name session' w = Some w').
Proof.
  intros Hnd Hkept.
  rewrite (removeSessionsByUsernameExceptSession_spec _ _ _ _ Hnd Hkept).
  eexists. split; [reflexivity|]. cbn [objects store set_authTokens authTokens].
  assert (forall k p,
             filter
               (fun e =>
                  byUsernameExcept (objects w) name session e <> Some true)
               (authTokens (store w)) !! k = Some p <->
             authTokens (store w) !! k = Some p /\
             ~ (exists s, deref (objects w) p = Some s /\ username s = name /\
                          uniqueId s <> uniqueId kept)) as Hiff.
  { intros k p. rewrite map_lookup_filter_Some.
    rewrite (byUsernameExcept_true _ _ _ _ _ _ Hkept). reflexivity. }
  split; [reflexivity|]. split; [exact Hiff|].
  split; [|split; [|split]].
  - intros k p s Hk Hs Hn Hu.
    destruct (filter _ (authTokens (store w)) !! k) as [q|] eqn:Hq;
      [|reflexivity].
    apply Hiff in Hq as [Hk' Hnot]. exfalso. apply Hnot.
    assert (q = p) as -> by congruence. eauto.
  - intros k p s Hk Hs Hu. apply Hiff. split; [exact Hk|].
    intros (s' & Hs' & _ & Hne). apply Hne. congruence.
  - intros k p s Hk Hs Hn. apply Hiff. split; [exact Hk|].
    intros (s' & Hs' & Hn' & _). apply Hn. congruence.
  - intros session' kept' Hkept' Hu.
    rewrite (removeSessionsByUsernameExceptSession_spec _ _ _ _ Hnd Hkept').
    do 3 f_equal. apply map_eq. intros k.
    rewrite !map_lookup_filter. destruct (authTokens (store w) !! k) as [p|];
      [|reflexivity].
    cbn. apply option_guard_iff.
    rewrite (byUsernameExcept_true _ _ _ _ _ _ Hkept).
    rewrite (byUsernameExcept_true _ _ _ _ _ _ Hkept').
    rewrite Hu. reflexivity.
Qed.

Lemma threeSessionWorld_wf : store_wf threeSessionWorld.
Proof.
  apply (bool_decide_unpack (store_wf threeSessionWorld)). vm_compute.
  exact I.
Defined.

Lemma threeSessionWorld_representable :
  representable (timeoutInSeconds (store threeSessionWorld)).
Proof. split; vm_compute; discriminate. Defined.

Lemma threeSessionWorld_no_dangling : no_dangling threeSessionWorld.
Proof.
  exact (allocated_no_dangling _ (store_wf_allocated _ threeSessionWorld_wf)).
Defined.

(** C8 at work: of the two sessions of alice the one that is not kept
    goes; the kept one and that of bob stay. *)
Lemma removeSessionsByUsernameExceptSession_exact_witness :
  no_dangling threeSessionWorld /\
  exists w',
    removeSessionsByUsernameExceptSession "alice" (Some 1%nat)
      threeSessionWorld = Some w' /\
    authTokens (store w') !! "0123456789ABCDEFGHIJ" = None /\
    authTokens (store w') !! "123456789ABCDEFGHIJK" = Some (Some 1%nat) /\
    authTokens (store w') !! "23456789ABCDEFGHIJKL" = Some (Some 2%nat).
Proof.
  split; [exact threeSessionWorld_no_dangling|].
  destruct
    (removeSessionsByUsernameExceptSession_exact "alice" (Some 1%nat)
       (newSession (offsetSource 1) 6 "alice" "10.0.0.9" None TIMEOUT false)
       threeSessionWorld threeSessionWorld_no_dangling)
    as (w' & Hw' & _ & _ & Hgone & Hkeep & Hother & _).
  - vm_compute. reflexivity.
  - exists w'. split; [exact Hw'|]. split; [|split].
    + apply (Hgone _ (Some 0%nat)
               (newSession countingSource 5 "alice" "10.0.0.1" None TIMEOUT
                  false)).
      * vm_compute. reflexivity.
      * vm_compute. reflexivity.
      * reflexivity.
      * vm_compute. discriminate.
    + apply (Hkeep _ _
               (newSession (offsetSource 1) 6 "alice" "10.0.0.9" None TIMEOUT
                  false)).
      * vm_compute. reflexivity.
      * vm_compute. reflexivity.
      * reflexivity.
    + apply (Hother _ _
               (newSession (offsetSource 2) 7 "bob" "10.0.0.3" None
                  SINGLE_REQUEST false)).
      * vm_compute. reflexivity.
      * vm_compute. reflexivity.
      * vm_compute. discriminate.
Defined.

(** C10: removeSessionsByUsername and
    removeSessionsByUsernameExceptSession erase the matching entries and
    leave the dirty flag, the time of the last sweep and every other
    member of the store as they were; they run no sweep, so the session
    of another user stays however long it has been idle.  removeSession
    sets the dirty flag, also when the map has no entry for the token of
    the session, in which case the map is unchanged. *)
Theorem bulk_removal_leaves_needWrite name session kept w :
  no_dangling w ->
  deref (objects w) session = Some kept ->
  (exists w1,
      removeSessionsByUsername name w = Some w1 /\
      needWrite (store w1) = needWrite (store w) /\
      lastTimeoutUpdate (store w1) = lastTimeoutUpdate (store w) /\
      timeoutInSeconds (store w1) = timeoutInSeconds (store w) /\
      objects w1 = objects w /\
      (forall k p,
          authTokens (store w1) !! k = Some p <->
          authTokens (store w) !! k = Some p /\
          ~ (exists s, deref (objects w) p = Some s /\ username s = name))) /\
  (exists w2,
      removeSessionsByUsernameExceptSession name session w = Some w2 /\
      needWrite (store w2) = needWrite (store w) /\
      lastTimeoutUpdate (store w2) = lastTimeoutUpdate (store w) /\
      timeoutInSeconds (store w2) = timeoutInSeconds (store w) /\
      objects w2 = objects w /\
      (forall k p s,
          authTokens (store w) !! k = Some p ->
          deref (objects w) p = Some s ->
          username s <> name ->
          authTokens (store w2) !! k = Some p)) /\
  (exists w3,
      removeSession session w = Some w3 /\
      needWrite (store w3) = true /\
      authTokens (store w3) = delete (sessionToken kept) (authTokens (store w)) /\
      (authTokens (store w) !! sessionToken kept = None ->
       authTokens (store w3) = authTokens (store w))).
Proof.
  intros Hnd Hkept. split; [|split].
  - rewrite (removeSessionsByUsername_spec _ _ Hnd).
    eexists. split; [reflexivity|]. cbn.
    repeat (split; [reflexivity|]).
    intros k p. rewrite map_lookup_filter_Some.
    rewrite (byUsername_true (objects w) name p k). reflexivity.
  - rewrite (removeSessionsByUsernameExceptSession_spec _ _ _ _ Hnd Hkept).
    eexists. split; [reflexivity|]. cbn.
    repeat (split; [reflexivity|]).
    intros k p s Hk Hs Hn. apply map_lookup_filter_Some. split; [exact Hk|].
    rewrite (byUsernameExcept_true _ _ _ _ _ _ Hkept).
    intros (s' & Hs' & Hn' & _). apply Hn. congruence.
  - unfold removeSession. rewrite Hkept. eexists. split; [reflexivity|].
    cbn. split; [reflexivity|]. split; [reflexivity|].
    intros Hnone. apply delete_id. exact Hnone.
Qed.

(** C10 at work: removing the sessions of alice leaves the dirty flag
    clear, removing the session of bob sets it. *)
Lemma bulk_removal_leaves_needWrite_witness :
  no_dangling threeSessionWorld /\
  needWrite (store threeSessionWorld) = false /\
  (exists w1,
      removeSessionsByUsername "alice" threeSessionWorld = Some w1 /\
      needWrite (store w1) = false) /\
  (exists w3,
      removeSession (Some 2%nat) threeSessionWorld = Some w3 /\
      needWrite (store w3) = true).
Proof.
  split; [exact threeSessionWorld_no_dangling|].
  split; [vm_compute; reflexivity|].
  destruct
    (bulk_removal_leaves_needWrite "alice" (Some 2%nat)
       (newSession (offsetSource 2) 7 "bob" "10.0.0.3" None SINGLE_REQUEST
          false)
       threeSessionWorld threeSessionWorld_no_dangling)
    as ((w1 & Hw1 & Hflag & _) & _ & (w3 & Hw3 & Hset & _)).
  - vm_compute. reflexivity.
  - split.
    + exists w1. split; [exact Hw1|]. rewrite Hflag. vm_compute. reflexivity.
    + exists w3. split; [exact Hw3|exact Hset].
Defined.

(** ** Reconstruction from the persisted document *)

Lemma pretty_N_char_digit x : (nat_of_ascii (pretty_N_char x) < 58)%nat.
Proof.
  unfold pretty_N_char. repeat case_match; vm_compute; lia.
Qed.

Lemma pretty_N_go_head x : forall s,
  (0 < x)%N ->
  exists c r, pretty_N_go x s = String c r /\ (nat_of_ascii c < 58)%nat.
Proof.
  induction (N.lt_wf_0 x) as [x _ IH]. intros s Hx.
  rewrite pretty_N_go_step by exact Hx.
  destruct (decide (x `div` 10 = 0)%N) as [Hz|Hnz].
  - rewrite Hz, pretty_N_go_0. eexists _, _. split; [reflexivity|].
    apply pretty_N_char_digit.
  - apply IH.
    + apply N.div_lt; [exact Hx|reflexivity].
    + apply N.neq_0_lt_0. exact Hnz.
Qed.

Lemma pretty_nat_head (i : nat) :
  exists c r, pretty i = String c r /\ (nat_of_ascii c < 58)%nat.
Proof.
  unfold pretty, pretty_nat, pretty, pretty_N.
  destruct (decide (N.of_nat i = 0)%N) as [_|Hnz].
  - exists "0"%char, EmptyString. split; [reflexivity|]. vm_compute. lia.
  - apply pretty_N_go_head. lia.
Qed.

Lemma lettered_not_index key (i : nat) : lettered key -> key <> pretty i.
Proof.
  intros Hkey ->. destruct (pretty_nat_head i) as (c & r & Hp & Hc).
  rewrite Hp in Hkey. cbn in Hkey. lia.
Qed.

Section Assignment.
Context {A : Type}.
Variable key : string.
Variable get : UserSession -> A.
Variable inj : string -> A.

(** The loop body assigns the member [get] from a string under [key]
    and leaves it alone otherwise. *)
Hypothesis assigns : forall u k v,
  get (fromJsonElement u (k, v)) =
    match get_string v with
    | Some s => if String.eqb k key then inj s else get u
    | None => get u
    end.

Lemma foldl_absent entries : forall u,
  (forall s, (key, JString s) ∉ entries) ->
  get (foldl fromJsonElement u entries) = get u.
Proof.
  induction entries as [|[k v] rest IH]; intros u Habs; cbn [foldl].
  - reflexivity.
  - rewrite IH.
    + rewrite assigns. destruct v; cbn; try reflexivity.
      destruct (String.eqb_spec k key) as [->|_]; [|reflexivity].
      exfalso. eapply Habs. left.
    + intros s0 Hin. eapply Habs. right. exact Hin.
Qed.

Lemma foldl_present entries s : forall u,
  NoDup (entries.*1) ->
  (key, JString s) ∈ entries ->
  get (foldl fromJsonElement u entries) = inj s.
Proof.
  induction entries as [|[k v] rest IH]; intros u Hnd Hin; cbn [foldl].
  - inversion Hin.
  - cbn in Hnd. apply NoDup_cons in Hnd as [Hk Hnd].
    apply elem_of_cons in Hin as [[= <- <-]|Hin].
    + rewrite foldl_absent.
      * rewrite assigns. cbn. rewrite String.eqb_refl. reflexivity.
      * intros s0 Hin. apply Hk.
        apply (list_elem_of_fmap_2 fst) in Hin. exact Hin.
    + apply IH; assumption.
Qed.

Lemma foldl_items j :
  lettered key ->
  get (foldl fromJsonElement emptySession (items j)) =
    match field j key with
    | Some s => inj s
    | None => get emptySession
    end.
Proof.
  intros Hkey.
  assert (forall v,
             get (foldl fromJsonElement emptySession [("", v)])
             = get emptySession) as Hprim.
  { intros v. apply foldl_absent. intros s Hin.
    apply list_elem_of_singleton in Hin. injection Hin as Hk _.
    rewrite Hk in Hkey. exact Hkey. }
  destruct j as [|members|elements| | | | | | |]; cbn [items field];
    try apply Hprim.
  - reflexivity.
  - destruct (members !! key) as [v|] eqn:Hv.
    + assert ((key, v) ∈ map_to_list members) as Hin
          by (apply elem_of_map_to_list; exact Hv).
      destruct v;
        try (apply foldl_absent; intros s0 Hin0;
             apply elem_of_map_to_list in Hin0; congruence).
      apply foldl_present; [apply NoDup_fst_map_to_list|exact Hin].
    + apply foldl_absent. intros s0 Hin0.
      apply elem_of_map_to_list in Hin0. congruence.
  - apply foldl_absent. intros s0 Hin.
    apply elem_of_lookup_imap in Hin as (i & v & Heq & _).
    injection Heq as Hk _. exact (lettered_not_index key i Hkey Hk).
Qed.
End Assignment.

Ltac assigns_by_cases :=
  intros u k v; unfold fromJsonElement; cbn [fst snd];
  destruct (get_string v) as [s|]; [|reflexivity];
  repeat
    match goal with
    | |- context [String.eqb k ?x] =>
        destruct (String.eqb_spec k x) as [->|?]
    end;
  try reflexivity; try congruence.

Lemma assigns_uniqueId u k v :
  uniqueId (fromJsonElement u (k, v)) =
    match get_string v with
    | Some s => if String.eqb k "unique_id" then id s else uniqueId u
    | None => uniqueId u
    end.
Proof. revert u k v. assigns_by_cases. Qed.

Lemma assigns_sessionToken u k v :
  sessionToken (fromJsonElement u (k, v)) =
    match get_string v with
    | Some s => if String.eqb k "session_token" then id s else sessionToken u
    | None => sessionToken u
    end.
Proof. revert u k v. assigns_by_cases. Qed.

Lemma assigns_csrfToken u k v :
  csrfToken (fromJsonElement u (k, v)) =
    match get_string v with
    | Some s => if String.eqb k "csrf_token" then id s else csrfToken u
    | None => csrfToken u
    end.
Proof. revert u k v. assigns_by_cases. Qed.

Lemma assigns_username u k v :
  username (fromJsonElement u (k, v)) =
    match get_string v with
    | Some s => if String.eqb k "username" then id s else username u
    | None => username u
    end.
Proof. revert u k v. assigns_by_cases. Qed.

Lemma assigns_clientId u k v :
  clientId (fromJsonElement u (k, v)) =
    match get_string v with
    | Some s => if String.eqb k "client_id" then Some s else clientId u
    | None => clientId u
    end.
Proof. revert u k v. assigns_by_cases. Qed.

Lemma assigns_clientIp u k v :
  clientIp (fromJsonElement u (k, v)) =
    match get_string v with
    | Some s => if String.eqb k "client_ip" then id s else clientIp u
    | None => clientIp u
    end.
Proof. revert u k v. assigns_by_cases. Qed.

Lemma fromJsonElement_untouched u e :
  untouched (fromJsonElement u e) = untouched u.
Proof.
  unfold fromJsonElement. destruct (get_string (snd e)); [|reflexivity].
  repeat (destruct (String.eqb _ _); [reflexivity|]). reflexivity.
Qed.

Lemma foldl_untouched entries : forall u,
  untouched (foldl fromJsonElement u entries) = untouched u.
Proof.
  induction entries as [|e rest IH]; intros u; cbn [foldl].
  - reflexivity.
  - rewrite IH. apply fromJsonElement_untouched.
Qed.

Lemma foldl_parsed j :
  foldl fromJsonElement emptySession (items j) = parsed j.
Proof.
  pose proof (foldl_items "unique_id" uniqueId id assigns_uniqueId j) as H1.
  pose proof
    (foldl_items "session_token" sessionToken id assigns_sessionToken j) as H2.
  pose proof (foldl_items "username" username id assigns_username j) as H3.
  pose proof (foldl_items "csrf_token" csrfToken id assigns_csrfToken j) as H4.
  pose proof (foldl_items "client_id" clientId Some assigns_clientId j) as H5.
  pose proof (foldl_items "client_ip" clientIp id assigns_clientIp j) as H6.
  pose proof (foldl_untouched (items j) emptySession) as H7.
  destruct (foldl fromJsonElement emptySession (items j)).
  unfold untouched in H7. cbn in H1, H2, H3, H4, H5, H6, H7.
  injection H7 as -> -> -> -> -> ->.
  rewrite H1, H2, H3, H4, H5, H6 by (vm_compute; lia).
  unfold parsed.
  destruct (field j "unique_id"), (field j "session_token"),
    (field j "username"), (field j "csrf_token"), (field j "client_id"),
    (field j "client_ip"); reflexivity.
Qed.

Lemma fromJson_parsed now j :
  fromJson now j =
    if isEmpty (uniqueId (parsed j)) || isEmpty (username (parsed j))
       || isEmpty (sessionToken (parsed j)) || isEmpty (csrfToken (parsed j))
    then None
    else Some (set_lastUpdated now (parsed j)).
Proof. unfold fromJson. rewrite foldl_parsed. reflexivity. Qed.

Lemma isEmpty_field j key :
  isEmpty (default "" (field j key)) = false <->
  exists s, field j key = Some s /\ s <> "".
Proof.
  destruct (field j key) as [s|]; cbn.
  - destruct s; cbn.
    + split; [discriminate|]. intros (s & [= <-] & Hne). contradiction.
    + split; [|reflexivity]. intros _. eexists. split; [reflexivity|].
      discriminate.
  - split; [discriminate|]. intros (s & [=] & _).
Qed.

(** C5: fromJson returns a record exactly when the document holds the
    four mandatory fields unique_id, username, session_token and
    csrf_token as strings that are not empty.  The result depends only
    on the strings under the six keys the store knows: values of any
    other type and any other key play no part, so they are skipped and
    never reject the record.  A record that is returned carries the
    persisted strings, has lastUpdated set to the clock reading and
    persistence set to TIMEOUT. *)
Theorem fromJson_accepts_iff now j :
  (is_Some (fromJson now j) <-> mandatoryPresent j) /\
  (forall j',
      (forall key, key ∈ recognizedKeys -> field j' key = field j key) ->
      fromJson now j' = fromJson now j) /\
  (forall r,
      fromJson now j = Some r ->
      lastUpdated r = now /\ persistence r = TIMEOUT /\
      field j "unique_id" = Some (uniqueId r) /\
      field j "username" = Some (username r) /\
      field j "session_token" = Some (sessionToken r) /\
      field j "csrf_token" = Some (csrfToken r) /\
      clientId r = field j "client_id" /\
      clientIp r = default "" (field j "client_ip")).
Proof.
  assert (forall key, key ∈ mandatoryKeys <->
            key = "unique_id" \/ key = "username" \/
            key = "session_token" \/ key = "csrf_token") as Hkeys.
  { intros key. unfold mandatoryKeys.
    rewrite !elem_of_cons, elem_of_nil. tauto. }
  split; [|split].
  - rewrite fromJson_parsed. unfold parsed. cbn [uniqueId username
      sessionToken csrfToken].
    split.
    + intros Hsome key Hkey. apply isEmpty_field.
      destruct (isEmpty (default "" (field j "unique_id"))) eqn:H1;
        [destruct Hsome as [? [=]]|].
      destruct (isEmpty (default "" (field j "username"))) eqn:H2;
        [destruct Hsome as [? [=]]|].
      destruct (isEmpty (default "" (field j "session_token"))) eqn:H3;
        [destruct Hsome as [? [=]]|].
      destruct (isEmpty (default "" (field j "csrf_token"))) eqn:H4;
        [destruct Hsome as [? [=]]|].
      apply Hkeys in Hkey as [->|[->|[->| ->]]]; assumption.
    + intros Hall.
      assert (forall key, key ∈ mandatoryKeys ->
                isEmpty (default "" (field j key)) = false) as Hne.
      { intros key Hkey. apply isEmpty_field. apply Hall. exact Hkey. }
      rewrite !Hne by (apply Hkeys; tauto). cbn. eauto.
  - intros j' Hsame. rewrite !fromJson_parsed.
    assert (parsed j' = parsed j) as ->; [|reflexivity].
    unfold parsed.
    rewrite !Hsame
      by (unfold recognizedKeys, mandatoryKeys; cbn; repeat constructor).
    reflexivity.
  - intros r. rewrite fromJson_parsed. unfold parsed. cbn [uniqueId username
      sessionToken csrfToken].
    destruct (isEmpty (default "" (field j "unique_id"))) eqn:H1;
      [discriminate|].
    destruct (isEmpty (default "" (field j "username"))) eqn:H2;
      [discriminate|].
    destruct (isEmpty (default "" (field j "session_token"))) eqn:H3;
      [discriminate|].
    destruct (isEmpty (default "" (field j "csrf_token"))) eqn:H4;
      [discriminate|].
    cbn. intros [= <-]. cbn.
    apply isEmpty_field in H1 as (s1 & -> & _).
    apply isEmpty_field in H2 as (s2 & -> & _).
    apply isEmpty_field in H3 as (s3 & -> & _).
    apply isEmpty_field in H4 as (s4 & -> & _).
    cbn. repeat split; reflexivity.
Qed.

Example fromJson_complete :
  fromJson 42 completeDocument =
    Some (mkUserSession "efghijklmn" "0123456789ABCDEFGHIJ" "alice"
            "KLMNOPQRSTUVWXYZabcd" None "10.0.0.1" 42 TIMEOUT false false
            "" []).
Proof. vm_compute. reflexivity. Qed.

Example fromJson_without_csrf : fromJson 42 noCsrfDocument = None.
Proof. vm_compute. reflexivity. Qed.

Example fromJson_array :
  fromJson 42 (JArray [JString "efghijklmn"; JString "alice"]) = None.
Proof. vm_compute. reflexivity. Qed.

(** * Further properties of the code *)

(** ** Loops over the members of a document *)

Section KeyedFold.
Context {S A V : Type}.
Variable step : S -> string * json -> S.
Variable get : S -> A.
Variable read : json -> option V.
Variable inj : V -> A.
Variable key : string.

(** The loop body assigns the member [get] from a value of the expected
    type under [key] and leaves it alone otherwise. *)
Hypothesis assigns : forall u k v,
  get (step u (k, v)) =
    match read v with
    | Some x => if String.eqb k key then inj x else get u
    | None => get u
    end.

Lemma keyed_foldl_absent entries : forall u,
  (forall v x, (key, v) ∈ entries -> read v <> Some x) ->
  get (foldl step u entries) = get u.
Proof.
  induction entries as [|[k v] rest IH]; intros u Habs; cbn [foldl].
  - reflexivity.
  - rewrite IH.
    + rewrite assigns. destruct (read v) as [x|] eqn:Hr; [|reflexivity].
      destruct (String.eqb_spec k key) as [->|_]; [|reflexivity].
      exfalso. eapply Habs; [left|exact Hr].
    + intros v0 x0 Hin. eapply Habs. right. exact Hin.
Qed.

Lemma keyed_foldl_present entries v x : forall u,
  NoDup (entries.*1) ->
  (key, v) ∈ entries ->
  read v = Some x ->
  get (foldl step u entries) = inj x.
Proof.
  induction entries as [|[k v0] rest IH]; intros u Hnd Hin Hr; cbn [foldl].
  - inversion Hin.
  - cbn in Hnd. apply NoDup_cons in Hnd as [Hk Hnd].
    apply elem_of_cons in Hin as [[= <- <-]|Hin].
    + rewrite keyed_foldl_absent.
      * rewrite assigns, Hr, String.eqb_refl. reflexivity.
      * intros v1 x1 Hin _. apply Hk.
        apply (list_elem_of_fmap_2 fst) in Hin. exact Hin.
    + apply IH; assumption.
Qed.

Lemma keyed_foldl_items j u :
  lettered key ->
  get (foldl step u (items j)) =
    match
      match j with
      | JObject members => members !! key ≫= read
      | _ => None
      end
    with
    | Some x => inj x
    | None => get u
    end.
Proof.
  intros Hkey.
  assert (forall v, get (foldl step u [("", v)]) = get u) as Hprim.
  { intros v. apply keyed_foldl_absent. intros v0 x Hin _.
    apply list_elem_of_singleton in Hin. injection Hin as Hk _.
    rewrite Hk in Hkey. exact Hkey. }
  destruct j as [|members|elements| | | | | | |]; cbn [items];
    try apply Hprim.
  - reflexivity.
  - destruct (members !! key) as [v|] eqn:Hv; cbn.
    + destruct (read v) as [x|] eqn:Hr.
      * apply (keyed_foldl_present _ v);
          [apply NoDup_fst_map_to_list| |exact Hr].
        apply elem_of_map_to_list. exact Hv.
      * apply keyed_foldl_absent. intros v0 x0 Hin0 Hr0.
        apply elem_of_map_to_list in Hin0. congruence.
    + apply keyed_foldl_absent. intros v0 x0 Hin0 _.
      apply elem_of_map_to_list in Hin0. congruence.
  - apply keyed_foldl_absent. intros v0 x0 Hin _.
    apply elem_of_lookup_imap in Hin as (i & v & Heq & _).
    injection Heq as Hk _. exact (lettered_not_index key i Hkey Hk).
Qed.
End KeyedFold.

(** ** The authentication methods *)

Ltac auth_assigns_by_cases :=
  intros c k v; unfold authFromJsonElement; cbn [fst snd];
  destruct (get_bool v) as [b|]; [|reflexivity];
  repeat
    match goal with
    | |- context [String.eqb k ?x] =>
        destruct (String.eqb_spec k x) as [->|?]
    end;
  try reflexivity; try congruence.

Lemma assigns_xtoken c k v :
  xtoken (authFromJsonElement c (k, v)) =
    match get_bool v with
    | Some b => if String.eqb k "XToken" then id b else xtoken c
    | None => xtoken c
    end.
Proof. revert c k v. auth_assigns_by_cases. Qed.

Lemma assigns_cookie c k v :
  cookie (authFromJsonElement c (k, v)) =
    match get_bool v with
    | Some b => if String.eqb k "Cookie" then id b else cookie c
    | None => cookie c
    end.
Proof. revert c k v. auth_assigns_by_cases. Qed.

Lemma assigns_authSessionToken c k v :
  authSessionToken (authFromJsonElement c (k, v)) =
    match get_bool v with
    | Some b =>
        if String.eqb k "SessionToken" then id b else authSessionToken c
    | None => authSessionToken c
    end.
Proof. revert c k v. auth_assigns_by_cases. Qed.

Lemma assigns_basic c k v :
  basic (authFromJsonElement c (k, v)) =
    match get_bool v with
    | Some b => if String.eqb k "BasicAuth" then id b else basic c
    | None => basic c
    end.
Proof. revert c k v. auth_assigns_by_cases. Qed.

Lemma assigns_tls c k v :
  tls (authFromJsonElement c (k, v)) =
    match get_bool v with
    | Some b => if String.eqb k "TLS" then id b else tls c
    | None => tls c
    end.
Proof. revert c k v. auth_assigns_by_cases. Qed.

Lemma boolField_read j key :
  match j with
  | JObject members => members !! key ≫= get_bool
  | _ => None
  end = boolField j key.
Proof.
  destruct j; reflexivity.
Qed.

Lemma authFromJson_fields c j :
  AuthConfigMethods_fromJson c j =
    mkAuthConfigMethods
      (default (basic c) (boolField j "BasicAuth"))
      (default (authSessionToken c) (boolField j "SessionToken"))
      (default (xtoken c) (boolField j "XToken"))
      (default (cookie c) (boolField j "Cookie"))
      (default (tls c) (boolField j "TLS")).
Proof.
  unfold AuthConfigMethods_fromJson.
  pose proof (keyed_foldl_items authFromJsonElement basic get_bool id
                "BasicAuth" assigns_basic j c) as H1.
  pose proof (keyed_foldl_items authFromJsonElement authSessionToken
                get_bool id "SessionToken" assigns_authSessionToken j c)
    as H2.
  pose proof (keyed_foldl_items authFromJsonElement xtoken get_bool id
                "XToken" assigns_xtoken j c) as H3.
  pose proof (keyed_foldl_items authFromJsonElement cookie get_bool id
                "Cookie" assigns_cookie j c) as H4.
  pose proof (keyed_foldl_items authFromJsonElement tls get_bool id
                "TLS" assigns_tls j c) as H5.
  rewrite boolField_read in H1, H2, H3, H4, H5.
  destruct (foldl authFromJsonElement c (items j)).
  cbn in H1, H2, H3, H4, H5.
  rewrite H1, H2, H3, H4, H5 by (vm_compute; lia).
  destruct (boolField j "BasicAuth"), (boolField j "SessionToken"),
    (boolField j "XToken"), (boolField j "Cookie"), (boolField j "TLS");
    reflexivity.
Qed.

(** X1: AuthConfigMethods::fromJson sets each of the five flags to the
    boolean the document holds under the key of the flag (BasicAuth,
    SessionToken, XToken, Cookie, TLS) and leaves a flag as it was when
    the document is not an object, lacks the key, or holds a value there
    that is not a boolean.  Other keys play no part, and reading the same
    document a second time changes nothing. *)
Theorem AuthConfigMethods_fromJson_flags c j :
  AuthConfigMethods_fromJson c j =
    mkAuthConfigMethods
      (default (basic c) (boolField j "BasicAuth"))
      (default (authSessionToken c) (boolField j "SessionToken"))
      (default (xtoken c) (boolField j "XToken"))
      (default (cookie c) (boolField j "Cookie"))
      (default (tls c) (boolField j "TLS")) /\
  AuthConfigMethods_fromJson (AuthConfigMethods_fromJson c j) j =
    AuthConfigMethods_fromJson c j.
Proof.
  split; [apply authFromJson_fields|].
  rewrite (authFromJson_fields (AuthConfigMethods_fromJson c j)).
  rewrite (authFromJson_fields c). cbn.
  destruct (boolField j "BasicAuth"), (boolField j "SessionToken"),
    (boolField j "XToken"), (boolField j "Cookie"), (boolField j "TLS");
    reflexivity.
Qed.

(** X2: updateAuthMethodsConfig installs the configuration, sets the
    dirty flag and leaves the sessions, the timeout and the time of the
    last sweep alone; it raises SIGHUP exactly when the TLS flag of the
    new configuration differs from the one in force.  So a configuration
    read from a document over the one in force raises the signal exactly
    when the document holds a boolean under TLS that differs from the
    flag in force, and installing the same configuration again raises
    nothing and changes nothing. *)
Theorem updateAuthMethodsConfig_signal config j w :
  let '(raised, w') := updateAuthMethodsConfig config w in
  (raised = true <-> tls (authMethodsConfig (store w)) <> tls config) /\
  authMethodsConfig (store w') = config /\
  needWrite (store w') = true /\
  authTokens (store w') = authTokens (store w) /\
  objects w' = objects w /\
  timeoutInSeconds (store w') = timeoutInSeconds (store w) /\
  lastTimeoutUpdate (store w') = lastTimeoutUpdate (store w) /\
  updateAuthMethodsConfig config w' = (false, w') /\
  (fst (updateAuthMethodsConfig
          (AuthConfigMethods_fromJson (authMethodsConfig (store w)) j) w)
     = true <->
   exists b, boolField j "TLS" = Some b /\
             b <> tls (authMethodsConfig (store w))).
Proof.
  unfold updateAuthMethodsConfig. cbn.
  split.
  { destruct (tls (authMethodsConfig (store w))), (tls config); cbn;
      split; congruence. }
  do 6 (split; [reflexivity|]).
  split.
  { rewrite Bool.eqb_reflx. reflexivity. }
  rewrite (authFromJson_fields (authMethodsConfig (store w)) j).
  cbn. destruct (boolField j "TLS") as [b|]; cbn.
  - destruct (tls (authMethodsConfig (store w))), b; cbn; split;
      try congruence; try (intros _; eexists; split; [reflexivity|congruence]);
      intros (b' & [= <-] & Hne); congruence.
  - rewrite Bool.eqb_reflx. cbn. split; [discriminate|].
    intros (b & [=] & _).
Qed.

(** ** Lookup by uniqueId and enumeration *)

Lemma findByUid_result h uid entries p :
  findByUid h uid entries = Some p ->
  (p = nullptr /\
   forall k q s, (k, q) ∈ entries -> deref h q = Some s -> uniqueId s <> uid)
  \/
  (exists k s, (k, p) ∈ entries /\ deref h p = Some s /\ uniqueId s = uid).
Proof.
  induction entries as [|[k0 q0] rest IH]; cbn [findByUid].
  - intros [= <-]. left. split; [reflexivity|]. intros k q s Hin.
    inversion Hin.
  - destruct (deref h q0) as [s0|] eqn:Hs0; [|discriminate].
    destruct (decide (uniqueId s0 = uid)) as [Hu|Hu].
    + rewrite (bool_decide_eq_true_2 _ Hu). intros [= <-]. right.
      exists k0, s0. split; [left|]. auto.
    + rewrite (bool_decide_eq_false_2 _ Hu). intros Hrest.
      destruct (IH Hrest) as [[-> Hnone]|(k & s & Hin & Hs & Hk)].
      * left. split; [reflexivity|]. intros k q s Hin Hs.
        apply elem_of_cons in Hin as [[= -> ->]|Hin].
        -- congruence.
        -- eapply Hnone; eauto.
      * right. exists k, s. split; [right; exact Hin|]. auto.
Qed.

(** X3: on a well-formed store whose timeout has a count of nanoseconds
    that fits in 64 bits, getSessionByUid runs the sweep and then
    returns a session that is live after the sweep and has the given
    uniqueId, or nullptr when no session that is live after the sweep
    has it.  Unlike loginSessionByToken it does not touch the session:
    the objects, and with them lastUpdated, are as before. *)
Theorem getSessionByUid_finds timeNow uid w :
  store_wf w ->
  representable (timeoutInSeconds (store w)) ->
  exists p w1,
    getSessionByUid timeNow uid w = Some (p, w1) /\
    w1 = afterSweep timeNow w /\
    objects w1 = objects w /\
    ((p = nullptr /\
      forall k q s,
        authTokens (store w1) !! k = Some q ->
        deref (objects w) q = Some s -> uniqueId s <> uid)
     \/
     (exists k s,
         authTokens (store w1) !! k = Some p /\
         authTokens (store w) !! k = Some p /\
         deref (objects w) p = Some s /\ uniqueId s = uid)).
Proof.
  intros Hwf Hrange. pose proof (store_wf_allocated w Hwf) as Hal.
  pose proof (afterSweep_allocated timeNow w Hal) as Hal1.
  unfold getSessionByUid. rewrite applySessionTimeouts_spec by exact Hal.
  destruct (findByUid_defined (objects (afterSweep timeNow w)) uid _
              (allocated_entries _ Hal1)) as [p Hp].
  rewrite Hp. exists p, (afterSweep timeNow w).
  split; [reflexivity|]. split; [reflexivity|].
  split; [apply afterSweep_objects|].
  rewrite afterSweep_objects in Hp.
  destruct (findByUid_result _ _ _ _ Hp) as [[-> Hnone]|(k & s & Hin & Hs & Hu)].
  - left. split; [reflexivity|]. intros k q s Hk Hs.
    eapply Hnone; [|exact Hs]. apply elem_of_map_to_list. exact Hk.
  - right. exists k, s. apply elem_of_map_to_list in Hin.
    split; [exact Hin|]. split; [eapply afterSweep_sub; exact Hin|]. auto.
Qed.

(** Alice is found by her uniqueId 100 ticks after her login. *)
Lemma getSessionByUid_finds_witness :
  store_wf aliceWorld /\
  representable (timeoutInSeconds (store aliceWorld)) /\
  exists w1,
    getSessionByUid 100 "efghijklmn" aliceWorld = Some (Some 0%nat, w1) /\
    objects w1 = objects aliceWorld.
Proof.
  split; [exact aliceWorld_wf|].
  split; [exact aliceWorld_representable|].
  destruct
    (getSessionByUid_finds 100 "efghijklmn" aliceWorld aliceWorld_wf
       aliceWorld_representable)
    as (p & w1 & Hget & _ & Hobj & _).
  exists w1. split; [|exact Hobj].
  rewrite Hget. f_equal. f_equal.
  assert (fst <$> getSessionByUid 100 "efghijklmn" aliceWorld
          = Some (Some 0%nat)) as H by (vm_compute; reflexivity).
  rewrite Hget in H. cbn in H. congruence.
Defined.

Lemma collectUniqueIds_result h getAll type entries ret :
  collectUniqueIds h getAll type entries = Some ret ->
  (forall l,
      l ∈ ret <->
      exists k s, (k, Some l) ∈ entries /\ h !! l = Some s /\
                  (getAll = true \/ type = persistence s)) /\
  (NoDup (entries.*2) -> NoDup ret) /\
  (getAll = true -> length ret = length entries).
Proof.
  revert ret.
  induction entries as [|[k0 q0] rest IH]; intros ret; cbn [collectUniqueIds].
  - intros [= <-]. split; [|split].
    + intros l. split; [intros H; inversion H|].
      intros (k & s & Hin & _). inversion Hin.
    + intros _. constructor.
    + reflexivity.
  - destruct q0 as [l0|]; [|discriminate]. cbn [deref].
    destruct (h !! l0) as [s0|] eqn:Hs0; [|discriminate].
    destruct (collectUniqueIds h getAll type rest) as [ret0|]; [|discriminate].
    destruct (IH ret0 eq_refl) as (Hmem & Hnd & Hlen).
    assert (forall l,
               l ∈ ret0 -> Some l ∈ rest.*2) as Hsub.
    { intros l Hl. apply Hmem in Hl as (k & s & Hin & _).
      apply (list_elem_of_fmap_2 snd) in Hin. exact Hin. }
    destruct (getAll || bool_decide (type = persistence s0)) eqn:Hsel;
      intros [= <-].
    + split; [|split].
      * intros l. rewrite elem_of_cons, Hmem. split.
        -- intros [->|(k & s & Hin & Hs & Hc)].
           ++ exists k0, s0. split; [left|]. split; [exact Hs0|].
              apply orb_true_iff in Hsel as [Hg|Hb]; [left; exact Hg|].
              right. apply bool_decide_eq_true in Hb. exact Hb.
           ++ exists k, s. split; [right; exact Hin|]. auto.
        -- intros (k & s & Hin & Hs & Hc).
           apply elem_of_cons in Hin as [[= -> ->]|Hin]; [left; reflexivity|].
           right. eauto.
      * cbn. intros Hnd0. apply NoDup_cons in Hnd0 as [Hnotin Hnd0].
        apply NoDup_cons. split; [|apply Hnd; exact Hnd0].
        intros Hin. apply Hnotin. apply Hsub. exact Hin.
      * intros Hg. cbn. rewrite (Hlen Hg). reflexivity.
    + split; [|split].
      * intros l. rewrite Hmem. split.
        -- intros (k & s & Hin & Hs & Hc). exists k, s.
           split; [right; exact Hin|]. auto.
        -- intros (k & s & Hin & Hs & Hc).
           apply elem_of_cons in Hin as [[= -> ->]|Hin]; [|eauto].
           exfalso. assert (s = s0) as -> by congruence.
           apply orb_false_iff in Hsel as [Hg Hb].
           apply bool_decide_eq_false in Hb.
           destruct Hc as [Hc|Hc]; congruence.
      * cbn. intros Hnd0. apply NoDup_cons in Hnd0 as [_ Hnd0].
        apply Hnd. exact Hnd0.
      * intros Hg. rewrite Hg in Hsel. discriminate.
Qed.

Lemma store_wf_pointers_NoDup w :
  store_wf w -> NoDup ((map_to_list (authTokens (store w))).*2).
Proof.
  intros Hwf. apply NoDup_fmap_2_strong; [|apply NoDup_map_to_list].
  intros [k1 p1] [k2 p2] H1 H2 Heq. cbn in Heq. subst p2.
  apply elem_of_map_to_list in H1. apply elem_of_map_to_list in H2.
  pose proof (Hwf _ _ H1) as Hk1. pose proof (Hwf _ _ H2) as Hk2.
  cbn in Hk1, Hk2. f_equal. congruence.
Qed.

(** X4: on a well-formed store whose timeout has a count of nanoseconds
    that fits in 64 bits, getUniqueIds runs the sweep and returns,
    without repetition, one pointer for each session that is live after
    the sweep and, unless all are asked for, has the given persistence;
    so a SINGLE_REQUEST session is never listed under TIMEOUT.  With
    getAll the list is as long as the collection.  The sessions are not
    touched. *)
Theorem getUniqueIds_lists timeNow getAll type w :
  store_wf w ->
  representable (timeoutInSeconds (store w)) ->
  exists ret w1,
    getUniqueIds timeNow getAll type w = Some (ret, w1) /\
    w1 = afterSweep timeNow w /\
    objects w1 = objects w /\
    (forall l,
        l ∈ ret <->
        exists k s,
          authTokens (store w1) !! k = Some (Some l) /\
          objects w !! l = Some s /\
          (getAll = true \/ type = persistence s)) /\
    NoDup ret /\
    (getAll = true -> length ret = size (authTokens (store w1))).
Proof.
  intros Hwf Hrange. pose proof (store_wf_allocated w Hwf) as Hal.
  pose proof (afterSweep_allocated timeNow w Hal) as Hal1.
  pose proof (afterSweep_wf timeNow w Hwf) as Hwf1.
  unfold getUniqueIds. rewrite applySessionTimeouts_spec by exact Hal.
  destruct (collectUniqueIds_defined (objects (afterSweep timeNow w)) getAll
              type _ (allocated_entries _ Hal1)) as [ret Hret].
  rewrite Hret. exists ret, (afterSweep timeNow w).
  split; [reflexivity|]. split; [reflexivity|].
  split; [apply afterSweep_objects|].
  destruct (collectUniqueIds_result _ _ _ _ _ Hret) as (Hmem & Hnd & Hlen).
  rewrite afterSweep_objects in Hmem.
  split; [|split].
  - intros l. rewrite Hmem. split; intros (k & s & Hin & Hrest);
      exists k, s; (split; [|exact Hrest]);
      apply elem_of_map_to_list; exact Hin.
  - apply Hnd. apply store_wf_pointers_NoDup. exact Hwf1.
  - intros Hg. rewrite (Hlen Hg). apply length_map_to_list.
Qed.

(** Of the three sessions only that of bob is SINGLE_REQUEST. *)
Lemma getUniqueIds_lists_witness :
  store_wf threeSessionWorld /\
  representable (timeoutInSeconds (store threeSessionWorld)) /\
  exists ret w1,
    getUniqueIds 100 false SINGLE_REQUEST threeSessionWorld = Some (ret, w1) /\
    (2%nat ∈ ret) /\ (0%nat ∉ ret).
Proof.
  split; [exact threeSessionWorld_wf|].
  split; [exact threeSessionWorld_representable|].
  destruct (getUniqueIds_lists 100 false SINGLE_REQUEST threeSessionWorld
              threeSessionWorld_wf threeSessionWorld_representable)
    as (ret & w1 & Hget & -> & _ & Hmem & _).
  exists ret, (afterSweep 100 threeSessionWorld).
  split; [exact Hget|]. split.
  - apply Hmem. exists "23456789ABCDEFGHIJKL".
    exists (newSession (offsetSource 2) 7 "bob" "10.0.0.3" None
              SINGLE_REQUEST false).
    split; [vm_compute; reflexivity|]. split; [vm_compute; reflexivity|].
    right. reflexivity.
  - intros Hin. apply Hmem in Hin as (k & s & _ & Hs & [Hc|Hc]);
      [discriminate Hc|].
    vm_compute in Hs. injection Hs as <-. discriminate Hc.
Defined.

(** ** The tokens of a new session *)

Lemma alphanumAt_in i : In (alphanumAt i) alphanum.
Proof.
  unfold alphanumAt. destruct (nth_in_or_default i alphanum "0"%char) as [H|H].
  - exact H.
  - rewrite H. vm_compute. left. reflexivity.
Qed.

Lemma drawn_alphanum src n : forall a,
  Forall (fun c => In c alphanum) (list_ascii_of_string (drawn src a n)).
Proof.
  induction n as [|n IH]; intros a.
  - constructor.
  - change (drawn src a (S n))
      with (String (alphanumAt (value (src a))) (drawn src (S a) n)).
    cbn [list_ascii_of_string]. constructor; [apply alphanumAt_in|apply IH].
Qed.

(** X5: when generateUserSession returns a record that was not there
    before, its session token and its CSRF token have twenty characters
    and its uniqueId ten, all of them among the 62 characters of
    alphanum; the record carries the username, the client id, the
    address, the clock reading, the persistence and the
    isConfigureSelfOnly flag of the call, cookieAuth is off, and the role
    and the groups are empty. *)
Theorem generateUserSession_token_format
    src now name ip cid pers selfOnly w p w' :
  no_dangling w ->
  generateUserSession src now name ip cid pers selfOnly w = (p, w') ->
  p <> nullptr ->
  deref (objects w) p = None ->
  exists s,
    deref (objects w') p = Some s /\
    String.length (sessionToken s) = sessionTokenSize /\
    String.length (csrfToken s) = sessionTokenSize /\
    String.length (uniqueId s) = 10%nat /\
    Forall (fun c => In c alphanum) (list_ascii_of_string (sessionToken s)) /\
    Forall (fun c => In c alphanum) (list_ascii_of_string (csrfToken s)) /\
    Forall (fun c => In c alphanum) (list_ascii_of_string (uniqueId s)) /\
    username s = name /\ clientId s = cid /\ clientIp s = ip /\
    lastUpdated s = now /\ persistence s = pers /\
    isConfigureSelfOnly s = selfOnly /\ cookieAuth s = false /\
    userRole s = "" /\ userGroups s = [].
Proof.
  intros Hnd. rewrite generateUserSession_spec.
  destruct (noFault src 0 50); [|intros [= <- <-] H; contradiction].
  unfold emplace.
  destruct (authTokens (store w) !! drawn src 0 20) as [q|] eqn:Hq.
  - intros [= <- <-] Hp Hnew. exfalso. specialize (Hnd _ _ Hq). cbn in Hnd.
    destruct q as [l|]; [|contradiction]. cbn in Hnew. rewrite Hnew in Hnd.
    destruct Hnd as [? [=]].
  - intros [= <- <-] _ _. cbn [objects]. cbn [deref].
    rewrite lookup_insert_eq. eexists. split; [reflexivity|].
    unfold newSession. cbn.
    rewrite !drawn_length.
    repeat (split; [first [reflexivity | apply drawn_alphanum]|]).
    reflexivity.
Qed.

(** Bob logs in after alice: his tokens are new. *)
Lemma generateUserSession_token_format_witness :
  no_dangling aliceWorld /\
  exists s,
    deref
      (objects
         (snd (generateUserSession (offsetSource 1) 6 "bob" "10.0.0.3" None
                 TIMEOUT false aliceWorld)))
      (Some 1%nat) = Some s /\
    String.length (sessionToken s) = sessionTokenSize /\
    username s = "bob".
Proof.
  pose proof (allocated_no_dangling _ (store_wf_allocated _ aliceWorld_wf))
    as Hnd.
  split; [exact Hnd|].
  destruct
    (generateUserSession_token_format (offsetSource 1) 6 "bob" "10.0.0.3"
       None TIMEOUT false aliceWorld (Some 1%nat)
       (snd (generateUserSession (offsetSource 1) 6 "bob" "10.0.0.3" None
               TIMEOUT false aliceWorld)) Hnd)
    as (s & Hs & Hlen & _ & _ & _ & _ & _ & Hname & _).
  - vm_compute. reflexivity.
  - discriminate.
  - vm_compute. reflexivity.
  - exists s. auto.
Defined.

(** ** Creation, authentication and removal together *)

Lemma loginSessionByToken_hit timeNow now token w l s :
  allocated w ->
  representable (timeoutInSeconds (store w)) ->
  String.length token = sessionTokenSize ->
  authTokens (store w) !! token = Some (Some l) ->
  objects w !! l = Some s ->
  timeNow - lastUpdated s < seconds (timeoutInSeconds (store w)) ->
  loginSessionByToken timeNow now token w =
    Some (Some l,
          mkWorld (<[l := set_lastUpdated now s]> (objects w))
            (store (afterSweep timeNow w))).
Proof.
  intros Hal Hrange Hlen Htok Hs Hlive.
  rewrite loginSessionByToken_spec by exact Hal. cbn zeta.
  rewrite bool_decide_eq_false_2 by (intros H; apply H; exact Hlen).
  assert (authTokens (store (afterSweep timeNow w)) !! token = Some (Some l))
    as ->.
  { unfold afterSweep. destruct (bool_decide _); [|exact Htok].
    apply (sweptWorld_lookup _ _ _ _ Hal Hrange). split; [exact Htok|].
    exists s. split; [exact Hs|exact Hlive]. }
  rewrite Hs. reflexivity.
Qed.

(** X6: with a timeout whose count of nanoseconds fits in 64 bits, a
    session that generateUserSession has entered under a token that was
    free is found by loginSessionByToken with that token as long as the
    idle timeout has not passed since its creation: the call
    returns the same pointer and stores its clock reading in
    lastUpdated. *)
Theorem generateUserSession_then_login
    src now name ip cid pers selfOnly w p w1 timeNow now2 :
  store_wf w ->
  representable (timeoutInSeconds (store w)) ->
  generateUserSession src now name ip cid pers selfOnly w = (p, w1) ->
  p <> nullptr ->
  deref (objects w) p = None ->
  timeNow - now < seconds (timeoutInSeconds (store w)) ->
  exists s w2,
    deref (objects w1) p = Some s /\
    loginSessionByToken timeNow now2 (sessionToken s) w1 = Some (p, w2) /\
    deref (objects w2) p = Some (set_lastUpdated now2 s).
Proof.
  intros Hwf Hrange Hgen Hp Hnew Hlive.
  pose proof (generateUserSession_wf _ _ _ _ _ _ _ _ _ _ Hwf Hgen) as Hwf1.
  pose proof (store_wf_allocated _ Hwf1) as Hal1.
  rewrite generateUserSession_spec in Hgen.
  destruct (noFault src 0 50); [|injection Hgen as <- <-; contradiction].
  unfold emplace in Hgen.
  destruct (authTokens (store w) !! drawn src 0 20) as [q|] eqn:Hq;
    injection Hgen as <- <-.
  - exfalso. pose proof (Hwf _ _ Hq) as Hk. cbn in Hk.
    rewrite Hnew in Hk. discriminate Hk.
  - set (l := fresh (dom (objects w))) in *.
    exists (newSession src now name ip cid pers selfOnly). eexists.
    cbn [objects deref]. rewrite lookup_insert_eq.
    split; [reflexivity|].
    erewrite loginSessionByToken_hit; [| exact Hal1 | | | | |].
    + split; [reflexivity|]. cbn [objects deref].
      rewrite lookup_insert_eq. reflexivity.
    + cbn. exact Hrange.
    + cbn. apply drawn_length.
    + cbn. rewrite lookup_insert_eq. reflexivity.
    + cbn. rewrite lookup_insert_eq. reflexivity.
    + cbn. exact Hlive.
Qed.

(** Bob logs in at tick 6 and presents his token at tick 50. *)
Lemma generateUserSession_then_login_witness :
  store_wf aliceWorld /\
  representable (timeoutInSeconds (store aliceWorld)) /\
  exists s w2,
    loginSessionByToken 50 51 (sessionToken s)
      (snd (generateUserSession (offsetSource 1) 6 "bob" "10.0.0.3" None
              TIMEOUT false aliceWorld))
    = Some (Some 1%nat, w2) /\
    deref (objects w2) (Some 1%nat) = Some (set_lastUpdated 51 s).
Proof.
  split; [exact aliceWorld_wf|].
  split; [exact aliceWorld_representable|].
  destruct
    (generateUserSession_then_login (offsetSource 1) 6 "bob" "10.0.0.3"
       None TIMEOUT false aliceWorld (Some 1%nat)
       (snd (generateUserSession (offsetSource 1) 6 "bob" "10.0.0.3" None
               TIMEOUT false aliceWorld)) 50 51 aliceWorld_wf
       aliceWorld_representable)
    as (s & w2 & _ & Hlogin & Hs).
  - vm_compute. reflexivity.
  - discriminate.
  - vm_compute. reflexivity.
  - vm_compute. reflexivity.
  - exists s, w2. auto.
Defined.

(** X7: with a timeout whose count of nanoseconds fits in 64 bits,
    removeSession erases the entry under the token of the session and no
    other; afterwards loginSessionByToken with that token returns
    nullptr, and a second removeSession with the same handle leaves the
    world as the first left it. *)
Theorem removeSession_then_login session s w timeNow now :
  allocated w ->
  representable (timeoutInSeconds (store w)) ->
  deref (objects w) session = Some s ->
  exists w',
    removeSession session w = Some w' /\
    authTokens (store w') !! sessionToken s = None /\
    (forall k, k <> sessionToken s ->
               authTokens (store w') !! k = authTokens (store w) !! k) /\
    objects w' = objects w /\
    loginSessionByToken timeNow now (sessionToken s) w'
      = Some (nullptr, afterSweep timeNow w') /\
    removeSession session w' = Some w'.
Proof.
  intros Hal Hrange Hs. unfold removeSession at 1. rewrite Hs.
  eexists. split; [reflexivity|].
  set (w' := mkWorld (objects w)
               (set_needWrite true
                  (set_authTokens
                     (delete (sessionToken s) (authTokens (store w)))
                     (store w)))).
  assert (allocated w') as Hal'.
  { intros k q Hk. cbn in Hk. apply lookup_delete_Some in Hk as [_ Hk].
    exact (Hal k q Hk). }
  split; [cbn; apply lookup_delete_eq|].
  split; [intros k Hk; cbn; apply lookup_delete_ne; congruence|].
  split; [reflexivity|].
  split.
  - rewrite loginSessionByToken_spec by exact Hal'. cbn zeta.
    destruct (bool_decide _); [reflexivity|].
    destruct (authTokens (store (afterSweep timeNow w')) !! sessionToken s)
      as [q|] eqn:Hq; [|reflexivity].
    apply afterSweep_sub in Hq. cbn in Hq. rewrite lookup_delete_eq in Hq.
    discriminate Hq.
  - unfold removeSession. cbn [objects w']. rewrite Hs. unfold w'. cbn.
    rewrite delete_delete_eq. reflexivity.
Qed.

(** Alice logs out twice. *)
Lemma removeSession_then_login_witness :
  allocated aliceWorld /\
  representable (timeoutInSeconds (store aliceWorld)) /\
  exists w',
    removeSession (Some 0%nat) aliceWorld = Some w' /\
    fst <$> loginSessionByToken 50 51 "0123456789ABCDEFGHIJ" w'
      = Some nullptr /\
    removeSession (Some 0%nat) w' = Some w'.
Proof.
  pose proof (store_wf_allocated _ aliceWorld_wf) as Hal.
  split; [exact Hal|].
  split; [exact aliceWorld_representable|].
  destruct
    (removeSession_then_login (Some 0%nat)
       (newSession countingSource 5 "alice" "10.0.0.1" None TIMEOUT false)
       aliceWorld 50 51 Hal aliceWorld_representable)
    as (w' & Hrm & _ & _ & _ & Hlogin & Hagain).
  - vm_compute. reflexivity.
  - exists w'. split; [exact Hrm|]. split; [|exact Hagain].
    change "0123456789ABCDEFGHIJ"
      with (sessionToken
              (newSession countingSource 5 "alice" "10.0.0.1" None TIMEOUT
                 false)).
    rewrite Hlogin. reflexivity.
Defined.

(** ** What every operation keeps *)

Lemma store_wf_shrink w m :
  store_wf w ->
  (forall k p, m !! k = Some p -> authTokens (store w) !! k = Some p) ->
  store_wf (mkWorld (objects w) (set_authTokens m (store w))).
Proof. intros Hwf Hsub k p Hk. cbn in *. apply (Hwf k p). auto. Qed.

Lemma erase_if_sub (m m' : gmap string ptr) pred k p :
  erase_if m pred = Some m' -> m' !! k = Some p -> m !! k = Some p.
Proof.
  unfold erase_if. intros Hm' Hk.
  rewrite (eraseEntries_lookup _ _ _ _ k Hm') in Hk.
  destruct (existsb _ _); [discriminate|exact Hk].
Qed.

Lemma runCall_wf c w w' : store_wf w -> runCall c w = Some w' -> store_wf w'.
Proof.
  intros Hwf.
  destruct c as [src now name ip cid pers selfOnly|c timeNow|session|name
                |name session|n|config]; cbn [runCall].
  - intros [= <-].
    destruct (generateUserSession src now name ip cid pers selfOnly w)
      as [p w1] eqn:Hgen.
    exact (generateUserSession_wf _ _ _ _ _ _ _ _ _ _ Hwf Hgen).
  - apply lookupWorld_wf. exact Hwf.
  - unfold removeSession. destruct (deref (objects w) session) as [s|];
      [|discriminate].
    intros [= <-]. intros k p Hk. cbn in Hk |- *.
    apply lookup_delete_Some in Hk as [_ Hk]. exact (Hwf k p Hk).
  - unfold removeSessionsByUsername.
    destruct (erase_if _ _) as [m|] eqn:Hm; [|discriminate].
    intros [= <-]. apply store_wf_shrink; [exact Hwf|].
    intros k p. apply (erase_if_sub _ _ _ _ _ Hm).
  - unfold removeSessionsByUsernameExceptSession.
    destruct (erase_if _ _) as [m|] eqn:Hm; [|discriminate].
    intros [= <-]. apply store_wf_shrink; [exact Hwf|].
    intros k p. apply (erase_if_sub _ _ _ _ _ Hm).
  - intros [= <-]. exact Hwf.
  - intros [= <-]. exact Hwf.
Qed.

(** X8: the operations of the store keep it well formed: after any
    sequence of calls of generateUserSession, the lookups,
    removeSession, the two bulk removals, updateSessionTimeout and
    updateAuthMethodsConfig on a well-formed store, and so on the store
    as it is constructed, every entry of the map holds a pointer that is
    not null, to a session whose sessionToken is the key of the entry;
    two entries never share a session. *)
Theorem runCalls_store_wf cs : forall w w',
  store_wf w ->
  runCalls cs w = Some w' ->
  store_wf w' /\
  (forall k1 k2 p,
      authTokens (store w') !! k1 = Some p ->
      authTokens (store w') !! k2 = Some p -> k1 = k2) /\
  (forall config w0,
      runCalls cs (initialWorld config) = Some w0 -> store_wf w0).
Proof.
  assert (forall w w', store_wf w -> runCalls cs w = Some w' -> store_wf w')
    as Hseq.
  { induction cs as [|c rest IH]; intros w w' Hwf; cbn [runCalls].
    - intros [= <-]. exact Hwf.
    - destruct (runCall c w) as [w1|] eqn:Hc; [|discriminate].
      apply IH. exact (runCall_wf _ _ _ Hwf Hc). }
  intros w w' Hwf Hrun. pose proof (Hseq _ _ Hwf Hrun) as Hwf'.
  split; [exact Hwf'|]. split.
  - intros k1 k2 p H1 H2. pose proof (Hwf' _ _ H1) as E1.
    pose proof (Hwf' _ _ H2) as E2. cbn in E1, E2. congruence.
  - intros config w0. apply Hseq. apply map_Forall_empty.
Qed.

(** Alice and bob log in, a lookup follows, and alice is logged out. *)
Lemma runCalls_store_wf_witness :
  store_wf (initialWorld exampleConfig) /\
  is_Some (runCalls exampleCalls (initialWorld exampleConfig)) /\
  store_wf
    (default (initialWorld exampleConfig)
       (runCalls exampleCalls (initialWorld exampleConfig))).
Proof.
  split; [apply map_Forall_empty|].
  split; [vm_compute; eexists; reflexivity|].
  destruct
    (runCalls_store_wf exampleCalls (initialWorld exampleConfig)
       (default (initialWorld exampleConfig)
          (runCalls exampleCalls (initialWorld exampleConfig))))
    as [H _].
  - apply map_Forall_empty.
  - vm_compute. reflexivity.
  - exact H.
Defined.

Lemma runCall_defined c w :
  store_wf w -> handleValid c w -> is_Some (runCall c w).
Proof.
  intros Hwf Hvalid. pose proof (store_wf_allocated _ Hwf) as Hal.
  pose proof (allocated_no_dangling _ Hal) as Hnd.
  destruct c as [src now name ip cid pers selfOnly|c timeNow|session|name
                |name session|n|config]; cbn [runCall handleValid] in *.
  - eauto.
  - destruct (lookupWorld_store c timeNow w Hal) as (w' & -> & _). eauto.
  - destruct Hvalid as [s Hs]. unfold removeSession. rewrite Hs. eauto.
  - rewrite (removeSessionsByUsername_spec _ _ Hnd). eauto.
  - destruct Hvalid as [s Hs].
    rewrite (removeSessionsByUsernameExceptSession_spec _ _ _ _ Hnd Hs).
    eauto.
  - eauto.
  - eauto.
Qed.

(** X9: on a well-formed store no operation dereferences a null
    pointer: every call has a result, provided the handle that
    removeSession or removeSessionsByUsernameExceptSession receives
    points to a session.  A lookup never fails, whatever the token or
    the uniqueId. *)
Theorem runCall_no_null_dereference c w :
  store_wf w ->
  handleValid c w ->
  exists w', runCall c w = Some w' /\ store_wf w'.
Proof.
  intros Hwf Hvalid. destruct (runCall_defined c w Hwf Hvalid) as [w' Hw'].
  exists w'. split; [exact Hw'|]. exact (runCall_wf _ _ _ Hwf Hw').
Qed.

(** The session of bob is removed through his handle. *)
Lemma runCall_no_null_dereference_witness :
  store_wf threeSessionWorld /\
  exists w',
    runCall (CallRemoveSession (Some 2%nat)) threeSessionWorld = Some w' /\
    store_wf w'.
Proof.
  split; [exact threeSessionWorld_wf|].
  apply (runCall_no_null_dereference (CallRemoveSession (Some 2%nat))
           threeSessionWorld threeSessionWorld_wf).
  cbn. vm_compute. eexists. reflexivity.
Defined.

(** X10: with a timeout whose count of nanoseconds fits in 64 bits,
    loginSessionByToken changes the store as the sweep does and
    nothing else of it, and of the session objects it changes only the
    one it returns, by storing the clock reading in lastUpdated; no
    object appears or disappears. *)
Theorem loginSessionByToken_frame timeNow now token w p w' :
  allocated w ->
  representable (timeoutInSeconds (store w)) ->
  loginSessionByToken timeNow now token w = Some (p, w') ->
  store w' = store (afterSweep timeNow w) /\
  (forall l s,
      objects w !! l = Some s ->
      objects w' !! l
        = Some (if decide (p = Some l) then set_lastUpdated now s else s)) /\
  (forall l, objects w !! l = None -> objects w' !! l = None) /\
  (p = nullptr -> w' = afterSweep timeNow w).
Proof.
  intros Hal Hrange. rewrite loginSessionByToken_spec by exact Hal.
  cbn zeta.
  assert (forall w1,
             objects w1 = objects w ->
             (forall l s, objects w !! l = Some s ->
                objects w1 !! l
                  = Some (if decide (nullptr = Some l)
                          then set_lastUpdated now s else s))) as Hmiss.
  { intros w1 -> l s Hs. rewrite Hs. case_decide as Heq; [discriminate Heq|].
    reflexivity. }
  destruct (bool_decide _).
  { intros [= <- <-]. split; [reflexivity|].
    split; [apply Hmiss, afterSweep_objects|].
    split; [intros l; rewrite afterSweep_objects; auto|auto]. }
  destruct (authTokens (store (afterSweep timeNow w)) !! token)
    as [[l0|]|] eqn:Hl0; [|discriminate|].
  - destruct (objects w !! l0) as [s0|] eqn:Hs0; [|discriminate].
    intros [= <- <-]. cbn [objects store]. split; [reflexivity|].
    split; [|split].
    + intros l s Hs. case_decide as Heq.
      * injection Heq as Heq. subst l0. rewrite lookup_insert_eq.
        rewrite Hs in Hs0. injection Hs0 as ->. reflexivity.
      * rewrite lookup_insert_ne; [exact Hs|].
        intros Hl. apply Heq. f_equal. exact Hl.
    + intros l Hl. rewrite lookup_insert_ne; [exact Hl|].
      intros Heq. subst l0. rewrite Hl in Hs0. discriminate Hs0.
    + discriminate.
  - intros [= <- <-]. split; [reflexivity|].
    split; [apply Hmiss, afterSweep_objects|].
    split; [intros l; rewrite afterSweep_objects; auto|auto].
Qed.

(** Alice presents her token; the session of bob is as before. *)
Lemma loginSessionByToken_frame_witness :
  allocated threeSessionWorld /\
  representable (timeoutInSeconds (store threeSessionWorld)) /\
  exists w',
    loginSessionByToken 50 51 "0123456789ABCDEFGHIJ" threeSessionWorld
      = Some (Some 0%nat, w') /\
    objects w' !! 2%nat
      = Some (newSession (offsetSource 2) 7 "bob" "10.0.0.3" None
                SINGLE_REQUEST false).
Proof.
  pose proof (store_wf_allocated _ threeSessionWorld_wf) as Hal.
  split; [exact Hal|].
  split; [exact threeSessionWorld_representable|].
  assert (fst <$> loginSessionByToken 50 51 "0123456789ABCDEFGHIJ"
                    threeSessionWorld = Some (Some 0%nat)) as Hp
    by (vm_compute; reflexivity).
  destruct (loginSessionByToken 50 51 "0123456789ABCDEFGHIJ"
              threeSessionWorld) as [[p w']|] eqn:Hlogin; [|discriminate Hp].
  cbn in Hp. injection Hp as ->.
  exists w'. split; [reflexivity|].
  destruct
    (loginSessionByToken_frame 50 51 "0123456789ABCDEFGHIJ"
       threeSessionWorld (Some 0%nat) w' Hal threeSessionWorld_representable
       Hlogin) as (_ & Hobj & _).
  assert (objects threeSessionWorld !! 2%nat
          = Some (newSession (offsetSource 2) 7 "bob" "10.0.0.3" None
                    SINGLE_REQUEST false)) as Hbob
    by (vm_compute; reflexivity).
  etrans; [exact (Hobj 2%nat _ Hbob)|]. reflexivity.
Defined.

(** X11: removeSessionsByUsername removes all sessions of the user, so
    no entry that is left holds a session of that name; it gives the
    same store after removeSessionsByUsernameExceptSession as on its own,
    and a second call changes nothing. *)
Theorem removeSessionsByUsername_absorbs name session kept w :
  no_dangling w ->
  deref (objects w) session = Some kept ->
  exists w1 w2,
    removeSessionsByUsername name w = Some w1 /\
    removeSessionsByUsernameExceptSession name session w = Some w2 /\
    removeSessionsByUsername name w2 = Some w1 /\
    removeSessionsByUsername name w1 = Some w1 /\
    (forall k p s,
        authTokens (store w1) !! k = Some p ->
        deref (objects w1) p = Some s -> username s <> name).
Proof.
  intros Hnd Hkept.
  rewrite (removeSessionsByUsername_spec _ _ Hnd).
  rewrite (removeSessionsByUsernameExceptSession_spec _ _ _ _ Hnd Hkept).
  eexists _, _. split; [reflexivity|]. split; [reflexivity|].
  assert (forall m,
             (forall k p, m !! k = Some p ->
                          authTokens (store w) !! k = Some p) ->
             no_dangling (mkWorld (objects w) (set_authTokens m (store w))))
    as Hsub.
  { intros m Hm k p Hk. cbn in Hk |- *. exact (Hnd k p (Hm k p Hk)). }
  assert (filter (fun e => byUsername (objects w) name e <> Some true)
            (filter
               (fun e =>
                  byUsernameExcept (objects w) name session e <> Some true)
               (authTokens (store w)))
          = filter (fun e => byUsername (objects w) name e <> Some true)
              (authTokens (store w))) as Hm1.
  { apply map_eq. intros k. rewrite !map_lookup_filter.
    destruct (authTokens (store w) !! k) as [p|]; [|reflexivity]. cbn.
    destruct (decide (byUsernameExcept (objects w) name session (k, p)
                      <> Some true)) as [Hk|Hk].
    + rewrite option_guard_True by exact Hk. reflexivity.
    + rewrite option_guard_False by exact Hk. cbn.
      rewrite option_guard_False; [reflexivity|].
      intros Hne. apply Hk. intros Hex. apply Hne.
      apply (byUsernameExcept_true _ _ _ _ _ _ Hkept) in Hex
        as (s & Hs & Hn & _).
      apply byUsername_true. eauto. }
  assert (filter (fun e => byUsername (objects w) name e <> Some true)
            (filter (fun e => byUsername (objects w) name e <> Some true)
               (authTokens (store w)))
          = filter (fun e => byUsername (objects w) name e <> Some true)
              (authTokens (store w))) as Hm2.
  { apply map_eq. intros k. rewrite !map_lookup_filter.
    destruct (authTokens (store w) !! k) as [p|]; [|reflexivity]. cbn.
    destruct (decide (byUsername (objects w) name (k, p) <> Some true))
      as [Hk|Hk].
    + rewrite option_guard_True by exact Hk. cbn.
      rewrite option_guard_True by exact Hk. reflexivity.
    + rewrite option_guard_False by exact Hk. reflexivity. }
  split; [|split].
  - rewrite removeSessionsByUsername_spec
      by (apply Hsub; intros k p; apply map_lookup_filter_Some_1_1).
    cbn [objects store authTokens set_authTokens lastTimeoutUpdate needWrite
           timeoutInSeconds authMethodsConfig].
    rewrite Hm1. reflexivity.
  - rewrite removeSessionsByUsername_spec
      by (apply Hsub; intros k p; apply map_lookup_filter_Some_1_1).
    cbn [objects store authTokens set_authTokens lastTimeoutUpdate needWrite
           timeoutInSeconds authMethodsConfig].
    rewrite Hm2. reflexivity.
  - cbn. intros k p s Hk Hs Hn.
    apply map_lookup_filter_Some in Hk as [_ Hk]. apply Hk.
    apply byUsername_true. eauto.
Qed.

(** Both sessions of alice go, whichever of the two is kept first. *)
Lemma removeSessionsByUsername_absorbs_witness :
  no_dangling threeSessionWorld /\
  exists w1 w2,
    removeSessionsByUsername "alice" threeSessionWorld = Some w1 /\
    removeSessionsByUsernameExceptSession "alice" (Some 1%nat)
      threeSessionWorld = Some w2 /\
    removeSessionsByUsername "alice" w2 = Some w1.
Proof.
  split; [exact threeSessionWorld_no_dangling|].
  destruct
    (removeSessionsByUsername_absorbs "alice" (Some 1%nat)
       (newSession (offsetSource 1) 6 "alice" "10.0.0.9" None TIMEOUT false)
       threeSessionWorld threeSessionWorld_no_dangling)
    as (w1 & w2 & H1 & H2 & H3 & _).
  - vm_compute. reflexivity.
  - exists w1, w2. auto.
Defined.

(** ** A new idle timeout *)

(** X17: updateSessionTimeout changes the timeout and sets the dirty
    flag, and removes nothing itself; the new timeout, here one whose
    count of nanoseconds fits in 64 bits, is applied by the next sweep.  A session that is already idle for the new timeout is
    still returned, and refreshed, by a loginSessionByToken that comes
    within a second of the last sweep; when more than a second has
    passed the sweep of that call removes it and the call returns
    nullptr. *)
Theorem updateSessionTimeout_next_sweep n w token l s timeNow now :
  allocated w ->
  representable n ->
  String.length token = sessionTokenSize ->
  authTokens (store w) !! token = Some (Some l) ->
  objects w !! l = Some s ->
  seconds n <= timeNow - lastUpdated s ->
  let w1 := updateSessionTimeout n w in
  timeoutInSeconds (store w1) = n /\
  needWrite (store w1) = true /\
  authTokens (store w1) = authTokens (store w) /\
  lastTimeoutUpdate (store w1) = lastTimeoutUpdate (store w) /\
  objects w1 = objects w /\
  (timeNow - lastTimeoutUpdate (store w) <= seconds 1 ->
     loginSessionByToken timeNow now token w1
       = Some (Some l,
               mkWorld (<[l := set_lastUpdated now s]> (objects w))
                 (store w1))) /\
  (seconds 1 < timeNow - lastTimeoutUpdate (store w) ->
     exists w',
       loginSessionByToken timeNow now token w1 = Some (nullptr, w') /\
       authTokens (store w') !! token = None /\
       objects w' = objects w /\
       needWrite (store w') = true).
Proof.
  intros Hal Hrange Hlen Htok Hs Hidle w1.
  assert (allocated w1) as Hal1 by exact Hal.
  do 5 (split; [reflexivity|]).
  split; intros Hsweep.
  - rewrite loginSessionByToken_spec by exact Hal1. cbn zeta.
    rewrite bool_decide_eq_false_2 by (intros H; apply H; exact Hlen).
    rewrite (afterSweep_skip timeNow w1) by exact Hsweep.
    change (authTokens (store w1)) with (authTokens (store w)).
    rewrite Htok. change (objects w1) with (objects w). rewrite Hs.
    reflexivity.
  - assert (authTokens (store (sweptWorld timeNow w1)) !! token = None)
      as Hgone.
    { destruct (authTokens (store (sweptWorld timeNow w1)) !! token)
        as [p|] eqn:Hp; [|reflexivity].
      apply (sweptWorld_lookup _ _ _ _ Hal1 Hrange) in Hp
        as (Hp & s' & Hs' & Hlive).
      assert (p = Some l) as ->.
      { enough (Some p = Some (Some l)) by congruence.
        etrans; [symmetry; exact Hp|exact Htok]. }
      assert (s' = s) as ->.
      { enough (Some s' = Some s) by congruence.
        etrans; [symmetry; exact Hs'|exact Hs]. }
      change (timeoutInSeconds (store w1)) with n in Hlive. lia. }
    exists (sweptWorld timeNow w1).
    split; [|split; [exact Hgone|split; reflexivity]].
    rewrite loginSessionByToken_spec by exact Hal1. cbn zeta.
    rewrite bool_decide_eq_false_2 by (intros H; apply H; exact Hlen).
    rewrite (afterSweep_run timeNow w1) by exact Hsweep.
    unfold ptr in *. rewrite Hgone. reflexivity.
Qed.

(** Alice logged in at the start.  With the timeout set to zero a lookup
    in the first second still returns her session; with the timeout set
    to one minute a lookup after two minutes does not. *)
Lemma updateSessionTimeout_next_sweep_witness :
  fst <$> loginSessionByToken (seconds 1) (seconds 1) "0123456789ABCDEFGHIJ"
            (updateSessionTimeout 0 aliceWorld)
    = Some (Some 0%nat) /\
  fst <$> loginSessionByToken (seconds 120) (seconds 120)
            "0123456789ABCDEFGHIJ" (updateSessionTimeout 60 aliceWorld)
    = Some nullptr.
Proof.
  pose proof (store_wf_allocated _ aliceWorld_wf) as Hal.
  split.
  - destruct
      (updateSessionTimeout_next_sweep 0 aliceWorld "0123456789ABCDEFGHIJ"
         0%nat
         (newSession countingSource 5 "alice" "10.0.0.1" None TIMEOUT false)
         (seconds 1) (seconds 1) Hal)
      as (_ & _ & _ & _ & _ & Hsoon & _).
    + split; vm_compute; discriminate.
    + reflexivity.
    + vm_compute. reflexivity.
    + vm_compute. reflexivity.
    + vm_compute. discriminate.
    + rewrite Hsoon; [reflexivity|]. vm_compute. discriminate.
  - destruct
      (updateSessionTimeout_next_sweep 60 aliceWorld "0123456789ABCDEFGHIJ"
         0%nat
         (newSession countingSource 5 "alice" "10.0.0.1" None TIMEOUT false)
         (seconds 120) (seconds 120) Hal)
      as (_ & _ & _ & _ & _ & _ & Hlate).
    + split; vm_compute; discriminate.
    + reflexivity.
    + vm_compute. reflexivity.
    + vm_compute. reflexivity.
    + vm_compute. discriminate.
    + destruct Hlate as (w' & Hlogin & _); [vm_compute; reflexivity|].
      rewrite Hlogin. reflexivity.
Defined.

(** * The assembly resource *)

Local Open Scope list_scope.

(** ** A PATCH changes nothing *)

Lemma inert_same id res : inert id res (res, Done).
Proof. unfold inert. cbn. auto. Qed.

Lemma inert_error id res : inert id res (report InternalError res, Done).
Proof. unfold inert. cbn. auto. Qed.

Lemma checkAssemblyInterface_patch id bus res path assemblies :
  inert id res (checkAssemblyInterface bus res path assemblies true).
Proof.
  unfold checkAssemblyInterface. destruct (getSubTree bus) as [ec subtree].
  destruct (failed ec); [apply inert_error|].
  destruct subtree; [apply inert_same|].
  destruct (List.filter _ _); apply inert_same.
Qed.

Lemma getAssemblyEndpoints_patch id ops bus res path :
  inert id res (getAssemblyEndpoints ops bus res path true).
Proof.
  unfold getAssemblyEndpoints.
  destruct (getEndpoints bus _) as [ec [l|]];
    destruct (failed ec);
    auto using inert_error, inert_same, checkAssemblyInterface_patch.
Qed.

Lemma checkForAssemblyAssociations_patch id ops bus res path service :
  inert id res (checkForAssemblyAssociations ops bus res path service true).
Proof.
  unfold checkForAssemblyAssociations.
  destruct (getAssociations bus service path) as [ec [value|]];
    destruct (failed ec); try apply inert_error.
  destruct (existsb _ value);
    auto using inert_same, getAssemblyEndpoints_patch.
Qed.

Lemma checkAssociation_patch id ops bus res path :
  inert id res (checkAssociation ops bus res path true).
Proof.
  unfold checkAssociation.
  destruct (isEmpty _); [apply inert_error|].
  destruct (getObject bus path) as [ec object].
  destruct (failed ec); [apply inert_error|].
  destruct (firstAssociationService object);
    auto using inert_same, checkForAssemblyAssociations_patch.
Qed.

Lemma getChassisLoop_patch id ops bus res paths :
  inert id res (getChassisLoop ops bus res id true paths).
Proof.
  induction paths as [|path rest IH]; cbn [getChassisLoop].
  - unfold inert. cbn. auto.
  - destruct (negb _); [exact IH|]. apply checkAssociation_patch.
Qed.

(** X12: a PATCH on the assembly resource of a chassis changes nothing:
    whatever the services reply, the chain of callbacks ends without a
    call of setAssemblyLocationIndicators (it is commented out) or of
    getAssemblyProperties, leaves every member of the response as it
    was, and reports at most one message, an internal error or a chassis
    that was not found; it never reports success. *)
Theorem handleAssemblyPatch_changes_nothing ops bus chassisID res :
  let '(res', next) := handleAssemblyPatch ops bus chassisID res in
  next = Done /\
  jsonValue res' = jsonValue res /\
  (messages res' = messages res \/
   messages res' = (messages res ++ [InternalError])%list \/
   messages res'
     = (messages res ++ [ResourceNotFound "Chassis" chassisID])%list).
Proof.
  assert (inert chassisID res (handleAssemblyPatch ops bus chassisID res))
    as H.
  { unfold handleAssemblyPatch, getChassis.
    destruct (getSubTreePaths bus) as [ec paths].
    destruct (failed ec); [apply inert_error|apply getChassisLoop_patch]. }
  destruct (handleAssemblyPatch ops bus chassisID res) as [res' next].
  exact H.
Qed.

(** ** What a GET lists *)

Lemma sortStrings_elem l a : a ∈ sortStrings l <-> a ∈ l.
Proof. unfold sortStrings. rewrite merge_sort_Permutation. reflexivity. Qed.

Lemma sortStrings_sorted l : Sorted stringLe (sortStrings l).
Proof. apply Sorted_merge_sort. apply _. Qed.

Lemma sortStrings_length l : length (sortStrings l) = length l.
Proof. unfold sortStrings. rewrite merge_sort_Permutation. reflexivity. Qed.

Lemma getAssemblyPropertiesRound_append ops chassis idx assembly res l :
  jsonValue res !! "Assemblies" = Some (JArray l) ->
  length l = idx ->
  getAssemblyPropertiesRound ops chassis idx assembly res =
    Some
      (setMember "Assemblies@odata.count" (JUnsigned (N.of_nat (S idx)))
         (setMember "Assemblies"
            (JArray (l ++ [namedItem ops chassis idx assembly])) res)).
Proof.
  intros Harr Hlen. unfold getAssemblyPropertiesRound. rewrite Harr.
  rewrite list_lookup_middle by (symmetry; exact Hlen).
  cbn [setElementMember].
  assert (<[idx := JObject
                     (<["Name" := JString (filename ops assembly)]>
                        (assemblyItem ops chassis idx))]>
            (l ++ [JObject (assemblyItem ops chassis idx)])
          = l ++ [namedItem ops chassis idx assembly]) as ->.
  { rewrite insert_app_r_alt by lia.
    replace (idx - length l)%nat with 0%nat by lia. reflexivity. }
  rewrite length_app. cbn [length].
  replace (length l + 1)%nat with (S idx) by lia. reflexivity.
Qed.

Lemma getAssemblyPropertiesLoop_append ops chassis assemblies :
  forall idx res l,
    jsonValue res !! "Assemblies" = Some (JArray l) ->
    length l = idx ->
    exists res',
      getAssemblyPropertiesLoop ops chassis idx assemblies res = Some res' /\
      messages res' = messages res /\
      jsonValue res' !! "Assemblies"
        = Some
            (JArray
               (l ++ imap (fun i a => namedItem ops chassis (idx + i) a)
                       assemblies)) /\
      (assemblies <> [] ->
       jsonValue res' !! "Assemblies@odata.count"
         = Some (JUnsigned (N.of_nat (idx + length assemblies)))) /\
      (forall k, k <> "Assemblies" -> k <> "Assemblies@odata.count" ->
                 jsonValue res' !! k = jsonValue res !! k).
Proof.
  induction assemblies as [|a rest IH]; intros idx res l Harr Hlen;
    cbn [getAssemblyPropertiesLoop].
  - exists res. split; [reflexivity|]. split; [reflexivity|].
    split; [cbn; rewrite app_nil_r; exact Harr|].
    split; [intros H; contradiction|auto].
  - rewrite (getAssemblyPropertiesRound_append _ _ _ _ _ _ Harr Hlen).
    set (res1 :=
           setMember "Assemblies@odata.count" (JUnsigned (N.of_nat (S idx)))
             (setMember "Assemblies"
                (JArray (l ++ [namedItem ops chassis idx a])) res)).
    destruct (IH (S idx) res1 (l ++ [namedItem ops chassis idx a]))
      as (res' & Hloop & Hmsg & Harr' & Hcount & Hother).
    { unfold res1. cbn. rewrite lookup_insert_ne by discriminate.
      apply lookup_insert_eq. }
    { rewrite length_app. cbn. lia. }
    exists res'. split; [exact Hloop|]. split; [exact Hmsg|].
    split; [|split].
    + rewrite Harr'. do 2 f_equal. rewrite <- app_assoc. f_equal.
      rewrite imap_cons. cbn [app]. rewrite Nat.add_0_r. f_equal.
      apply imap_ext. intros i x _. cbn. f_equal. lia.
    + intros _. destruct rest as [|b rest'].
      * cbn in Hloop. injection Hloop as <-. unfold res1. cbn.
        rewrite lookup_insert_eq. do 3 f_equal. lia.
      * rewrite Hcount by discriminate. do 3 f_equal. cbn. lia.
    + intros k Hk1 Hk2. rewrite (Hother k Hk1 Hk2). unfold res1. cbn.
      rewrite !lookup_insert_ne by congruence. reflexivity.
Qed.

Lemma getChassisLoop_no_match ops bus res id flag paths :
  (forall p, p ∈ paths -> filename ops p <> id) ->
  getChassisLoop ops bus res id flag paths
    = (report (ResourceNotFound "Chassis" id) res, Done).
Proof.
  induction paths as [|path rest IH]; intros Hno; cbn [getChassisLoop].
  - reflexivity.
  - destruct (String.eqb_spec (filename ops path) id) as [Heq|_].
    + exfalso. apply (Hno path); [left|exact Heq].
    + cbn [negb]. apply IH. intros p Hp. apply Hno. right. exact Hp.
Qed.

Lemma getChassisLoop_match ops bus res id flag pre path post :
  (forall p, p ∈ pre -> filename ops p <> id) ->
  filename ops path = id ->
  getChassisLoop ops bus res id flag (pre ++ path :: post)
    = checkAssociation ops bus
        (if flag then res
         else
           setMember "Id" (JString "Assembly")
             (setMember "Name" (JString "Assembly Collection")
                (setMember "@odata.id"
                   (JString
                      ("/redfish/v1/Chassis/" ++ id ++ "/Assembly")%string)
                   (setMember "@odata.type"
                      (JString "#Assembly.v1_3_0.Assembly") res))))
        path flag.
Proof.
  intros Hno Hyes. induction pre as [|p0 pre IH]; cbn [app getChassisLoop].
  - rewrite Hyes, String.eqb_refl. reflexivity.
  - destruct (String.eqb_spec (filename ops p0) id) as [Heq|_].
    + exfalso. apply (Hno p0); [left|exact Heq].
    + cbn [negb]. apply IH. intros p Hp. apply Hno. right. exact Hp.
Qed.

(** X13: when the mapper answers, a GET or a PATCH for a chassis id that
    is the last component of none of the chassis paths reports that the
    chassis was not found and does nothing else.  Otherwise the first
    path of the reply whose last component is the id is taken, whatever
    follows it: a GET sets the type, the id, the name and the URI of the
    collection, and the chain goes on with checkAssociation on that
    path. *)
Theorem getChassis_first_match ops bus res chassisID flag paths :
  getSubTreePaths bus = (0, paths) ->
  ((forall p, p ∈ paths -> filename ops p <> chassisID) ->
   getChassis ops bus res chassisID flag
     = (report (ResourceNotFound "Chassis" chassisID) res, Done)) /\
  (forall pre path post,
      paths = pre ++ path :: post ->
      (forall p, p ∈ pre -> filename ops p <> chassisID) ->
      filename ops path = chassisID ->
      getChassis ops bus res chassisID flag
        = checkAssociation ops bus
            (if flag then res
             else
               mkResponse
                 (<["Id" := JString "Assembly"]>
                    (<["Name" := JString "Assembly Collection"]>
                       (<["@odata.id" :=
                            JString
                              ("/redfish/v1/Chassis/" ++ chassisID
                               ++ "/Assembly")%string]>
                          (<["@odata.type" :=
                               JString "#Assembly.v1_3_0.Assembly"]>
                             (jsonValue res)))))
                 (messages res))
            path flag).
Proof.
  intros Hpaths. unfold getChassis. rewrite Hpaths. cbn [failed Z.eqb negb].
  split.
  - apply getChassisLoop_no_match.
  - intros pre path post -> Hno Hyes.
    rewrite (getChassisLoop_match _ _ _ _ _ _ _ _ Hno Hyes). reflexivity.
Qed.

(** The chassis of the example is the second path of the reply. *)
Lemma getChassis_first_match_witness :
  getChassis examplePathOps exampleBus emptyResponse "nochassis" false
    = (report (ResourceNotFound "Chassis" "nochassis") emptyResponse, Done).
Proof.
  destruct
    (getChassis_first_match examplePathOps exampleBus emptyResponse
       "nochassis" false
       ["/xyz/openbmc_project/inventory/system/board";
        "/xyz/openbmc_project/inventory/system/chassis"] eq_refl)
    as [Hnone _].
  apply Hnone. intros p Hp.
  apply elem_of_cons in Hp as [->|Hp]; [vm_compute; discriminate|].
  apply elem_of_cons in Hp as [->|Hp]; [vm_compute; discriminate|].
  inversion Hp.
Defined.

Lemma implementedAssemblies_elem endpoints subtree a :
  a ∈ implementedAssemblies endpoints subtree <->
  a ∈ endpoints /\ a ∈ subtree.*1.
Proof.
  unfold implementedAssemblies. rewrite sortStrings_elem.
  rewrite list_elem_of_In, filter_In, <- !list_elem_of_In.
  unfold contains. rewrite bool_decide_eq_true, sortStrings_elem. tauto.
Qed.

(** The response of a GET that finds the chassis, its association and
    at least one implemented assembly. *)
Lemma handleAssemblyGet_response
    ops bus chassisId res pre path post object service associations
    endpoints subtree :
  getSubTreePaths bus = (0, pre ++ path :: post) ->
  (forall p, p ∈ pre -> filename ops p <> chassisId) ->
  filename ops path = chassisId ->
  chassisId <> "" ->
  getObject bus path = (0, object) ->
  firstAssociationService object = Some service ->
  getAssociations bus service path = (0, Some associations) ->
  (exists a, a ∈ associations /\ fst (fst a) = "assembly") ->
  getEndpoints bus (assemblyPathOf ops path) = (0, Some endpoints) ->
  getSubTree bus = (0, subtree) ->
  implementedAssemblies endpoints subtree <> [] ->
  exists res',
    handleAssemblyGet ops bus chassisId res = Some res' /\
    messages res' = messages res /\
    jsonValue res' !! "Assemblies"
      = Some
          (JArray
             (imap (fun i a => namedItem ops chassisId i a)
                (implementedAssemblies endpoints subtree))) /\
    jsonValue res' !! "Assemblies@odata.count"
      = Some
          (JUnsigned
             (N.of_nat (length (implementedAssemblies endpoints subtree)))) /\
    jsonValue res' !! "@odata.type"
      = Some (JString "#Assembly.v1_3_0.Assembly") /\
    jsonValue res' !! "@odata.id"
      = Some
          (JString ("/redfish/v1/Chassis/" ++ chassisId ++ "/Assembly")%string)
    /\
    jsonValue res' !! "Name" = Some (JString "Assembly Collection") /\
    jsonValue res' !! "Id" = Some (JString "Assembly").
Proof.
  intros Hpaths Hno Hyes Hid Hobject Hservice Hassoc Hassembly Hendpoints
    Hsubtree Hsome.
  unfold handleAssemblyGet, getChassis. rewrite Hpaths.
  cbn [failed Z.eqb negb].
  rewrite (getChassisLoop_match _ _ _ _ _ _ _ _ Hno Hyes).
  unfold checkAssociation. rewrite Hyes.
  destruct chassisId as [|c cs]; [contradiction|]. cbn [isEmpty].
  rewrite Hobject. cbn [failed Z.eqb negb]. rewrite Hservice.
  unfold checkForAssemblyAssociations. rewrite Hassoc.
  cbn [failed Z.eqb negb].
  assert (existsb (fun a => String.eqb (fst (fst a)) "assembly") associations
          = true) as ->.
  { apply existsb_exists. destruct Hassembly as (a & Ha & Hname).
    exists a. split; [apply list_elem_of_In; exact Ha|].
    rewrite Hname. reflexivity. }
  unfold getAssemblyEndpoints. rewrite Hendpoints. cbn [failed Z.eqb negb].
  unfold checkAssemblyInterface. rewrite Hsubtree. cbn [failed Z.eqb negb].
  unfold implementedAssemblies in Hsome |- *.
  destruct subtree as [|entry subtree'].
  { exfalso. apply Hsome. reflexivity. }
  set (subtree := entry :: subtree') in *.
  destruct (List.filter (contains (sortStrings endpoints)) (subtree.*1))
    as [|a0 rest] eqn:Hfilter.
  { exfalso. apply Hsome. reflexivity. }
  unfold getAssemblyProperties. rewrite Hyes.
  set (res1 :=
         setMember "Assemblies@odata.count" (JInt 0)
           (setMember "Assemblies" (JArray []) _)).
  destruct (getAssemblyPropertiesLoop_append ops (String c cs)
              (sortStrings (a0 :: rest)) 0 res1 [])
    as (res' & Hloop & Hmsg & Harr & Hcount & Hother).
  { unfold res1. cbn. rewrite lookup_insert_ne by discriminate.
    apply lookup_insert_eq. }
  { reflexivity. }
  exists res'. split; [exact Hloop|]. split; [rewrite Hmsg; reflexivity|].
  split; [exact Harr|].
  split; [apply Hcount; exact Hsome|].
  rewrite !Hother by discriminate. unfold res1.
  cbn [jsonValue setMember messages].
  do 3 (split;
        [repeat (rewrite lookup_insert_ne by discriminate);
         rewrite lookup_insert_eq; reflexivity|]).
  repeat (rewrite lookup_insert_ne by discriminate).
  rewrite lookup_insert_eq. reflexivity.
Qed.


(** X14: a GET for a chassis whose services all answer, that has an
    association named assembly and at least one endpoint of it in the
    subtree of the mapper, reports no message and lists in Assemblies
    one element for each object path of the subtree that is among the
    endpoints, in ascending order of the paths: the element at position
    i has the MemberId i in decimal, the URI of the item, its type, and
    as Name the last component of the path; the count is the length of
    the list, and the members of the collection are set. *)
Theorem handleAssemblyGet_lists
    ops bus chassisId res pre path post object service associations
    endpoints subtree :
  getSubTreePaths bus = (0, pre ++ path :: post) ->
  (forall p, p ∈ pre -> filename ops p <> chassisId) ->
  filename ops path = chassisId ->
  chassisId <> "" ->
  getObject bus path = (0, object) ->
  firstAssociationService object = Some service ->
  getAssociations bus service path = (0, Some associations) ->
  (exists a, a ∈ associations /\ fst (fst a) = "assembly") ->
  getEndpoints bus (assemblyPathOf ops path) = (0, Some endpoints) ->
  getSubTree bus = (0, subtree) ->
  implementedAssemblies endpoints subtree <> [] ->
  exists res',
    handleAssemblyGet ops bus chassisId res = Some res' /\
    messages res' = messages res /\
    jsonValue res' !! "Assemblies"
      = Some
          (JArray
             (imap (fun i a => namedItem ops chassisId i a)
                (implementedAssemblies endpoints subtree))) /\
    jsonValue res' !! "Assemblies@odata.count"
      = Some
          (JUnsigned
             (N.of_nat (length (implementedAssemblies endpoints subtree)))) /\
    jsonValue res' !! "@odata.type"
      = Some (JString "#Assembly.v1_3_0.Assembly") /\
    jsonValue res' !! "@odata.id"
      = Some
          (JString ("/redfish/v1/Chassis/" ++ chassisId ++ "/Assembly")%string)
    /\
    jsonValue res' !! "Name" = Some (JString "Assembly Collection") /\
    jsonValue res' !! "Id" = Some (JString "Assembly") /\
    Sorted stringLe (implementedAssemblies endpoints subtree) /\
    (forall a,
        a ∈ implementedAssemblies endpoints subtree <->
        a ∈ endpoints /\ a ∈ subtree.*1).
Proof.
  intros Hpaths Hno Hyes Hid Hobject Hservice Hassoc Hassembly Hendpoints
    Hsubtree Hsome.
  destruct
    (handleAssemblyGet_response ops bus chassisId res pre path post object
       service associations endpoints subtree Hpaths Hno Hyes Hid Hobject
       Hservice Hassoc Hassembly Hendpoints Hsubtree Hsome)
    as (res' & Hget & Hmsg & Harr & Hcount & Htype & Hodata & Hname & Hident).
  exists res'. repeat (split; [assumption|]).
  split; [apply sortStrings_sorted|].
  intros a. apply implementedAssemblies_elem.
Qed.

(** The example chassis lists its panel and its battery, in this order;
    the fan, which the mapper does not know, is left out. *)
Lemma handleAssemblyGet_lists_witness :
  exists res',
    handleAssemblyGet examplePathOps exampleBus "chassis" emptyResponse
      = Some res' /\
    messages res' = [] /\
    jsonValue res' !! "Assemblies"
      = Some
          (JArray
             [namedItem examplePathOps "chassis" 0
                "/xyz/openbmc_project/inventory/system/chassis/panel";
              namedItem examplePathOps "chassis" 1
                "/xyz/openbmc_project/inventory/system/chassis/tod_battery"])
    /\
    jsonValue res' !! "Assemblies@odata.count" = Some (JUnsigned 2).
Proof.
  destruct
    (handleAssemblyGet_lists examplePathOps exampleBus "chassis"
       emptyResponse
       ["/xyz/openbmc_project/inventory/system/board"]
       "/xyz/openbmc_project/inventory/system/chassis" []
       [("xyz.openbmc_project.Inventory.Manager",
         ["xyz.openbmc_project.Inventory.Item.Chassis";
          "xyz.openbmc_project.Association.Definitions"])]
       "xyz.openbmc_project.Inventory.Manager"
       [("assembly", "chassis",
         "/xyz/openbmc_project/inventory/system/chassis/panel")]
       ["/xyz/openbmc_project/inventory/system/chassis/tod_battery";
        "/xyz/openbmc_project/inventory/system/chassis/fan0";
        "/xyz/openbmc_project/inventory/system/chassis/panel"]
       (snd (getSubTree exampleBus)))
    as (res' & Hget & Hmsg & Harr & Hcount & _).
  - reflexivity.
  - intros p Hp. apply list_elem_of_singleton in Hp as ->.
    vm_compute. discriminate.
  - vm_compute. reflexivity.
  - discriminate.
  - reflexivity.
  - vm_compute. reflexivity.
  - reflexivity.
  - eexists. split; [left|reflexivity].
  - reflexivity.
  - reflexivity.
  - vm_compute. discriminate.
  - exists res'. split; [exact Hget|]. split; [exact Hmsg|].
    split; [exact Harr|]. exact Hcount.
Defined.

(** ** The id of an assembled object *)

Lemma append_cons c s t :
  (String c s ++ t)%string = String c (s ++ t)%string.
Proof. reflexivity. Qed.

Lemma prefix_split needle hay :
  String.prefix needle hay = true ->
  hay = (needle ++ dropChars (String.length needle) hay)%string.
Proof.
  revert hay. induction needle as [|c needle IH]; intros hay.
  - intros _. reflexivity.
  - destruct hay as [|c' hay]; cbn [String.prefix]; [discriminate|].
    destruct (ascii_dec c c') as [->|_]; [|discriminate].
    intros H. cbn [String.length dropChars]. rewrite append_cons.
    f_equal. apply IH. exact H.
Qed.

(** A position [rfind] returns is one where the needle occurs, and
    [replace] there, over the length of the needle, puts the new string
    in its place and keeps what is before and after. *)
Lemma rfind_replace needle new hay : forall pos,
  rfind needle hay = Some pos ->
  exists a b,
    hay = (a ++ needle ++ b)%string /\
    String.length a = pos /\
    replace pos (String.length needle) new hay
      = Some (a ++ new ++ b)%string.
Proof.
  induction hay as [|c hay IH]; intros pos; cbn [rfind].
  - destruct (String.prefix needle "") eqn:Hp; [|discriminate].
    intros [= <-]. exists EmptyString, (dropChars (String.length needle) "").
    split; [exact (prefix_split _ _ Hp)|]. split; reflexivity.
  - destruct (rfind needle hay) as [p|] eqn:Hr.
    + intros [= <-]. destruct (IH p eq_refl) as (a & b & Hhay & Hlen & Hrep).
      exists (String c a), b. rewrite !append_cons.
      split; [f_equal; exact Hhay|]. split; [cbn; f_equal; exact Hlen|].
      cbn [replace]. rewrite Hrep. reflexivity.
    + destruct (String.prefix needle (String c hay)) eqn:Hp; [|discriminate].
      intros [= <-].
      exists EmptyString, (dropChars (String.length needle) (String c hay)).
      split; [exact (prefix_split _ _ Hp)|]. split; reflexivity.
Qed.

Lemma filter_contains_ext (A B l : list string) :
  (forall a, a ∈ A <-> a ∈ B) ->
  List.filter (contains A) l = List.filter (contains B) l.
Proof.
  intros Hsame. apply filter_ext. intros a. unfold contains.
  apply bool_decide_ext. apply Hsame.
Qed.

Lemma indexOf_lookup x v i :
  indexOf x v = Some i ->
  v !! i = Some x /\ forall j, (j < i)%nat -> v !! j <> Some x.
Proof.
  revert i. induction v as [|y rest IH]; intros i; cbn [indexOf].
  - discriminate.
  - destruct (String.eqb_spec y x) as [->|Hne].
    + intros [= <-]. split; [reflexivity|]. intros j Hj. lia.
    + destruct (indexOf x rest) as [i0|]; [|discriminate].
      intros [= <-]. destruct (IH i0 eq_refl) as [Hi0 Hfirst].
      split; [exact Hi0|]. intros [|j] Hj; cbn.
      * congruence.
      * apply Hfirst. lia.
Qed.

Lemma indexOf_None x v : indexOf x v = None <-> x ∉ v.
Proof.
  induction v as [|y rest IH]; cbn [indexOf].
  - split; [intros _ H; inversion H|reflexivity].
  - destruct (String.eqb_spec y x) as [->|Hne].
    + split; [discriminate|]. intros H. exfalso. apply H. left.
    + destruct (indexOf x rest) as [i0|].
      * split; [discriminate|]. intros H. exfalso.
        apply not_elem_of_cons in H as [_ H]. apply IH in H. discriminate H.
      * split; [|reflexivity]. intros _. apply not_elem_of_cons.
        split; [congruence|]. apply IH. reflexivity.
Qed.

Lemma indexOf_NoDup x v i :
  NoDup v -> v !! i = Some x -> indexOf x v = Some i.
Proof.
  intros Hnd Hi. destruct (indexOf x v) as [j|] eqn:Hj.
  - apply indexOf_lookup in Hj as [Hj _]. f_equal.
    exact (NoDup_lookup _ _ _ _ Hnd Hj Hi).
  - apply indexOf_None in Hj. exfalso. apply Hj.
    apply list_elem_of_lookup. eauto.
Qed.

Lemma implementedAssemblies_NoDup endpoints subtree :
  NoDup (subtree.*1) -> NoDup (implementedAssemblies endpoints subtree).
Proof.
  intros Hnd. unfold implementedAssemblies, sortStrings.
  rewrite merge_sort_Permutation. apply NoDup_ListNoDup.
  apply List.NoDup_filter. apply NoDup_ListNoDup. exact Hnd.
Qed.

(** X15: fillWithAssemblyId never throws and has one of two outcomes.
    Either it reports one internal error and writes nothing, or, with the
    interface of a chassis and both replies in hand, it writes a single
    member of the response, under the property path taken as the key:
    the URI it was given with one occurrence of the last component of
    the object path replaced by a decimal number, which is the first
    position of the object path among the sorted paths of the subtree
    that are targets of an association named assembly. *)
Theorem fillWithAssemblyId_outcome
    ops bus res serv parent iface prop obj uri :
  exists res',
    fillWithAssemblyId ops bus res serv parent iface prop obj uri = Some res'
    /\
    (res' = report InternalError res \/
     exists ec value ec1 objects i a b,
       iface = "xyz.openbmc_project.Inventory.Item.Chassis" /\
       getAssociations bus serv parent = (ec, Some value) /\
       failed ec = false /\
       getSubTree bus = (ec1, objects) /\ failed ec1 = false /\
       sortStrings
         (List.filter (contains (assemblyTargets value)) (objects.*1)) !! i
         = Some obj /\
       (forall j, (j < i)%nat ->
          sortStrings
            (List.filter (contains (assemblyTargets value)) (objects.*1)) !! j
          <> Some obj) /\
       uri = (a ++ filename ops obj ++ b)%string /\
       res' = setMember prop (JString (a ++ pretty i ++ b)%string) res).
Proof.
  unfold fillWithAssemblyId.
  destruct (String.eqb_spec iface "xyz.openbmc_project.Inventory.Item.Chassis")
    as [Hiface|_]; cbn [negb]; [|eauto].
  destruct (getAssociations bus serv parent) as [ec [value|]] eqn:Hassoc;
    destruct (failed ec) eqn:Hec; eauto.
  destruct (assemblyTargets value) as [|t0 targets] eqn:Htargets; [eauto|].
  destruct (getSubTree bus) as [ec1 objects] eqn:Hsub.
  destruct (failed ec1) eqn:Hec1; [eauto|].
  destruct objects as [|o0 objects']; [eauto|].
  set (objects := o0 :: objects') in *.
  destruct (List.filter (contains (t0 :: targets)) (objects.*1))
    as [|i0 impl] eqn:Himpl; [eauto|].
  destruct (indexOf obj (sortStrings (i0 :: impl))) as [i|] eqn:Hidx;
    [|eauto].
  destruct (rfind (filename ops obj) uri) as [pos|] eqn:Hpos; [|eauto].
  destruct (rfind_replace _ (pretty i) _ _ Hpos) as (a & b & Huri & _ & Hrep).
  rewrite Hrep. eexists. split; [reflexivity|]. right.
  apply indexOf_lookup in Hidx as [Hi Hfirst].
  exists ec, value, ec1, objects, i, a, b. rewrite Htargets, Himpl.
  repeat (split; [first [assumption | reflexivity]|]). reflexivity.
Qed.

Lemma assemblyTargets_elem value t :
  t ∈ assemblyTargets value ->
  exists a, a ∈ value /\ fst (fst a) = "assembly".
Proof.
  unfold assemblyTargets. intros Ht.
  apply list_elem_of_fmap in Ht as (a & _ & Ha).
  apply list_elem_of_In, filter_In in Ha as [Ha Hname].
  exists a. split; [apply list_elem_of_In; exact Ha|].
  apply String.eqb_eq. exact Hname.
Qed.

(** X16: the number fillWithAssemblyId writes is the MemberId under
    which a GET of the chassis lists the object.  When the services
    answer, the targets of the associations named assembly of the chassis
    are the endpoints the mapper gives for it, the subtree holds each
    path once, the object path is at position i of the implemented
    assemblies and its name occurs in the URI, then the URI is written
    with the name replaced by i, and the element at position i of the
    Assemblies of the GET carries i as MemberId and the name of the
    object. *)
Theorem fillWithAssemblyId_matches_get
    ops bus chassisId res res0 pre path post object service associations
    endpoints subtree prop obj uri i :
  getSubTreePaths bus = (0, pre ++ path :: post) ->
  (forall p, p ∈ pre -> filename ops p <> chassisId) ->
  filename ops path = chassisId ->
  chassisId <> "" ->
  getObject bus path = (0, object) ->
  firstAssociationService object = Some service ->
  getAssociations bus service path = (0, Some associations) ->
  getEndpoints bus (assemblyPathOf ops path) = (0, Some endpoints) ->
  getSubTree bus = (0, subtree) ->
  (forall a, a ∈ assemblyTargets associations <-> a ∈ endpoints) ->
  NoDup (subtree.*1) ->
  implementedAssemblies endpoints subtree !! i = Some obj ->
  is_Some (rfind (filename ops obj) uri) ->
  exists a b res' items,
    uri = (a ++ filename ops obj ++ b)%string /\
    fillWithAssemblyId ops bus res service path
      "xyz.openbmc_project.Inventory.Item.Chassis" prop obj uri
      = Some (setMember prop (JString (a ++ pretty i ++ b)%string) res) /\
    handleAssemblyGet ops bus chassisId res0 = Some res' /\
    jsonValue res' !! "Assemblies" = Some (JArray items) /\
    items !! i
      = Some
          (JObject
             (<["Name" := JString (filename ops obj)]>
                (<["MemberId" := JString (pretty i)]>
                   (<["@odata.id" :=
                        JString (assemblyItemUri ops chassisId (pretty i))]>
                      (<["@odata.type" :=
                           JString "#Assembly.v1_3_0.AssemblyData"]> ∅))))).
Proof.
  intros Hpaths Hno Hyes Hid Hobject Hservice Hassoc Hendpoints Hsub Hsame
    Hnd Hi [pos Hpos].
  destruct (rfind_replace _ (pretty i) _ _ Hpos) as (a & b & Huri & _ & Hrep).
  assert (obj ∈ assemblyTargets associations) as Htarget.
  { apply Hsame. apply list_elem_of_lookup_2 in Hi.
    apply implementedAssemblies_elem in Hi as [Hi _]. exact Hi. }
  assert (implementedAssemblies endpoints subtree <> []) as Hsome.
  { intros Hnil. rewrite Hnil in Hi. discriminate Hi. }
  destruct
    (handleAssemblyGet_response ops bus chassisId res0 pre path post object
       service associations endpoints subtree Hpaths Hno Hyes Hid Hobject
       Hservice Hassoc (assemblyTargets_elem _ _ Htarget) Hendpoints Hsub
       Hsome)
    as (res' & Hget & _ & Harr & _).
  exists a, b, res'. eexists.
  split; [exact Huri|]. split; [|split; [exact Hget|split; [exact Harr|]]].
  - unfold fillWithAssemblyId. cbn [String.eqb Ascii.eqb Bool.eqb negb].
    rewrite Hassoc. cbn [failed Z.eqb negb].
    assert (List.filter (contains (assemblyTargets associations)) (subtree.*1)
            = List.filter (contains (sortStrings endpoints)) (subtree.*1))
      as Hfilter.
    { apply filter_contains_ext. intros x. rewrite Hsame, sortStrings_elem.
      reflexivity. }
    destruct (assemblyTargets associations) as [|t0 targets] eqn:Htargets;
      [inversion Htarget|].
    rewrite Hsub. cbn [failed Z.eqb negb].
    destruct subtree as [|o0 subtree'].
    { unfold implementedAssemblies in Hi. cbn in Hi. discriminate Hi. }
    set (subtree := o0 :: subtree') in *.
    rewrite Hfilter. unfold implementedAssemblies in Hi.
    pose proof (implementedAssemblies_NoDup endpoints subtree Hnd) as Hnd'.
    unfold implementedAssemblies in Hnd'.
    destruct (List.filter (contains (sortStrings endpoints)) (subtree.*1))
      as [|i0 impl] eqn:Himpl.
    { cbn in Hi. discriminate Hi. }
    rewrite (indexOf_NoDup _ _ _ Hnd' Hi). rewrite Hpos, Hrep. reflexivity.
  - rewrite list_lookup_imap, Hi. reflexivity.
Qed.

(** The panel of the example chassis is the first assembly of the list, and
    its link is written with the id 0. *)
Lemma fillWithAssemblyId_matches_get_witness :
  exists a b res' items,
    "/redfish/v1/Chassis/chassis/Assembly#/Assemblies/panel"
      = (a ++ "panel" ++ b)%string /\
    fillWithAssemblyId examplePathOps consistentBus emptyResponse
      "xyz.openbmc_project.Inventory.Manager"
      "/xyz/openbmc_project/inventory/system/chassis"
      "xyz.openbmc_project.Inventory.Item.Chassis" "/Links/Panel/@odata.id"
      "/xyz/openbmc_project/inventory/system/chassis/panel"
      "/redfish/v1/Chassis/chassis/Assembly#/Assemblies/panel"
    = Some
        (setMember "/Links/Panel/@odata.id"
           (JString (a ++ "0" ++ b)%string) emptyResponse) /\
    handleAssemblyGet examplePathOps consistentBus "chassis" emptyResponse
      = Some res' /\
    jsonValue res' !! "Assemblies" = Some (JArray items) /\
    items !! 0%nat
      = Some
          (namedItem examplePathOps "chassis" 0
             "/xyz/openbmc_project/inventory/system/chassis/panel").
Proof.
  destruct
    (fillWithAssemblyId_matches_get examplePathOps consistentBus "chassis"
       emptyResponse emptyResponse
       ["/xyz/openbmc_project/inventory/system/board"]
       "/xyz/openbmc_project/inventory/system/chassis" []
       [("xyz.openbmc_project.Inventory.Manager",
         ["xyz.openbmc_project.Inventory.Item.Chassis";
          "xyz.openbmc_project.Association.Definitions"])]
       "xyz.openbmc_project.Inventory.Manager"
       (default [] (snd (getAssociations consistentBus "" "")))
       ["/xyz/openbmc_project/inventory/system/chassis/tod_battery";
        "/xyz/openbmc_project/inventory/system/chassis/fan0";
        "/xyz/openbmc_project/inventory/system/chassis/panel"]
       (snd (getSubTree consistentBus))
       "/Links/Panel/@odata.id"
       "/xyz/openbmc_project/inventory/system/chassis/panel"
       "/redfish/v1/Chassis/chassis/Assembly#/Assemblies/panel" 0%nat)
    as (a & b & res' & items & Huri & Hfill & Hget & Harr & Hitem).
  - reflexivity.
  - intros p Hp. apply list_elem_of_singleton in Hp as ->.
    vm_compute. discriminate.
  - vm_compute. reflexivity.
  - discriminate.
  - reflexivity.
  - vm_compute. reflexivity.
  - reflexivity.
  - reflexivity.
  - reflexivity.
  - intros x. reflexivity.
  - apply (bool_decide_unpack _). vm_compute. exact I.
  - vm_compute. reflexivity.
  - vm_compute. eexists. reflexivity.
  - exists a, b, res', items. split; [exact Huri|]. split; [exact Hfill|].
    split; [exact Hget|]. split; [exact Harr|]. exact Hitem.
Defined.

Example fillWithAssemblyId_panel :
  fillWithAssemblyId examplePathOps exampleBus emptyResponse
    "xyz.openbmc_project.Inventory.Manager"
    "/xyz/openbmc_project/inventory/system/chassis"
    "xyz.openbmc_project.Inventory.Item.Chassis" "/Links/Panel/@odata.id"
    "/xyz/openbmc_project/inventory/system/chassis/panel"
    "/redfish/v1/Chassis/chassis/Assembly#/Assemblies/panel"
  = Some
      (setMember "/Links/Panel/@odata.id"
         (JString "/redfish/v1/Chassis/chassis/Assembly#/Assemblies/0")
         emptyResponse).
Proof. vm_compute. reflexivity. Qed.

(** ** The chassis assembly handler *)

Lemma sortStrings_nil_inv l : sortStrings l = [] -> l = [].
Proof.
  intros H. apply (f_equal length) in H. rewrite sortStrings_length in H.
  destruct l; [reflexivity|discriminate H].
Qed.

(** The response of [handleChassisAssemblyGet] when the chassis named
    [chassis] has a path and the mapper gives assemblies for it. *)
Lemma handleChassisAssemblyGet_response ops env chassisID res path paths :
  getValidChassisPath env "chassis" = Some path ->
  getAssociatedSubTreePaths env (assemblyPathOf ops path) = (0, paths) ->
  paths <> [] ->
  exists res',
    handleChassisAssemblyGet ops env chassisID res = Some res' /\
    messages res' = messages res /\
    jsonValue res' !! "Assemblies"
      = Some
          (JArray
             (imap (fun i a => namedItem ops (filename ops path) i a)
                (sortStrings paths))) /\
    jsonValue res' !! "Assemblies@odata.count"
      = Some (JUnsigned (N.of_nat (length paths))) /\
    jsonValue res' !! "@odata.id" = Some (JString (assemblyUri env chassisID))
    /\
    jsonValue res' !! "@odata.type"
      = Some (JString "#Assembly.v1_3_0.Assembly") /\
    jsonValue res' !! "Name" = Some (JString "Assembly Collection") /\
    jsonValue res' !! "Id" = Some (JString "Assembly").
Proof.
  intros Hpath Hpaths Hsome.
  unfold handleChassisAssemblyGet, getChassisAssembly.
  rewrite Hpath. unfold doGetAssociatedChassisAssembly. rewrite Hpaths.
  cbn [failed Z.eqb negb].
  destruct (sortStrings paths) as [|a0 rest] eqn:Hsorted.
  { apply sortStrings_nil_inv in Hsorted. contradiction. }
  unfold getAssemblyProperties.
  set (res1 :=
         setMember "Assemblies@odata.count" (JInt 0)
           (setMember "Assemblies" (JArray []) _)).
  destruct (getAssemblyPropertiesLoop_append ops (filename ops path)
              (a0 :: rest) 0 res1 [])
    as (res' & Hloop & Hmsg & Harr & Hcount & Hother).
  { unfold res1. cbn. rewrite lookup_insert_ne by discriminate.
    apply lookup_insert_eq. }
  { reflexivity. }
  exists res'. split; [exact Hloop|]. split; [rewrite Hmsg; reflexivity|].
  split; [exact Harr|].
  split.
  { rewrite Hcount by discriminate. rewrite <- Hsorted, sortStrings_length.
    reflexivity. }
  rewrite !Hother by discriminate. unfold res1.
  cbn [jsonValue setMember messages].
  do 3 (split;
        [repeat (rewrite lookup_insert_ne by discriminate);
         rewrite lookup_insert_eq; reflexivity|]).
  repeat (rewrite lookup_insert_ne by discriminate).
  rewrite lookup_insert_eq. reflexivity.
Qed.

(** The response when no assembly is found or the mapper fails. *)
Lemma handleChassisAssemblyGet_none ops env chassisID res :
  (getValidChassisPath env "chassis" = None \/
   exists path ec paths,
     getValidChassisPath env "chassis" = Some path /\
     getAssociatedSubTreePaths env (assemblyPathOf ops path) = (ec, paths) /\
     (ec = EBADR \/ ec = 0 /\ paths = [])) ->
  handleChassisAssemblyGet ops env chassisID res
    = Some (report (ResourceNotFound "Chassis" chassisID) res).
Proof.
  unfold handleChassisAssemblyGet, getChassisAssembly.
  intros [Hnone|(path & ec & paths & Hpath & Hpaths & Hec)].
  - rewrite Hnone. reflexivity.
  - rewrite Hpath. unfold doGetAssociatedChassisAssembly. rewrite Hpaths.
    destruct Hec as [->|[-> ->]]; reflexivity.
Qed.

Lemma handleChassisAssemblyGet_error ops env chassisID res path ec paths :
  getValidChassisPath env "chassis" = Some path ->
  getAssociatedSubTreePaths env (assemblyPathOf ops path) = (ec, paths) ->
  ec <> 0 -> ec <> EBADR ->
  handleChassisAssemblyGet ops env chassisID res
    = Some (report InternalError res).
Proof.
  intros Hpath Hpaths Hec Hbadr.
  unfold handleChassisAssemblyGet, getChassisAssembly.
  rewrite Hpath. unfold doGetAssociatedChassisAssembly. rewrite Hpaths.
  unfold failed. rewrite (proj2 (Z.eqb_neq ec 0) Hec).
  rewrite (proj2 (Z.eqb_neq ec EBADR) Hbadr). reflexivity.
Qed.

(** X18: handleChassisAssemblyGet asks for the chassis named chassis,
    whatever the chassis id of the request.  When that chassis has a path
    and the mapper gives assemblies for it, the response lists them in
    ascending order of their paths, the element at position i with the
    MemberId i, the URI of the item under the last component of the path
    of the chassis, and as Name the last component of the path of the
    assembly; the count is the number of paths; the id of the request
    shows in the @odata.id of the collection only, and no message is
    reported. *)
Theorem handleChassisAssemblyGet_lists ops env chassisID res path paths :
  getValidChassisPath env "chassis" = Some path ->
  getAssociatedSubTreePaths env (assemblyPathOf ops path) = (0, paths) ->
  paths <> [] ->
  exists res',
    handleChassisAssemblyGet ops env chassisID res = Some res' /\
    messages res' = messages res /\
    jsonValue res' !! "Assemblies"
      = Some
          (JArray
             (imap (fun i a => namedItem ops (filename ops path) i a)
                (sortStrings paths))) /\
    jsonValue res' !! "Assemblies@odata.count"
      = Some (JUnsigned (N.of_nat (length paths))) /\
    jsonValue res' !! "@odata.id" = Some (JString (assemblyUri env chassisID))
    /\
    jsonValue res' !! "@odata.type"
      = Some (JString "#Assembly.v1_3_0.Assembly") /\
    jsonValue res' !! "Name" = Some (JString "Assembly Collection") /\
    jsonValue res' !! "Id" = Some (JString "Assembly") /\
    Sorted stringLe (sortStrings paths) /\
    (forall a, a ∈ sortStrings paths <-> a ∈ paths).
Proof.
  intros Hpath Hpaths Hsome.
  destruct (handleChassisAssemblyGet_response ops env chassisID res path paths
              Hpath Hpaths Hsome)
    as (res' & Hget & Hmsg & Harr & Hcount & Hid & Htype & Hname & Hident).
  exists res'. repeat (split; [assumption|]).
  split; [apply sortStrings_sorted|]. intros a. apply sortStrings_elem.
Qed.

(** A request for another chassis gets the assemblies of the chassis
    named chassis, the panel before the battery. *)
Lemma handleChassisAssemblyGet_lists_witness :
  exists res',
    handleChassisAssemblyGet examplePathOps exampleChassisEnv "other"
      emptyResponse = Some res' /\
    messages res' = [] /\
    jsonValue res' !! "Assemblies"
      = Some
          (JArray
             [namedItem examplePathOps "chassis" 0
                "/xyz/openbmc_project/inventory/system/chassis/panel";
              namedItem examplePathOps "chassis" 1
                "/xyz/openbmc_project/inventory/system/chassis/tod_battery"])
    /\
    jsonValue res' !! "@odata.id"
      = Some (JString "/redfish/v1/Chassis/other/Assembly").
Proof.
  destruct
    (handleChassisAssemblyGet_lists examplePathOps exampleChassisEnv "other"
       emptyResponse "/xyz/openbmc_project/inventory/system/chassis"
       ["/xyz/openbmc_project/inventory/system/chassis/tod_battery";
        "/xyz/openbmc_project/inventory/system/chassis/panel"])
    as (res' & Hget & Hmsg & Harr & _ & Hid & _).
  - reflexivity.
  - reflexivity.
  - discriminate.
  - exists res'. split; [exact Hget|]. split; [exact Hmsg|].
    split; [exact Harr|exact Hid].
Defined.

(** X19: when the chassis named chassis has no path, or the mapper
    answers with an error or with no path, handleChassisAssemblyGet
    writes no member of the response and reports exactly one message: an
    internal error when the error of the mapper is another than EBADR,
    and otherwise that the chassis of the request was not found (so for
    EBADR, whatever paths come with it). *)
Theorem handleChassisAssemblyGet_not_found ops env chassisID res :
  (getValidChassisPath env "chassis" = None \/
   exists path,
     getValidChassisPath env "chassis" = Some path /\
     (fst (getAssociatedSubTreePaths env (assemblyPathOf ops path)) <> 0 \/
      snd (getAssociatedSubTreePaths env (assemblyPathOf ops path)) = [])) ->
  exists m,
    handleChassisAssemblyGet ops env chassisID res = Some (report m res) /\
    (m = ResourceNotFound "Chassis" chassisID \/ m = InternalError) /\
    (m = InternalError <->
     exists path,
       getValidChassisPath env "chassis" = Some path /\
       fst (getAssociatedSubTreePaths env (assemblyPathOf ops path)) <> 0 /\
       fst (getAssociatedSubTreePaths env (assemblyPathOf ops path))
         <> EBADR).
Proof.
  intros [Hnone|(path & Hpath & Hreply)].
  - exists (ResourceNotFound "Chassis" chassisID).
    split; [apply handleChassisAssemblyGet_none; left; exact Hnone|].
    split; [left; reflexivity|]. split; [discriminate|].
    intros (p & Hp & _). congruence.
  - destruct (getAssociatedSubTreePaths env (assemblyPathOf ops path))
      as [ec paths] eqn:Hpaths.
    cbn [fst snd] in Hreply.
    destruct (decide (ec = EBADR \/ ec = 0 /\ paths = [])) as [Hnf|Hother].
    + exists (ResourceNotFound "Chassis" chassisID).
      split.
      { apply handleChassisAssemblyGet_none. right.
        exists path, ec, paths. auto. }
      split; [left; reflexivity|]. split; [discriminate|].
      intros (p & Hp & Hne0 & Hnebadr). exfalso.
      assert (p = path) as -> by congruence.
      rewrite Hpaths in Hne0, Hnebadr. cbn in Hne0, Hnebadr.
      destruct Hnf as [->|[-> _]]; congruence.
    + assert (ec <> 0 /\ ec <> EBADR) as [Hne0 Hnebadr].
      { split.
        - destruct Hreply as [Hne| ->]; [exact Hne|].
          intros ->. apply Hother. right. split; reflexivity.
        - intros ->. apply Hother. left. reflexivity. }
      exists InternalError.
      split.
      { exact (handleChassisAssemblyGet_error _ _ _ _ _ _ _ Hpath Hpaths
                 Hne0 Hnebadr). }
      split; [right; reflexivity|]. split; [|reflexivity].
      intros _. exists path. rewrite Hpaths. auto.
Qed.

(** A chassis without the association is reported as not found. *)
Lemma handleChassisAssemblyGet_not_found_witness :
  handleChassisAssemblyGet examplePathOps bareChassisEnv "chassis"
    emptyResponse
  = Some (mkResponse ∅ [ResourceNotFound "Chassis" "chassis"]).
Proof.
  destruct
    (handleChassisAssemblyGet_not_found examplePathOps bareChassisEnv
       "chassis" emptyResponse)
    as (m & Hget & Hm & Hwhich); [|destruct Hm as [->| ->]].
  - right. exists "/xyz/openbmc_project/inventory/system/chassis".
    split; [reflexivity|]. left. discriminate.
  - exact Hget.
  - exfalso. destruct (proj1 Hwhich eq_refl) as (p & _ & _ & Hbadr).
    apply Hbadr. reflexivity.
Defined.

(** X20: what handleChassisAssemblyGet lists does not depend on the
    chassis id of the request.  For any two ids the handler returns, and
    the two responses have the same Assemblies and the same count, and
    as many messages. *)
Theorem handleChassisAssemblyGet_any_id ops env id1 id2 res :
  exists r1 r2,
    handleChassisAssemblyGet ops env id1 res = Some r1 /\
    handleChassisAssemblyGet ops env id2 res = Some r2 /\
    jsonValue r1 !! "Assemblies" = jsonValue r2 !! "Assemblies" /\
    jsonValue r1 !! "Assemblies@odata.count"
      = jsonValue r2 !! "Assemblies@odata.count" /\
    length (messages r1) = length (messages r2).
Proof.
  destruct (getValidChassisPath env "chassis") as [path|] eqn:Hpath.
  - destruct (getAssociatedSubTreePaths env (assemblyPathOf ops path))
      as [ec paths] eqn:Hpaths.
    destruct (decide (ec = EBADR \/ ec = 0 /\ paths = [])) as [Hnf|Hother].
    + rewrite !handleChassisAssemblyGet_none
        by (right; exists path, ec, paths; auto).
      eexists _, _. repeat (split; [reflexivity|]).
      cbn. rewrite !length_app. reflexivity.
    + destruct (decide (ec = 0)) as [->|Hne0].
      * assert (paths <> []) as Hsome.
        { intros ->. apply Hother. right. split; reflexivity. }
        destruct (handleChassisAssemblyGet_response ops env id1 res path
                    paths Hpath Hpaths Hsome)
          as (r1 & Hget1 & Hmsg1 & Harr1 & Hcount1 & _).
        destruct (handleChassisAssemblyGet_response ops env id2 res path
                    paths Hpath Hpaths Hsome)
          as (r2 & Hget2 & Hmsg2 & Harr2 & Hcount2 & _).
        exists r1, r2. split; [exact Hget1|]. split; [exact Hget2|].
        rewrite Harr1, Harr2, Hcount1, Hcount2, Hmsg1, Hmsg2. auto.
      * assert (ec <> EBADR) as Hnebadr.
        { intros ->. apply Hother. left. reflexivity. }
        rewrite !(handleChassisAssemblyGet_error _ _ _ _ _ _ _ Hpath Hpaths
                    Hne0 Hnebadr).
        eexists _, _. repeat (split; [reflexivity|]). reflexivity.
  - rewrite !handleChassisAssemblyGet_none by (left; exact Hpath).
    eexists _, _. repeat (split; [reflexivity|]).
    cbn. rewrite !length_app. reflexivity.
Qed.

(** ** The battery of the time of day *)

Lemma setFunctionalAtFirst_none bb st assembly object :
  (forall e, e ∈ object ->
     "xyz.openbmc_project.State.Decorator.OperationalStatus" ∉ snd e) ->
  setFunctionalAtFirst bb st assembly object
    = (report InternalError (fst st), snd st).
Proof.
  induction object as [|[serviceName interfaceList] rest IH]; intros Hno;
    cbn [setFunctionalAtFirst]; [reflexivity|].
  unfold contains. rewrite bool_decide_eq_false_2.
  - cbn [negb]. apply IH. intros e He. apply Hno. right. exact He.
  - apply (Hno (serviceName, interfaceList)). left.
Qed.

Lemma setFunctionalAtFirst_first bb st assembly pre serviceName interfaceList
    post :
  (forall e, e ∈ pre ->
     "xyz.openbmc_project.State.Decorator.OperationalStatus" ∉ snd e) ->
  "xyz.openbmc_project.State.Decorator.OperationalStatus" ∈ interfaceList ->
  setFunctionalAtFirst bb st assembly
    (pre ++ (serviceName, interfaceList) :: post)
  = if failed (setFunctionalReply bb serviceName assembly)
    then (report InternalError (fst st),
          (snd st ++ [SetFunctional serviceName assembly true])%list)
    else startOrStopADCSensor bb true
           (fst st, (snd st ++ [SetFunctional serviceName assembly true])%list).
Proof.
  intros Hno Hyes. induction pre as [|[s0 l0] pre IH];
    cbn [app setFunctionalAtFirst].
  - unfold contains. rewrite bool_decide_eq_true_2 by exact Hyes.
    reflexivity.
  - unfold contains at 1. rewrite bool_decide_eq_false_2.
    + cbn [negb]. apply IH. intros e He. apply Hno. right. exact He.
    + apply (Hno (s0, l0)). left.
Qed.

Lemma object_split (object : list (string * list string)) :
  (forall e, e ∈ object ->
     "xyz.openbmc_project.State.Decorator.OperationalStatus" ∉ snd e) \/
  exists pre serviceName interfaceList post,
    object = (pre ++ (serviceName, interfaceList) :: post)%list /\
    (forall e, e ∈ pre ->
       "xyz.openbmc_project.State.Decorator.OperationalStatus" ∉ snd e) /\
    "xyz.openbmc_project.State.Decorator.OperationalStatus" ∈ interfaceList.
Proof.
  induction object as [|[s0 l0] rest IH].
  - left. intros e He. inversion He.
  - destruct
      (decide
         ("xyz.openbmc_project.State.Decorator.OperationalStatus" ∈ l0))
      as [Hin|Hout].
    + right. exists [], s0, l0, rest. split; [reflexivity|].
      split; [intros e He; inversion He|exact Hin].
    + destruct IH as [Hno|(pre & s & l & post & -> & Hno & Hyes)].
      * left. intros e He. apply elem_of_cons in He as [->|He];
          [exact Hout|apply Hno; exact He].
      * right. exists ((s0, l0) :: pre), s, l, post.
        split; [reflexivity|]. split; [|exact Hyes].
        intros e He. apply elem_of_cons in He as [->|He];
          [exact Hout|apply Hno; exact He].
Qed.

(** X21: doBatteryCM writes no member of the response and reports
    exactly one message, a success or an internal error, and it makes
    its calls in one of four ways.  Ready to remove: it stops the sensor
    and does nothing else.  Otherwise it either makes no call and reports
    an internal error; or it sets Functional to true, once, on the
    assembly at a service of the reply of the mapper that has the status,
    and stops there with an internal error when that fails; only when
    that succeeded does it go on to start the sensor.  The message is a
    success exactly when the last call, to systemd, succeeded.  It never
    sets Functional to false and never stops and starts the sensor in
    one run. *)
Theorem doBatteryCM_outcome bb res assembly readyToRemove :
  exists res' acts,
    doBatteryCM bb (res, []) assembly readyToRemove = (res', acts) /\
    jsonValue res' = jsonValue res /\
    ((readyToRemove = true /\
      acts = [UnitCall "StopUnit"] /\
      messages res'
        = (messages res ++
             [if failed (unitReply bb "StopUnit") then InternalError
              else Success])%list) \/
     (readyToRemove = false /\
      acts = [] /\
      messages res' = (messages res ++ [InternalError])%list) \/
     (readyToRemove = false /\
      exists serviceName interfaceList,
        (serviceName, interfaceList) ∈ snd (getDbusObject bb assembly) /\
        "xyz.openbmc_project.State.Decorator.OperationalStatus"
          ∈ interfaceList /\
        ((failed (setFunctionalReply bb serviceName assembly) = true /\
          acts = [SetFunctional serviceName assembly true] /\
          messages res' = (messages res ++ [InternalError])%list) \/
         (failed (setFunctionalReply bb serviceName assembly) = false /\
          acts = [SetFunctional serviceName assembly true;
                  UnitCall "StartUnit"] /\
          messages res'
            = (messages res ++
                 [if failed (unitReply bb "StartUnit") then InternalError
                  else Success])%list)))).
Proof.
  unfold doBatteryCM. destruct readyToRemove.
  - unfold startOrStopADCSensor. cbn [negb fst snd app].
    destruct (failed (unitReply bb "StopUnit"));
      (eexists; eexists; split; [reflexivity|]; split; [reflexivity|];
       left; auto).
  - destruct (getDbusObject bb assembly) as [ec object] eqn:Hobject.
    unfold afterGetDbusObjectDoBatteryCM. cbn [fst snd].
    destruct (failed ec).
    { eexists; eexists; split; [reflexivity|]; split; [reflexivity|].
      right. left. auto. }
    destruct (object_split object)
      as [Hno|(pre & s & l & post & -> & Hno & Hyes)].
    + rewrite (setFunctionalAtFirst_none _ _ _ _ Hno).
      eexists; eexists; split; [reflexivity|]; split; [reflexivity|].
      right. left. auto.
    + rewrite (setFunctionalAtFirst_first _ _ _ _ _ _ _ Hno Hyes).
      cbn [fst snd app].
      assert ((s, l) ∈ (pre ++ (s, l) :: post)%list) as Hin.
      { apply elem_of_app. right. left. }
      destruct (failed (setFunctionalReply bb s assembly)) eqn:Hset.
      * eexists; eexists; split; [reflexivity|]; split; [reflexivity|].
        right. right. split; [reflexivity|]. exists s, l.
        split; [exact Hin|]. split; [exact Hyes|]. left. auto.
      * unfold startOrStopADCSensor. cbn [negb fst snd app].
        destruct (failed (unitReply bb "StartUnit")) eqn:Hunit;
          (eexists; eexists; split; [reflexivity|]; split; [reflexivity|];
           right; right; split; [reflexivity|]; exists s, l;
           split; [exact Hin|]; split; [exact Hyes|]; right;
           rewrite ?Hunit; auto).
Qed.

(** X22: when the battery is put back and every call succeeds,
    doBatteryCM sets Functional to true at the first service of the
    reply of the mapper that has the status, and at no other, then
    starts the sensor, and reports the success. *)
Theorem doBatteryCM_restores bb res assembly pre serviceName interfaceList
    post :
  getDbusObject bb assembly
    = (0, (pre ++ (serviceName, interfaceList) :: post)%list) ->
  (forall e, e ∈ pre ->
     "xyz.openbmc_project.State.Decorator.OperationalStatus" ∉ snd e) ->
  "xyz.openbmc_project.State.Decorator.OperationalStatus" ∈ interfaceList ->
  setFunctionalReply bb serviceName assembly = 0 ->
  unitReply bb "StartUnit" = 0 ->
  doBatteryCM bb (res, []) assembly false
    = (report Success res,
       [SetFunctional serviceName assembly true; UnitCall "StartUnit"]).
Proof.
  intros Hobject Hno Hyes Hset Hunit. unfold doBatteryCM.
  rewrite Hobject. unfold afterGetDbusObjectDoBatteryCM.
  cbn [failed Z.eqb negb].
  rewrite (setFunctionalAtFirst_first _ _ _ _ _ _ _ Hno Hyes).
  rewrite Hset. cbn [failed Z.eqb negb fst snd app].
  unfold startOrStopADCSensor. cbn [negb fst snd app]. rewrite Hunit.
  reflexivity.
Qed.

(** The battery is put back: the inventory manager is asked, the spare
    service is not. *)
Lemma doBatteryCM_restores_witness :
  doBatteryCM exampleBatteryBus (emptyResponse, [])
    "/xyz/openbmc_project/inventory/system/chassis/tod_battery" false
  = (mkResponse ∅ [Success],
     [SetFunctional "xyz.openbmc_project.Inventory.Manager"
        "/xyz/openbmc_project/inventory/system/chassis/tod_battery" true;
      UnitCall "StartUnit"]).
Proof.
  apply
    (doBatteryCM_restores exampleBatteryBus emptyResponse
       "/xyz/openbmc_project/inventory/system/chassis/tod_battery"
       [("xyz.openbmc_project.ObjectMapper",
         ["org.freedesktop.DBus.Properties"])]
       "xyz.openbmc_project.Inventory.Manager"
       ["xyz.openbmc_project.Inventory.Item.Battery";
        "xyz.openbmc_project.State.Decorator.OperationalStatus"]
       [("xyz.openbmc_project.Spare",
         ["xyz.openbmc_project.State.Decorator.OperationalStatus"])]).
  - reflexivity.
  - intros e He. apply list_elem_of_singleton in He as ->. cbn.
    intros Hin. apply list_elem_of_singleton in Hin. discriminate Hin.
  - right. left.
  - reflexivity.
  - reflexivity.
Defined.

(** ** The properties of an assembly *)

Ltac fill_simpl :=
  repeat
    first
      [ rewrite lookup_insert_eq
      | rewrite lookup_insert_ne by discriminate
      | progress
          cbn [default from_option id nestedOrNull objectOrNull andb
               fillable] ].

Lemma updatePath_step key rest f j :
  objectOrNull j = true ->
  updatePath (key :: rest) f j
  = match updatePath rest f (default JNull (membersOf j !! key)) with
    | Some v => Some (JObject (<[key := v]> (membersOf j)))
    | None => None
    end.
Proof.
  destruct j; try discriminate; intros _; cbn [updatePath membersOf].
  - rewrite lookup_empty. cbn [default].
    destruct (updatePath rest f JNull); reflexivity.
  - reflexivity.
Qed.

Lemma setPath_member key value members :
  setPath [key] value (JObject members)
  = Some (JObject (<[key := value]> members)).
Proof. reflexivity. Qed.

Lemma setStatus_spec key value members :
  objectOrNull (default JNull (members !! "Status")) = true ->
  setPath ["Status"; key] value (JObject members)
  = Some
      (JObject
         (<["Status" := JObject (<[key := value]> (statusOf members))]>
            members)).
Proof.
  intros Hstatus. unfold setPath.
  rewrite updatePath_step by reflexivity. cbn [membersOf].
  rewrite updatePath_step by exact Hstatus. reflexivity.
Qed.

Lemma fillable_inv d :
  fillable d = true ->
  exists members,
    d = JObject members /\
    objectOrNull (default JNull (members !! "Status")) = true /\
    nestedOrNull "OpenBMC" (default JNull (members !! "Oem")) = true /\
    nestedOrNull "PartLocation" (default JNull (members !! "Location"))
      = true.
Proof.
  destruct d as [|members| | | | | | | |]; try discriminate.
  cbn [fillable]. rewrite !andb_true_iff. intros [[H1 H2] H3].
  exists members. auto.
Qed.

Lemma fillable_insert_other key value members :
  key <> "Status" -> key <> "Oem" -> key <> "Location" ->
  fillable (JObject members) = true ->
  fillable (JObject (<[key := value]> members)) = true.
Proof.
  intros H1 H2 H3. cbn [fillable].
  rewrite !lookup_insert_ne by congruence. auto.
Qed.

Lemma nestedOrNull_objectOrNull key j :
  nestedOrNull key j = true -> objectOrNull j = true.
Proof. destruct j; try discriminate; reflexivity. Qed.

Lemma nestedOrNull_member key j :
  nestedOrNull key j = true ->
  objectOrNull (default JNull (membersOf j !! key)) = true.
Proof.
  destruct j; try discriminate; cbn [nestedOrNull membersOf]; auto.
Qed.

(** Each of the functions a callback applies to an element returns on a
    fillable element and leaves it fillable. *)
Lemma setStatus_fillable key value d :
  fillable d = true ->
  exists d', setPath ["Status"; key] value d = Some d' /\ fillable d' = true.
Proof.
  intros Hd. destruct (fillable_inv d Hd) as (m & -> & Hs & Ho & Hl).
  rewrite (setStatus_spec _ _ _ Hs). eexists. split; [reflexivity|].
  fill_simpl. rewrite Ho, Hl. reflexivity.
Qed.

Lemma setMember_fillable key value d :
  key <> "Status" -> key <> "Oem" -> key <> "Location" ->
  fillable d = true ->
  exists d', setPath [key] value d = Some d' /\ fillable d' = true.
Proof.
  intros H1 H2 H3 Hd.
  destruct (fillable_inv d Hd) as (m & -> & _).
  rewrite setPath_member. eexists. split; [reflexivity|].
  apply fillable_insert_other; assumption.
Qed.

Lemma setIfPresent_fillable key p d :
  key <> "Status" -> key <> "Oem" -> key <> "Location" ->
  fillable d = true ->
  exists d', setIfPresent key p d = Some d' /\ fillable d' = true.
Proof.
  intros H1 H2 H3 Hd. destruct p as [value|]; cbn [setIfPresent].
  - apply setMember_fillable; assumption.
  - exists d. auto.
Qed.

Lemma setLocation_fillable value d :
  fillable d = true ->
  exists d',
    setPath ["Location"; "PartLocation"; "ServiceLabel"] value d = Some d' /\
    fillable d' = true.
Proof.
  intros Hd. destruct (fillable_inv d Hd) as (m & -> & Hs & Ho & Hl).
  unfold setPath. rewrite updatePath_step by reflexivity. cbn [membersOf].
  rewrite updatePath_step by exact (nestedOrNull_objectOrNull _ _ Hl).
  rewrite updatePath_step by exact (nestedOrNull_member _ _ Hl).
  cbn [updatePath]. eexists. split; [reflexivity|].
  fill_simpl. rewrite Hs, Ho. reflexivity.
Qed.

Lemma setReadyToRemove_spec ready members :
  nestedOrNull "OpenBMC" (default JNull (members !! "Oem")) = true ->
  setReadyToRemove ready (JObject members)
  = Some
      (JObject
         (<["Oem" :=
              JObject
                (<["OpenBMC" :=
                     JObject
                       (<["ReadyToRemove" := JBool ready]>
                          (<["@odata.type" :=
                               JString "#OemAssembly.v1_0_0.OpenBMC"]>
                             (membersOf
                                (default JNull
                                   (membersOf
                                      (default JNull (members !! "Oem"))
                                    !! "OpenBMC")))))]>
                   (membersOf (default JNull (members !! "Oem"))))]>
            members)).
Proof.
  intros Ho. unfold setReadyToRemove.
  rewrite updatePath_step by reflexivity. cbn [membersOf].
  rewrite updatePath_step by exact (nestedOrNull_objectOrNull _ _ Ho).
  cbn [updatePath]. unfold setPath.
  rewrite updatePath_step by exact (nestedOrNull_member _ _ Ho).
  cbn [updatePath]. reflexivity.
Qed.

Lemma setReadyToRemove_fillable ready d :
  fillable d = true ->
  exists d', setReadyToRemove ready d = Some d' /\ fillable d' = true.
Proof.
  intros Hd. destruct (fillable_inv d Hd) as (m & -> & Hs & Ho & Hl).
  rewrite (setReadyToRemove_spec _ _ Ho). eexists. split; [reflexivity|].
  fill_simpl. rewrite Hs, Hl. reflexivity.
Qed.

Lemma touchAssemblies_listed res l :
  jsonValue res !! "Assemblies" = Some (JArray l) -> touchAssemblies res = res.
Proof. intros H. unfold touchAssemblies. rewrite H. reflexivity. Qed.

Lemma updateAssembly_ok i f res l d d' :
  jsonValue res !! "Assemblies" = Some (JArray l) ->
  l !! i = Some d ->
  f d = Some d' ->
  updateAssembly i f res
  = Some (setMember "Assemblies" (JArray (<[i := d']> l)) res).
Proof.
  intros Harr Hd Hf. unfold updateAssembly. rewrite Harr, Hd, Hf.
  reflexivity.
Qed.

Lemma kept_same i res l : listed res l -> kept i res res l.
Proof. intros H. exists l. repeat (split; [auto|]). left. reflexivity. Qed.

Lemma kept_error i res l :
  listed res l -> kept i res (report InternalError res) l.
Proof. intros H. exists l. repeat (split; [auto|]). right. reflexivity. Qed.

Lemma kept_trans i res1 res2 res3 l1 l2 :
  kept i res1 res2 l1 -> listed res2 l2 ->
  messages res3 = messages res2 ->
  kept i res2 res3 l2 ->
  messages res2 = messages res1 ->
  kept i res1 res3 l1.
Proof.
  intros (l2' & [Harr2 Hfill2] & Hlen2 & Hoth2 & Hmem2 & _) [Harr2' _] Hmsg3
    (l3 & Hl3 & Hlen3 & Hoth3 & Hmem3 & _) Hmsg2.
  assert (l2' = l2) as -> by congruence.
  exists l3. split; [exact Hl3|]. split; [congruence|].
  split; [intros j Hj; rewrite Hoth3, Hoth2 by exact Hj; reflexivity|].
  split; [intros k Hk; rewrite Hmem3, Hmem2 by exact Hk; reflexivity|].
  left. congruence.
Qed.

Lemma updateAssembly_kept i f res l :
  listed res l ->
  (i < length l)%nat ->
  (forall d, fillable d = true ->
             exists d', f d = Some d' /\ fillable d' = true) ->
  exists res',
    updateAssembly i f res = Some res' /\
    messages res' = messages res /\
    kept i res res' l.
Proof.
  intros [Harr Hfill] Hi Hf.
  destruct (lookup_lt_is_Some_2 l i Hi) as [d Hd].
  destruct (Hf d) as (d' & Hd' & Hfill').
  { exact (proj1 (Forall_lookup _ l) Hfill i d Hd). }
  rewrite (updateAssembly_ok _ _ _ _ _ _ Harr Hd Hd').
  eexists. split; [reflexivity|]. split; [reflexivity|].
  exists (<[i := d']> l). split.
  { split; [cbn; apply lookup_insert_eq|].
    apply Forall_insert; assumption. }
  split; [apply length_insert|].
  split; [intros j Hj; apply list_lookup_insert_ne; congruence|].
  split; [intros k Hk; cbn; apply lookup_insert_ne; congruence|].
  left. reflexivity.
Qed.

Lemma getAssemblyPresence_kept i res l :
  listed res l -> (i < length l)%nat ->
  exists res',
    getAssemblyPresence i res = Some res' /\
    messages res' = messages res /\ kept i res res' l.
Proof.
  intros Hl Hi. unfold getAssemblyPresence.
  apply updateAssembly_kept; [exact Hl|exact Hi|].
  intros d. apply setStatus_fillable.
Qed.

Lemma dispatchInterfaces_kept i interfaceList : forall res l,
  listed res l -> (i < length l)%nat ->
  exists res',
    dispatchInterfaces i interfaceList res = Some res' /\
    messages res' = messages res /\ kept i res res' l.
Proof.
  induction interfaceList as [|interface rest IH]; intros res l Hl Hi;
    cbn [dispatchInterfaces].
  - exists res. split; [reflexivity|]. split; [reflexivity|].
    apply kept_same. exact Hl.
  - assert (exists res1,
              (if String.eqb interface
                    "xyz.openbmc_project.Inventory.Decorator.Asset"
               then Some res
               else if String.eqb interface
                         "xyz.openbmc_project.Inventory.Decorator.LocationCode"
               then Some res
               else if String.eqb interface
                         "xyz.openbmc_project.State.Decorator.OperationalStatus"
               then Some res
               else if String.eqb interface
                         "xyz.openbmc_project.Inventory.Item"
               then getAssemblyPresence i res
               else Some res) = Some res1 /\
              messages res1 = messages res /\ kept i res res1 l)
      as (res1 & -> & Hmsg1 & Hkept1).
    { destruct (String.eqb interface _);
        [exists res; auto using kept_same|].
      destruct (String.eqb interface _);
        [exists res; auto using kept_same|].
      destruct (String.eqb interface _);
        [exists res; auto using kept_same|].
      destruct (String.eqb interface _);
        [|exists res; auto using kept_same].
      apply getAssemblyPresence_kept; assumption. }
    destruct Hkept1 as (l1 & Hl1 & Hlen1 & Hrest1).
    destruct (IH res1 l1 Hl1) as (res' & Hrun & Hmsg & Hkept);
      [rewrite Hlen1; exact Hi|].
    exists res'. split; [exact Hrun|]. split; [congruence|].
    apply (kept_trans i res res1 res' l l1); auto.
    exists l1. split; [exact Hl1|]. split; [exact Hlen1|].
    destruct Hrest1 as (H1 & H2 & _). repeat (split; [assumption|]).
    left. exact Hmsg1.
Qed.

Lemma dispatchServices_kept i object : forall res l,
  listed res l -> (i < length l)%nat ->
  exists res',
    dispatchServices i object res = Some res' /\
    messages res' = messages res /\ kept i res res' l.
Proof.
  induction object as [|[serviceName interfaceList] rest IH];
    intros res l Hl Hi; cbn [dispatchServices].
  - exists res. split; [reflexivity|]. split; [reflexivity|].
    apply kept_same. exact Hl.
  - destruct (dispatchInterfaces_kept i interfaceList res l Hl Hi)
      as (res1 & -> & Hmsg1 & Hkept1).
    pose proof Hkept1 as (l1 & Hl1 & Hlen1 & _).
    destruct (IH res1 l1 Hl1) as (res' & Hrun & Hmsg & Hkept);
      [rewrite Hlen1; exact Hi|].
    exists res'. split; [exact Hrun|]. split; [congruence|].
    apply (kept_trans i res res1 res' l l1); auto.
Qed.

Lemma runReply_kept r res l :
  listed res l -> (fst r < length l)%nat ->
  exists res', runReply r res = Some res' /\ kept (fst r) res res' l.
Proof.
  destruct r as [i reply]. cbn [fst]. intros Hl Hi.
  pose proof Hl as [Harr _].
  destruct reply
    as [ec object|ec1 success partNumber serialNumber sparePartNumber model
       |ec1 locationCode|ec|ec present|ec functional|asserted];
    unfold runReply; cbn [fst snd].
  - unfold afterGetDbusObject. destruct (failed ec).
    + eexists. split; [reflexivity|]. apply kept_error. exact Hl.
    + destruct (dispatchServices_kept i object res l Hl Hi)
        as (res' & Hrun & _ & Hkept). eauto.
  - unfold getAssemblyAsset. destruct (failed ec1).
    { eexists. split; [reflexivity|]. apply kept_error. exact Hl. }
    destruct success; cbn [negb].
    2:{ eexists. split; [reflexivity|]. apply kept_error. exact Hl. }
    match goal with
    | |- exists res', updateAssembly i ?f res = Some res' /\ _ =>
        destruct (updateAssembly_kept i f res l Hl Hi)
          as (res' & Hrun & _ & Hkept)
    end.
    { intros d Hd.
      destruct (setIfPresent_fillable "PartNumber" partNumber d)
        as (d1 & -> & Hd1); [discriminate..|exact Hd|].
      destruct (setIfPresent_fillable "SerialNumber" serialNumber d1)
        as (d2 & -> & Hd2); [discriminate..|exact Hd1|].
      destruct (setIfPresent_fillable "SparePartNumber" sparePartNumber d2)
        as (d3 & -> & Hd3); [discriminate..|exact Hd2|].
      apply setIfPresent_fillable; [discriminate..|exact Hd3]. }
    eauto.
  - unfold getAssemblyLocationCode. destruct (failed ec1).
    { eexists. split; [reflexivity|]. apply kept_error. exact Hl. }
    destruct (updateAssembly_kept i
                (setPath ["Location"; "PartLocation"; "ServiceLabel"]
                   (JString locationCode)) res l Hl Hi)
      as (res' & Hrun & _ & Hkept); [|eauto].
    intros d. apply setLocation_fillable.
  - unfold afterGetReadyToRemoveOfTodBattery.
    rewrite (touchAssemblies_listed _ _ Harr).
    destruct (failed ec).
    + destruct (ec =? io_error)%Z.
      * destruct (updateAssembly_kept i (setReadyToRemove true) res l Hl Hi)
          as (res' & Hrun & _ & Hkept); [|eauto].
        intros d. apply setReadyToRemove_fillable.
      * eexists. split; [reflexivity|]. apply kept_error. exact Hl.
    + destruct (updateAssembly_kept i (setReadyToRemove false) res l Hl Hi)
        as (res' & Hrun & _ & Hkept); [|eauto].
      intros d. apply setReadyToRemove_fillable.
  - unfold getAssemblyPresenceReply. destruct (failed ec).
    { eexists. split; [reflexivity|]. apply kept_error. exact Hl. }
    destruct present; cbn [negb].
    { eexists. split; [reflexivity|]. apply kept_same. exact Hl. }
    destruct (updateAssembly_kept i
                (setPath ["Status"; "State"] (JString "Absent")) res l Hl Hi)
      as (res' & Hrun & _ & Hkept); [|eauto].
    intros d. apply setStatus_fillable.
  - unfold getAssemblyHeath. destruct (failed ec).
    { eexists. split; [reflexivity|]. apply kept_error. exact Hl. }
    match goal with
    | |- exists res', updateAssembly i ?f res = Some res' /\ _ =>
        destruct (updateAssembly_kept i f res l Hl Hi)
          as (res' & Hrun & _ & Hkept); [|eauto]
    end.
    intros d Hd. destruct functional; cbn [negb];
      apply setStatus_fillable; exact Hd.
  - unfold setLocationIndicatorActiveMember.
    destruct (updateAssembly_kept i
                (setPath ["LocationIndicatorActive"] (JBool asserted)) res l
                Hl Hi)
      as (res' & Hrun & _ & Hkept); [|eauto].
    intros d. apply setMember_fillable; discriminate.
Qed.

Lemma namedItem_fillable ops chassis i assembly :
  fillable (namedItem ops chassis i assembly) = true.
Proof. reflexivity. Qed.

Lemma runReplies_listed rs : forall res l,
  listed res l ->
  Forall (fun r => (fst r < length l)%nat) rs ->
  exists res' l' errs,
    runReplies rs res = Some res' /\
    listed res' l' /\
    length l' = length l /\
    (forall j, (forall r, r ∈ rs -> fst r <> j) -> l' !! j = l !! j) /\
    (forall k, k <> "Assemblies" -> jsonValue res' !! k = jsonValue res !! k)
    /\
    messages res' = (messages res ++ errs)%list /\
    Forall (fun m => m = InternalError) errs /\
    (length errs <= length rs)%nat.
Proof.
  induction rs as [|r rest IH]; intros res l Hl Hrs; cbn [runReplies].
  - exists res, l, []. split; [reflexivity|]. split; [exact Hl|].
    split; [reflexivity|]. split; [reflexivity|]. split; [reflexivity|].
    split; [rewrite app_nil_r; reflexivity|]. split; [constructor|].
    reflexivity.
  - apply Forall_cons in Hrs as [Hr Hrest].
    destruct (runReply_kept r res l Hl Hr)
      as (res1 & -> & l1 & Hl1 & Hlen1 & Hoth1 & Hmem1 & Hmsg1).
    destruct (IH res1 l1 Hl1)
      as (res' & l' & errs & Hrun & Hl' & Hlen' & Hoth' & Hmem' & Hmsg'
          & Herrs & Hcount).
    { rewrite Hlen1. exact Hrest. }
    destruct Hmsg1 as [Hmsg1|Hmsg1].
    + exists res', l', errs. split; [exact Hrun|]. split; [exact Hl'|].
      split; [congruence|]. split.
      { intros j Hj. rewrite Hoth', Hoth1; [reflexivity| |].
        - apply not_eq_sym. apply Hj. left.
        - intros r' Hr'. apply Hj. right. exact Hr'. }
      split; [intros k Hk; rewrite Hmem', Hmem1 by exact Hk; reflexivity|].
      split; [congruence|]. split; [exact Herrs|]. cbn. lia.
    + exists res', l', (InternalError :: errs).
      split; [exact Hrun|]. split; [exact Hl'|].
      split; [congruence|]. split.
      { intros j Hj. rewrite Hoth', Hoth1; [reflexivity| |].
        - apply not_eq_sym. apply Hj. left.
        - intros r' Hr'. apply Hj. right. exact Hr'. }
      split; [intros k Hk; rewrite Hmem', Hmem1 by exact Hk; reflexivity|].
      split.
      { rewrite Hmsg', Hmsg1, <- app_assoc. reflexivity. }
      split; [constructor; [reflexivity|exact Herrs]|]. cbn. lia.
Qed.

Lemma imap_namedItem_fillable ops chassis assemblies :
  Forall (fun d => fillable d = true)
    (imap (fun i a => namedItem ops chassis i a) assemblies).
Proof.
  apply Forall_lookup. intros i d Hd.
  rewrite list_lookup_imap in Hd.
  destruct (assemblies !! i); [|discriminate Hd].
  injection Hd as <-. reflexivity.
Qed.

(** X23: the callbacks of a GET never throw.  After a GET that lists
    the assemblies of a chassis, whatever the services reply and in
    whatever order the replies for the listed assemblies arrive (the
    object of an assembly with its interfaces, its asset, location code,
    presence, health, location indicator, the voltage sensor of the
    battery), every callback returns.  The array keeps its length, which
    is the count reported; an element no reply is for stays as the GET
    has written it; the other members of the response stay; and the only
    messages added are internal errors, at most one for each reply. *)
Theorem handleAssemblyGet_replies_return
    ops bus chassisId res pre path post object service associations
    endpoints subtree rs :
  getSubTreePaths bus = (0, pre ++ path :: post) ->
  (forall p, p ∈ pre -> filename ops p <> chassisId) ->
  filename ops path = chassisId ->
  chassisId <> "" ->
  getObject bus path = (0, object) ->
  firstAssociationService object = Some service ->
  getAssociations bus service path = (0, Some associations) ->
  (exists a, a ∈ associations /\ fst (fst a) = "assembly") ->
  getEndpoints bus (assemblyPathOf ops path) = (0, Some endpoints) ->
  getSubTree bus = (0, subtree) ->
  implementedAssemblies endpoints subtree <> [] ->
  Forall
    (fun r => (fst r < length (implementedAssemblies endpoints subtree))%nat)
    rs ->
  exists res0 res' l' errs,
    handleAssemblyGet ops bus chassisId res = Some res0 /\
    runReplies rs res0 = Some res' /\
    jsonValue res' !! "Assemblies" = Some (JArray l') /\
    length l' = length (implementedAssemblies endpoints subtree) /\
    jsonValue res' !! "Assemblies@odata.count"
      = Some (JUnsigned (N.of_nat (length l'))) /\
    (forall j a,
        (forall r, r ∈ rs -> fst r <> j) ->
        implementedAssemblies endpoints subtree !! j = Some a ->
        l' !! j = Some (namedItem ops chassisId j a)) /\
    (forall k, k <> "Assemblies" -> jsonValue res' !! k = jsonValue res0 !! k)
    /\
    messages res' = (messages res ++ errs)%list /\
    Forall (fun m => m = InternalError) errs /\
    (length errs <= length rs)%nat.
Proof.
  intros Hpaths Hno Hyes Hid Hobject Hservice Hassoc Hassembly Hendpoints
    Hsubtree Hsome Hrs.
  destruct
    (handleAssemblyGet_response ops bus chassisId res pre path post object
       service associations endpoints subtree Hpaths Hno Hyes Hid Hobject
       Hservice Hassoc Hassembly Hendpoints Hsubtree Hsome)
    as (res0 & Hget & Hmsg0 & Harr0 & Hcount0 & _).
  destruct
    (runReplies_listed rs res0
       (imap (fun i a => namedItem ops chassisId i a)
          (implementedAssemblies endpoints subtree)))
    as (res' & l' & errs & Hrun & [Harr' _] & Hlen' & Hoth' & Hmem' & Hmsg'
        & Herrs & Hcount').
  { split; [exact Harr0|apply imap_namedItem_fillable]. }
  { rewrite length_imap. exact Hrs. }
  rewrite length_imap in Hlen'.
  exists res0, res', l', errs.
  split; [exact Hget|]. split; [exact Hrun|]. split; [exact Harr'|].
  split; [exact Hlen'|].
  split; [rewrite Hmem', Hcount0, Hlen' by discriminate; reflexivity|].
  split.
  { intros j a Hj Ha. rewrite (Hoth' j Hj), list_lookup_imap, Ha.
    reflexivity. }
  split; [exact Hmem'|].
  split; [rewrite Hmsg', Hmsg0; reflexivity|].
  split; [exact Herrs|exact Hcount'].
Qed.

(** The replies for the panel of the example chassis all return; the
    battery, for which no reply has come, stays as listed. *)
Lemma handleAssemblyGet_replies_return_witness :
  exists res0 res' l',
    handleAssemblyGet examplePathOps exampleBus "chassis" emptyResponse
      = Some res0 /\
    runReplies panelReplies res0 = Some res' /\
    jsonValue res' !! "Assemblies" = Some (JArray l') /\
    length l' = 2%nat /\
    l' !! 1%nat
      = Some
          (namedItem examplePathOps "chassis" 1
             "/xyz/openbmc_project/inventory/system/chassis/tod_battery") /\
    messages res' = [].
Proof.
  destruct
    (handleAssemblyGet_replies_return examplePathOps exampleBus "chassis"
       emptyResponse
       ["/xyz/openbmc_project/inventory/system/board"]
       "/xyz/openbmc_project/inventory/system/chassis" []
       [("xyz.openbmc_project.Inventory.Manager",
         ["xyz.openbmc_project.Inventory.Item.Chassis";
          "xyz.openbmc_project.Association.Definitions"])]
       "xyz.openbmc_project.Inventory.Manager"
       [("assembly", "chassis",
         "/xyz/openbmc_project/inventory/system/chassis/panel")]
       ["/xyz/openbmc_project/inventory/system/chassis/tod_battery";
        "/xyz/openbmc_project/inventory/system/chassis/fan0";
        "/xyz/openbmc_project/inventory/system/chassis/panel"]
       (snd (getSubTree exampleBus)) panelReplies)
    as (res0 & res' & l' & errs & Hget & Hrun & Harr & Hlen & _ & Hoth & _
        & Hmsg & _).
  - reflexivity.
  - intros p Hp. apply list_elem_of_singleton in Hp as ->.
    vm_compute. discriminate.
  - vm_compute. reflexivity.
  - discriminate.
  - reflexivity.
  - vm_compute. reflexivity.
  - reflexivity.
  - eexists. split; [left|reflexivity].
  - reflexivity.
  - reflexivity.
  - vm_compute. discriminate.
  - apply (bool_decide_unpack _). vm_compute. exact I.
  - exists res0, res', l'. split; [exact Hget|]. split; [exact Hrun|].
    split; [exact Harr|]. split; [exact Hlen|]. split.
    + apply Hoth; [|vm_compute; reflexivity].
      apply Forall_forall.
      apply (bool_decide_unpack _). vm_compute. exact I.
    + assert (messages
                <$> (handleAssemblyGet examplePathOps exampleBus "chassis"
                       emptyResponse
                     ≫= runReplies panelReplies)
              = Some []) as Hnone by (vm_compute; reflexivity).
      rewrite Hget in Hnone. cbn [mbind option_bind] in Hnone.
      rewrite Hrun in Hnone. injection Hnone as Hnone. exact Hnone.
Defined.

Lemma updateAssembly_after i g res l d1 d2 :
  (i < length l)%nat ->
  g d1 = Some d2 ->
  updateAssembly i g (setMember "Assemblies" (JArray (<[i := d1]> l)) res)
  = Some (setMember "Assemblies" (JArray (<[i := d2]> l)) res).
Proof.
  intros Hi Hg. unfold updateAssembly, setMember. cbn [jsonValue messages].
  rewrite lookup_insert_eq, list_lookup_insert_eq by exact Hi. rewrite Hg.
  rewrite insert_insert_eq, list_insert_insert_eq. reflexivity.
Qed.

Lemma setStatus_again key value s members :
  setPath ["Status"; key] value (JObject (<["Status" := JObject s]> members))
  = Some (JObject (<["Status" := JObject (<[key := value]> s)]> members)).
Proof.
  rewrite setStatus_spec by (rewrite lookup_insert_eq; reflexivity).
  unfold statusOf. rewrite lookup_insert_eq. cbn [default from_option id].
  cbn [membersOf]. rewrite insert_insert_eq. reflexivity.
Qed.

(** X24: presence and health share the Status of an element without
    overwriting each other.  For an element whose Status is absent, null
    or an object, getAssemblyPresence, its reply and the reply of
    getAssemblyHeath, all without error, leave the same response in each
    order in which they can come: the Status of the element has the State
    Enabled or Absent as the assembly is present or not, the Health OK
    or Critical as it is functional or not, and the members it had
    before; nothing else changes. *)
Theorem assembly_status_any_order i res l members
    (present functional : bool) :
  jsonValue res !! "Assemblies" = Some (JArray l) ->
  l !! i = Some (JObject members) ->
  objectOrNull (default JNull (members !! "Status")) = true ->
  let final :=
    setMember "Assemblies"
      (JArray
         (<[i :=
              JObject
                (<["Status" :=
                     JObject
                       (<["Health" :=
                            JString (if functional then "OK" else "Critical")]>
                          (<["State" :=
                               JString
                                 (if present then "Enabled" else "Absent")]>
                             (statusOf members)))]>
                   members)]>
            l))
      res in
  ((getAssemblyPresence i res
      ≫= getAssemblyPresenceReply i 0 present)
     ≫= getAssemblyHeath i 0 functional)
  = Some final /\
  ((getAssemblyPresence i res
      ≫= getAssemblyHeath i 0 functional)
     ≫= getAssemblyPresenceReply i 0 present)
  = Some final /\
  ((getAssemblyHeath i 0 functional res
      ≫= getAssemblyPresence i)
     ≫= getAssemblyPresenceReply i 0 present)
  = Some final.
Proof.
  intros Harr Hd Hstatus final. subst final.
  pose proof (lookup_lt_Some _ _ _ Hd) as Hi.
  unfold getAssemblyPresence, getAssemblyPresenceReply, getAssemblyHeath.
  cbn [failed Z.eqb negb].
  repeat split.
  - rewrite (updateAssembly_ok _ _ _ _ _ _ Harr Hd
               (setStatus_spec _ _ _ Hstatus)).
    cbn [mbind option_bind].
    destruct present, functional; cbn [negb mbind option_bind];
      repeat (rewrite (updateAssembly_after _ _ _ _ _ _ Hi
                         (setStatus_again _ _ _ _));
              cbn [mbind option_bind]);
      rewrite ?insert_insert_eq; reflexivity.
  - rewrite (updateAssembly_ok _ _ _ _ _ _ Harr Hd
               (setStatus_spec _ _ _ Hstatus)).
    cbn [mbind option_bind].
    destruct present, functional; cbn [negb mbind option_bind];
      repeat (rewrite (updateAssembly_after _ _ _ _ _ _ Hi
                         (setStatus_again _ _ _ _));
              cbn [mbind option_bind]);
      rewrite ?(insert_insert_ne _ "State" "Health") by discriminate;
      rewrite ?insert_insert_eq; reflexivity.
  - destruct present, functional; cbn [negb mbind option_bind];
      rewrite (updateAssembly_ok _ _ _ _ _ _ Harr Hd
                 (setStatus_spec _ _ _ Hstatus));
      cbn [mbind option_bind];
      repeat (rewrite (updateAssembly_after _ _ _ _ _ _ Hi
                         (setStatus_again _ _ _ _));
              cbn [mbind option_bind]);
      rewrite ?insert_insert_eq;
      rewrite ?(insert_insert_ne _ "State" "Health") by discriminate;
      reflexivity.
Qed.

(** The panel of the example is absent and functional. *)
Lemma assembly_status_any_order_witness :
  ((getAssemblyPresence 0 panelResponse
      ≫= getAssemblyPresenceReply 0 0 false)
     ≫= getAssemblyHeath 0 0 true)
  = ((getAssemblyHeath 0 0 true panelResponse
        ≫= getAssemblyPresence 0)
       ≫= getAssemblyPresenceReply 0 0 false).
Proof.
  destruct
    (assembly_status_any_order 0 panelResponse
       [namedItem examplePathOps "chassis" 0
          "/xyz/openbmc_project/inventory/system/chassis/panel"]
       (<["Name" := JString "panel"]> (assemblyItem examplePathOps "chassis" 0))
       false true)
    as (Hfirst & _ & Hlast).
  - reflexivity.
  - reflexivity.
  - reflexivity.
  - rewrite Hfirst, Hlast. reflexivity.
Defined.

(** X25: afterGetReadyToRemoveOfTodBattery reports the battery ready to
    remove exactly when the voltage sensor is not on the bus.  For an
    element whose Oem and its OpenBMC are absent, null or objects: with
    no error it writes ReadyToRemove false, with the error io_error it
    writes ReadyToRemove true, in both cases with the type of the
    OpenBMC object, keeping what else is in OpenBMC, in Oem and in the
    element, and reporting nothing; with any other error it reports an
    internal error and writes nothing. *)
Theorem afterGetReadyToRemoveOfTodBattery_flag i ec res l members :
  jsonValue res !! "Assemblies" = Some (JArray l) ->
  l !! i = Some (JObject members) ->
  nestedOrNull "OpenBMC" (default JNull (members !! "Oem")) = true ->
  (ec <> 0 -> ec <> io_error ->
   afterGetReadyToRemoveOfTodBattery i ec res
     = Some (report InternalError res)) /\
  (ec = 0 \/ ec = io_error ->
   exists members' oem openbmc,
     afterGetReadyToRemoveOfTodBattery i ec res
       = Some
           (setMember "Assemblies" (JArray (<[i := JObject members']> l)) res)
     /\
     members' !! "Oem" = Some (JObject oem) /\
     oem !! "OpenBMC" = Some (JObject openbmc) /\
     openbmc !! "ReadyToRemove" = Some (JBool (bool_decide (ec = io_error))) /\
     openbmc !! "@odata.type"
       = Some (JString "#OemAssembly.v1_0_0.OpenBMC") /\
     (forall k, k <> "ReadyToRemove" -> k <> "@odata.type" ->
        openbmc !! k
          = membersOf
              (default JNull
                 (membersOf (default JNull (members !! "Oem")) !! "OpenBMC"))
            !! k) /\
     (forall k, k <> "OpenBMC" ->
        oem !! k = membersOf (default JNull (members !! "Oem")) !! k) /\
     (forall k, k <> "Oem" -> members' !! k = members !! k)).
Proof.
  intros Harr Hd Hoem. unfold afterGetReadyToRemoveOfTodBattery.
  rewrite (touchAssemblies_listed _ _ Harr). split.
  - intros Hne0 Hneio. unfold failed.
    rewrite (proj2 (Z.eqb_neq ec 0) Hne0).
    rewrite (proj2 (Z.eqb_neq ec io_error) Hneio). reflexivity.
  - intros Hec.
    assert ((if failed ec
             then
               if (ec =? io_error)%Z
               then updateAssembly i (setReadyToRemove true) res
               else Some (report InternalError res)
             else updateAssembly i (setReadyToRemove false) res)
            = updateAssembly i
                (setReadyToRemove (bool_decide (ec = io_error))) res) as ->.
    { destruct Hec as [->| ->]; reflexivity. }
    rewrite (updateAssembly_ok _ _ _ _ _ _ Harr Hd
               (setReadyToRemove_spec _ _ Hoem)).
    eexists _, _, _. split; [reflexivity|].
    split; [apply lookup_insert_eq|].
    split; [apply lookup_insert_eq|].
    split; [apply lookup_insert_eq|].
    split; [rewrite lookup_insert_ne by discriminate; apply lookup_insert_eq|].
    split; [intros k H1 H2; rewrite !lookup_insert_ne by congruence;
            reflexivity|].
    split; intros k Hk; rewrite lookup_insert_ne by congruence; reflexivity.
Qed.

(** The sensor of the battery is not on the bus: the panel of the
    example, taken as the battery, is ready to remove. *)
Lemma afterGetReadyToRemoveOfTodBattery_flag_witness :
  exists members' oem openbmc,
    afterGetReadyToRemoveOfTodBattery 0 io_error panelResponse
      = Some
          (setMember "Assemblies" (JArray [JObject members']) panelResponse)
    /\
    members' !! "Oem" = Some (JObject oem) /\
    oem !! "OpenBMC" = Some (JObject openbmc) /\
    openbmc !! "ReadyToRemove" = Some (JBool true).
Proof.
  destruct
    (afterGetReadyToRemoveOfTodBattery_flag 0 io_error panelResponse
       [namedItem examplePathOps "chassis" 0
          "/xyz/openbmc_project/inventory/system/chassis/panel"]
       (<["Name" := JString "panel"]> (assemblyItem examplePathOps "chassis" 0)))
    as (_ & Hflag).
  - reflexivity.
  - reflexivity.
  - reflexivity.
  - destruct Hflag as (members' & oem & openbmc & Hrun & Hoem & Hopenbmc
                       & Hready & _); [right; reflexivity|].
    exists members', oem, openbmc. auto.
Defined.

Lemma setIfPresent_object key p members :
  setIfPresent key p (JObject members)
  = Some
      (JObject
         (match p with
          | Some value => <[key := JString value]> members
          | None => members
          end)).
Proof. destruct p; reflexivity. Qed.

(** X26: the reply with the asset of an assembly writes the properties
    the service has and no other.  When the call or the unpacking fails
    it reports an internal error and writes nothing.  Otherwise each of
    PartNumber, SerialNumber, SparePartNumber and Model that was found is
    written to the element, a member whose property was not found stays
    as it was, and so does every other member of the element, every
    other element and the messages. *)
Theorem getAssemblyAsset_writes
    i ec1 success partNumber serialNumber sparePartNumber model res l
    members :
  jsonValue res !! "Assemblies" = Some (JArray l) ->
  l !! i = Some (JObject members) ->
  (failed ec1 = true \/ success = false ->
   getAssemblyAsset i ec1 success partNumber serialNumber sparePartNumber
     model res
   = Some (report InternalError res)) /\
  (failed ec1 = false -> success = true ->
   exists members',
     getAssemblyAsset i ec1 success partNumber serialNumber sparePartNumber
       model res
     = Some
         (setMember "Assemblies" (JArray (<[i := JObject members']> l)) res)
     /\
     members' !! "PartNumber"
       = match partNumber with
         | Some value => Some (JString value)
         | None => members !! "PartNumber"
         end /\
     members' !! "SerialNumber"
       = match serialNumber with
         | Some value => Some (JString value)
         | None => members !! "SerialNumber"
         end /\
     members' !! "SparePartNumber"
       = match sparePartNumber with
         | Some value => Some (JString value)
         | None => members !! "SparePartNumber"
         end /\
     members' !! "Model"
       = match model with
         | Some value => Some (JString value)
         | None => members !! "Model"
         end /\
     (forall k,
         k <> "PartNumber" -> k <> "SerialNumber" ->
         k <> "SparePartNumber" -> k <> "Model" ->
         members' !! k = members !! k)).
Proof.
  intros Harr Hd. unfold getAssemblyAsset. split.
  - intros [-> | ->]; [reflexivity|]. destruct (failed ec1); reflexivity.
  - intros -> ->. cbn [negb].
    erewrite (updateAssembly_ok _ _ _ _ _ _ Harr Hd).
    2:{ rewrite !setIfPresent_object. reflexivity. }
    eexists. split; [reflexivity|].
    destruct partNumber, serialNumber, sparePartNumber, model;
      repeat split;
      try (intros k H1 H2 H3 H4);
      rewrite ?lookup_insert_eq;
      repeat (rewrite lookup_insert_ne by congruence;
              rewrite ?lookup_insert_eq);
      reflexivity.
Qed.

(** The panel has a part number and a serial number, and no model. *)
Lemma getAssemblyAsset_writes_witness :
  exists members',
    getAssemblyAsset 0 0 true (Some "02WG677") (Some "YL10JH") None None
      panelResponse
    = Some (setMember "Assemblies" (JArray [JObject members']) panelResponse)
    /\
    members' !! "PartNumber" = Some (JString "02WG677") /\
    members' !! "SerialNumber" = Some (JString "YL10JH") /\
    members' !! "Model" = None /\
    members' !! "Name" = Some (JString "panel").
Proof.
  destruct
    (getAssemblyAsset_writes 0 0 true (Some "02WG677") (Some "YL10JH") None
       None panelResponse
       [namedItem examplePathOps "chassis" 0
          "/xyz/openbmc_project/inventory/system/chassis/panel"]
       (<["Name" := JString "panel"]> (assemblyItem examplePathOps "chassis" 0)))
    as (_ & Hwrites).
  - reflexivity.
  - reflexivity.
  - destruct Hwrites
      as (members' & Hrun & Hpart & Hserial & _ & Hmodel & Hother);
      [reflexivity..|].
    exists members'. split; [exact Hrun|]. split; [exact Hpart|].
    split; [exact Hserial|]. split; [rewrite Hmodel; reflexivity|].
    rewrite Hother by discriminate. reflexivity.
Defined.
